(** * PharmaCIScraperEngine: goal-aware change detection and importance scoring

    A shallow embedding of the change-analysis core of the repository:

    - [goal_text_change_test/compare_texts.py]  ([Module CompareTexts])
    - [goal_text_change_test/bedrock_prompt.py] ([Module BedrockPrompt])
    - [src/change_analysis/importance.py]       ([Module Importance])
    - [src/change_analysis/utils_dom.py]        ([Module UtilsDom])
    - [src/change_analysis/utils_image.py]      ([Module UtilsImage])
    - [src/change_analysis/llm_adapter.py]      ([Module LlmAdapter])
    - [src/change_analysis/pipeline.py]         ([Module Pipeline])

    Modelling conventions.

    - A Python [float] is an exact rational ([Q]): sums, products, comparisons
      and [min]/[max] are the exact ones, and [round(x, n)] rounds the exact
      value to [n] decimals, ties to even.  Binary64 rounding error, NaN and
      infinities are outside that model.  The primary scoring function is
      modelled a second time with its arithmetic in binary64
      ([Module Binary64], [Module CompareTexts64]), for the statements on
      which the rounding of each operation bears.
    - A Python [int] is a [Z]; [int / float] is exact division in [Q].
    - A Python [str] is a [string], one [ascii] per character; texts are taken
      in the ASCII range ([lower], [strip] and the regular-expression classes
      act on ASCII letters, digits and white space; other bytes pass through
      unchanged).
    - A [dict] keyed by strings is a [gmap string _].
    - An exception is a [Raised] result; a [try/except] is a match on it.
    - Third-party and built-in services (Pillow, BeautifulSoup, difflib,
      base64, float formatting, the clock, the environment, the file system
      and the Bedrock endpoint) are fields of the [Platform] and [World]
      records that the functions receive explicitly. *)

From stdpp Require Import gmap strings list sorting pretty.
From Stdlib Require Import ZArith QArith Qround Qabs Qminmax Lia Lqa String Ascii.
From Stdlib Require Import Floats.SpecFloat.

Local Open Scope string_scope.

(* ===================================================================== *)
(** * Part I: the program                                                 *)
(* ===================================================================== *)

(** ** Python numbers *)

Module PyNum.
Local Open Scope Q_scope.

(** [x < y] on floats, as a boolean. *)
Definition Qltb (x y : Q) : bool := negb (Qle_bool y x).

(** [min(a, b)]: the builtin keeps its first argument unless the second is
    strictly smaller. *)
Definition py_min (a b : Q) : Q := if Qltb b a then b else a.

(** [max(a, b)]: the builtin keeps its first argument unless the second is
    strictly larger. *)
Definition py_max (a b : Q) : Q := if Qltb a b then b else a.

(** Nearest integer, ties to even. *)
Definition round_half_even (x : Q) : Z :=
  let f := Qfloor x in
  match Qcompare (x - inject_Z f) (1 # 2) with
  | Lt => f
  | Gt => (f + 1)%Z
  | Eq => if Z.even f then f else (f + 1)%Z
  end.

(** [round(x, ndigits)]. *)
Definition py_round (x : Q) (ndigits : nat) : Q :=
  let scale := (10 ^ Z.of_nat ndigits)%Z in
  round_half_even (x * inject_Z scale) # Z.to_pos scale.

(** [int(x)]: truncation toward zero. *)
Definition py_int (x : Q) : Z := Z.quot (Qnum x) (Zpos (Qden x)).

(** [sum(xs)] over floats. *)
Definition py_sum (xs : list Q) : Q := fold_left Qplus xs 0.
End PyNum.

(** ** Python strings *)

Module PyStr.

Definition code (c : ascii) : N := N_of_ascii c.

Definition is_upper (c : ascii) : bool := (65 <=? code c)%N && (code c <=? 90)%N.
Definition is_lower (c : ascii) : bool := (97 <=? code c)%N && (code c <=? 122)%N.
Definition is_digit (c : ascii) : bool := (48 <=? code c)%N && (code c <=? 57)%N.
Definition is_alpha (c : ascii) : bool := is_upper c || is_lower c.

(** [\w] *)
Definition is_word (c : ascii) : bool := is_alpha c || is_digit c || (code c =? 95)%N.

(** [str.isspace] and [\s] on the ASCII range: TAB, LF, VT, FF, CR, FS, GS,
    RS, US and the space. *)
Definition is_space (c : ascii) : bool :=
  ((9 <=? code c)%N && (code c <=? 13)%N) || ((28 <=? code c)%N && (code c <=? 32)%N).

Definition lower_char (c : ascii) : ascii :=
  if is_upper c then ascii_of_N (code c + 32) else c.
Definition upper_char (c : ascii) : ascii :=
  if is_lower c then ascii_of_N (code c - 32) else c.

(** [s.lower()] *)
Fixpoint lower (s : string) : string :=
  match s with
  | "" => ""
  | String c s' => String (lower_char c) (lower s')
  end.

(** [s.startswith(p)] *)
Fixpoint startswith (p s : string) : bool :=
  match p, s with
  | "", _ => true
  | String a p', String b s' => Ascii.eqb a b && startswith p' s'
  | String _ _, "" => false
  end.

(** [sub in s] *)
Fixpoint contains (sub s : string) : bool :=
  startswith sub s ||
  match s with
  | "" => false
  | String _ s' => contains sub s'
  end.

(** [s[:n]] for [0 <= n]. *)
Fixpoint take (n : nat) (s : string) : string :=
  match n, s with
  | S n', String c s' => String c (take n' s')
  | _, _ => ""
  end.

(** [s[n:]] for [0 <= n]. *)
Fixpoint drop (n : nat) (s : string) : string :=
  match n, s with
  | S n', String _ s' => drop n' s'
  | _, _ => s
  end.

Definition len (s : string) : Z := Z.of_nat (String.length s).

(** [s[:k]] for any integer [k]: a negative bound counts from the end. *)
Definition slice_to (k : Z) (s : string) : string :=
  if (k <? 0)%Z then take (Z.to_nat (len s + k)) s else take (Z.to_nat k) s.

(** [s[k:]] for any integer [k]: a negative bound counts from the end. *)
Definition slice_from (k : Z) (s : string) : string :=
  if (k <? 0)%Z then drop (Z.to_nat (len s + k)) s else drop (Z.to_nat k) s.

(** [s.lstrip()] *)
Fixpoint lstrip (s : string) : string :=
  match s with
  | "" => ""
  | String c s' => if is_space c then lstrip s' else s
  end.

(** [s.rstrip()] *)
Fixpoint rstrip (s : string) : string :=
  match s with
  | "" => ""
  | String c s' =>
      match rstrip s' with
      | "" => if is_space c then "" else String c ""
      | r => String c r
      end
  end.

(** [s.strip()] *)
Definition strip (s : string) : string := rstrip (lstrip s).

(** [sep.join(parts)] *)
Fixpoint join (sep : string) (parts : list string) : string :=
  match parts with
  | [] => ""
  | [p] => p
  | p :: rest => p ++ sep ++ join sep rest
  end.

(** [s.title()]: a letter is upper-cased when the character before it is
    not a letter, and lower-cased otherwise. *)
Fixpoint title_from (prev_alpha : bool) (s : string) : string :=
  match s with
  | "" => ""
  | String c s' =>
      String (if prev_alpha then lower_char c else upper_char c)
             (title_from (is_alpha c) s')
  end.
Definition title (s : string) : string := title_from false s.

(** [s.split()]: the maximal runs of characters that are not white space. *)
Fixpoint split_ws_from (cur : string) (s : string) : list string :=
  match s with
  | "" => if String.eqb cur "" then [] else [cur]
  | String c s' =>
      if is_space c
      then (if String.eqb cur "" then split_ws_from "" s' else cur :: split_ws_from "" s')
      else split_ws_from (cur ++ String c "") s'
  end.
Definition split_ws (s : string) : list string := split_ws_from "" s.

(** [s.splitlines()]: a line ends at LF, VT, FF, CR (with a following LF),
    FS, GS or RS; a final line without characters is dropped. *)
Definition is_linebreak (c : ascii) : bool :=
  ((10 <=? code c)%N && (code c <=? 13)%N) || ((28 <=? code c)%N && (code c <=? 30)%N).
Fixpoint splitlines_from (cur : string) (after_cr : bool) (s : string) : list string :=
  match s with
  | "" => if String.eqb cur "" then [] else [cur]
  | String c s' =>
      if after_cr && Ascii.eqb c "010" then splitlines_from cur false s'
      else if is_linebreak c then cur :: splitlines_from "" (Ascii.eqb c "013") s'
      else splitlines_from (cur ++ String c "") false s'
  end.
Definition splitlines (s : string) : list string := splitlines_from "" false s.

(** [str(n)] for an integer. *)
Definition str_int (n : Z) : string := pretty n.
End PyStr.

(** ** Regular expressions: a backtracking matcher in the order of [re] *)

Module Re.
Import PyStr.

Inductive regex :=
| Eps
| Cls (p : ascii -> bool)                      (* a character class *)
| Lit (s : string)                             (* literal text *)
| Seq (a b : regex)
| Alt (a b : regex)                            (* a|b, a tried first *)
| Star (greedy : bool) (r : regex)             (* r* and r*? *)
| Rep (greedy : bool) (lo hi : nat) (r : regex) (* r{lo,hi} and r{lo,hi}? *)
| Grp (n : nat) (r : regex)                    (* capture group n *)
| NotAhead (r : regex).                        (* (?!r) *)

Definition Plus (greedy : bool) (r : regex) : regex := Seq r (Star greedy r).
Definition Opt (r : regex) : regex := Alt r Eps.

Definition ws : regex := Cls is_space.                                  (* \s *)
Definition digit : regex := Cls is_digit.                               (* \d *)
Definition digits : regex := Plus true digit.                           (* \d+ *)
Definition any_but (c : ascii) : regex := Cls (fun a => negb (Ascii.eqb a c)).
Definition dot : regex := any_but "010".                                (* . *)
Definition ws_or_colon : regex := Cls (fun a => is_space a || Ascii.eqb a ":"). (* [\s:] *)

(** Captured groups, the most recent first. *)
Definition caps := list (nat * string).

Fixpoint strip_prefix (p s : string) : option string :=
  match p, s with
  | "", _ => Some s
  | String a p', String b s' => if Ascii.eqb a b then strip_prefix p' s' else None
  | String _ _, "" => None
  end.

Definition orelse {A} (x y : option A) : option A :=
  match x with
  | Some _ => x
  | None => y
  end.

(** The text between a position [s] and a later position [s']. *)
Definition consumed (s s' : string) : string :=
  take (String.length s - String.length s') s.

(** The loop of [r*] and [r*?]: [step] matches [r] once; an iteration has to
    consume a character, so the length of the text bounds their number. *)
Definition star_loop {A : Type}
    (step : string -> caps -> (string -> caps -> option A) -> option A)
    (greedy : bool) (k : string -> caps -> option A) : nat -> string -> caps -> option A :=
  fix loop (n : nat) (s : string) (c : caps) {struct n} : option A :=
    let again :=
      match n with
      | O => None
      | S n' =>
          step s c (fun s' c' =>
            if (String.length s' <? String.length s)%nat then loop n' s' c' else None)
      end in
    if greedy then orelse again (k s c) else orelse (k s c) again.

(** The loop of [r{lo,hi}] and [r{lo,hi}?]. *)
Definition rep_loop {A : Type}
    (step : string -> caps -> (string -> caps -> option A) -> option A)
    (greedy : bool) (k : string -> caps -> option A) : nat -> nat -> string -> caps -> option A :=
  fix loop (lo hi : nat) (s : string) (c : caps) {struct hi} : option A :=
    match hi with
    | O => match lo with O => k s c | S _ => None end
    | S hi' =>
        let again := step s c (fun s' c' => loop (Nat.pred lo) hi' s' c') in
        match lo with
        | S _ => again
        | O => if greedy then orelse again (k s c) else orelse (k s c) again
        end
    end.

(** [m r s c k]: match [r] at the head of [s] with captures [c], then hand
    the rest to [k]; the first success in backtracking order wins. *)
Fixpoint m (r : regex) {A : Type} (s : string) (c : caps)
    (k : string -> caps -> option A) {struct r} : option A :=
  match r with
  | Eps => k s c
  | Cls p =>
      match s with
      | String a s' => if p a then k s' c else None
      | "" => None
      end
  | Lit l =>
      match strip_prefix l s with
      | Some s' => k s' c
      | None => None
      end
  | Seq a b => m a s c (fun s' c' => m b s' c' k)
  | Alt a b => orelse (m a s c k) (m b s c k)
  | Star greedy r1 =>
      star_loop (fun s' c' k' => m r1 s' c' k') greedy k (String.length s) s c
  | Rep greedy lo hi r1 =>
      rep_loop (fun s' c' k' => m r1 s' c' k') greedy k lo hi s c
  | Grp n r1 => m r1 s c (fun s' c' => k s' ((n, consumed s s') :: c'))
  | NotAhead r1 =>
      match m r1 s c (fun _ _ => Some tt) with
      | Some _ => None
      | None => k s c
      end
  end.

(** [p*?] and [p*] for a character class [p], by recursion on the text. *)
Fixpoint lazy_cls {A : Type} (p : ascii -> bool) (k : string -> caps -> option A)
    (s : string) (c : caps) : option A :=
  orelse (k s c)
    match s with
    | String a s' => if p a then lazy_cls p k s' c else None
    | "" => None
    end.

Fixpoint greedy_cls {A : Type} (p : ascii -> bool) (k : string -> caps -> option A)
    (s : string) (c : caps) : option A :=
  match s with
  | String a s' => if p a then orelse (greedy_cls p k s' c) (k s c) else k s c
  | "" => k s c
  end.

(** A match object: [group()] and the numbered groups. *)
Record match_obj := { whole : string; groups : caps }.

(** [mo.group(n)] *)
Definition group (mo : match_obj) (n : nat) : string :=
  default "" (snd <$> List.find (fun '(i, _) => Nat.eqb i n) (groups mo)).

(** [re.match(r, s)]: a match at the head of [s]. *)
Definition match_at (r : regex) (s : string) : option match_obj :=
  m r s [] (fun s' c => Some {| whole := consumed s s'; groups := c |}).

(** [re.search(r, s)]: the left-most position with a match. *)
Fixpoint search (r : regex) (s : string) : option match_obj :=
  match match_at r s with
  | Some mo => Some mo
  | None =>
      match s with
      | "" => None
      | String _ s' => search r s'
      end
  end.
End Re.

(** ** Results, JSON values and the services the code calls *)

(** The outcome of a call that may raise. *)
Inductive result (A : Type) : Type :=
| Ok (a : A)
| Raised (exn : string).

Arguments Ok {A} a.
Arguments Raised {A} exn.

#[global] Instance result_ret : MRet result := fun A a => Ok a.

#[global] Instance result_bind : MBind result := fun A B f r =>
  match r with
  | Ok a => f a
  | Raised e => Raised e
  end.

Definition of_option {A} (exn : string) (o : option A) : result A :=
  match o with
  | Some a => Ok a
  | None => Raised exn
  end.

(** What [json.loads] returns. *)
#[warnings="-register-all"]
Inductive json :=
| JNull
| JBool (b : bool)
| JNum (q : Q)
| JStr (s : string)
| JArr (l : list json)
| JObj (m : gmap string json).

Module Json.
(** The value of a JSON value in float arithmetic: numbers, and booleans as
    0 and 1; anything else is a [TypeError]. *)
Definition as_number (v : json) : option Q :=
  match v with
  | JNum q => Some q
  | JBool b => Some (if b then 1%Q else 0%Q)
  | _ => None
  end.

(** [d.get(key, dflt)] on a parsed value: an [AttributeError] unless the
    value is an object. *)
Definition get (d : json) (key : string) (dflt : json) : option json :=
  match d with
  | JObj m => Some (default dflt (m !! key))
  | _ => None
  end.

(** [v[key]] *)
Definition item (v : json) (key : string) : option json :=
  match v with
  | JObj m => m !! key
  | _ => None
  end.

(** [v[0]] followed by a key lookup only succeeds on a non-empty array. *)
Definition first (v : json) : option json :=
  match v with
  | JArr (x :: _) => Some x
  | _ => None
  end.
End Json.

(** One opcode of [SequenceMatcher.get_opcodes()]. *)
Inductive opcode_tag := op_equal | op_replace | op_insert | op_delete.

Record opcode := {
  op_tag : opcode_tag;
  op_i1 : Z; op_i2 : Z;
  op_j1 : Z; op_j2 : Z
}.

(** The libraries the code calls, as pure functions. *)
Class Platform := {
  (** A decoded [PIL.Image]. *)
  image : Type;
  (** [Image.open(io.BytesIO(b)).convert("RGB")]; [None] when it raises. *)
  image_open : list Byte.byte -> option image;
  (** [Image.new("RGB", (64, 64), "white")] *)
  image_blank : image;
  (** [list(img.convert("L").resize((w, h), Image.LANCZOS).getdata())] *)
  gray_pixels : image -> Z -> Z -> list Z;
  (** [_encode_image_b64(img)]: the base64 text, [None] on an error. *)
  image_encode_b64 : image -> option string;
  (** [base64.b64decode(s)]; [None] when it raises. *)
  b64decode : string -> option (list Byte.byte);
  (** [html.unescape(soup.get_text(separator=" "))] after the [script],
      [style] and [noscript] elements are removed. *)
  soup_text : string -> string;
  (** [SequenceMatcher(None, a, b).get_opcodes()] on word lists. *)
  sm_opcodes : list string -> list string -> list opcode;
  (** [SequenceMatcher(None, a, b).ratio()] on word lists. *)
  sm_ratio_words : list string -> list string -> Q;
  (** [SequenceMatcher(None, a, b).ratio()] on texts. *)
  sm_ratio_chars : string -> string -> Q;
  (** [difflib.unified_diff(a, b)] *)
  unified_diff : list string -> list string -> list string;
  (** [difflib.ndiff(a, b)] *)
  ndiff : list string -> list string -> list string;
  (** [format(x, spec)] for a float; the empty spec is [str(x)]. *)
  float_format : string -> Q -> string;
  (** [float(s)] on an arbitrary string; [None] when it raises. *)
  float_of_str : string -> option Q;
  (** [x ** 0.5] *)
  float_sqrt : Q -> Q;
  (** [json.loads(s)]; [None] when it raises. *)
  json_loads : string -> option json;
  (** [json.dumps(d)] for a dict, given as its items in order. *)
  json_dumps : list (string * json) -> string;
}.

(** What a Bedrock request is computed from: the payload of
    [build_universal_bedrock_prompt] is a function of these values (its fixed
    instruction text is not reproduced). *)
Record bedrock_request := {
  req_model_id : string;
  req_region : string;
  req_goal : string;
  req_previous : string;
  req_current : string;
  req_visual_similarity : option Q;
  req_images : option (string * string)
}.

(** The ambient state a call can observe. *)
Record World := {
  (** [os.environ] *)
  environ : gmap string string;
  (** [os.path.exists] *)
  path_exists : string -> bool;
  (** The bytes of a file; [None] when opening it raises. *)
  file_bytes : string -> option (list Byte.byte);
  (** [datetime.now(timezone.utc).isoformat()] *)
  now_isoformat : string;
  (** Whether [from PIL import Image] succeeded. *)
  pil_available : bool;
  (** Whether [import boto3] succeeded. *)
  boto3_available : bool;
  (** The body of the response of [invoke_model] in compare_texts.py;
      [None] when the client or the call raises. *)
  bedrock_invoke : bedrock_request -> option string;
  (** The decoded body of the response of [invoke_model] in llm_adapter.py,
      for a prompt; [None] when the client or the call raises. *)
  bedrock_complete : string -> string -> option string
}.

(** [os.getenv(name, dflt)] *)
Definition getenv (w : World) (name dflt : string) : string :=
  default dflt (environ w !! name).


(** ** goal_text_change_test/bedrock_prompt.py *)

Module BedrockPrompt.
Import PyNum PyStr.
Local Open Scope Q_scope.

Definition nl : string := String "010" "".

Definition truncation_marker : string :=
  nl ++ nl ++ "[... content truncated ...]" ++ nl ++ nl.

(** [_smart_truncate(text, max_chars)] *)
Definition _smart_truncate (text : string) (max_chars : Z) : string :=
  let text := strip text in
  if (len text <=? max_chars)%Z then text
  else
    let first_part := py_int (inject_Z max_chars * 0.6) in
    let last_part := py_int (inject_Z max_chars * 0.4) in
    slice_to first_part text ++ truncation_marker ++ slice_from (- last_part) text.

(** [s.strip("`")] *)
Fixpoint lstrip_ticks (s : string) : string :=
  match s with
  | String "`" s' => lstrip_ticks s'
  | _ => s
  end.
Fixpoint rstrip_ticks (s : string) : string :=
  match s with
  | "" => ""
  | String c s' =>
      match rstrip_ticks s' with
      | "" => if Ascii.eqb c "`" then "" else String c ""
      | r => String c r
      end
  end.

(** [s.split(sep)] for a one-character separator. *)
Fixpoint split_on (sep : ascii) (s : string) : list string :=
  match s with
  | "" => [""]
  | String c s' =>
      if Ascii.eqb c sep then "" :: split_on sep s'
      else match split_on sep s' with
           | h :: t => String c h :: t
           | [] => [String c ""]
           end
  end.

(** [s.find(c)] and [s.rfind(c)]; [None] stands for -1. *)
Fixpoint find_char (c : ascii) (s : string) : option nat :=
  match s with
  | "" => None
  | String a s' => if Ascii.eqb a c then Some 0%nat else S <$> find_char c s'
  end.
Fixpoint rfind_char (c : ascii) (s : string) : option nat :=
  match s with
  | "" => None
  | String a s' =>
      match rfind_char c s' with
      | Some i => Some (S i)
      | None => if Ascii.eqb a c then Some 0%nat else None
      end
  end.

Definition endswith (suffix s : string) : bool :=
  (String.length suffix <=? String.length s)%nat &&
  String.eqb (drop (String.length s - String.length suffix) s) suffix.

(** [coerce_json(response_text)]: [None] when [json.loads] raises. *)
Definition coerce_json `{Platform} (response_text : string) : option json :=
  let text := strip response_text in
  let text :=
    if startswith "```" text then
      let text := rstrip_ticks (lstrip_ticks text) in
      if contains nl text then
        match split_on "010" text with
        | first :: rest =>
            let tag := lower (strip first) in
            if String.eqb tag "json" || String.eqb tag "javascript" || String.eqb tag ""
            then join nl rest else text
        | [] => text
        end
      else text
    else text in
  let text := if endswith "```" text then take (String.length text - 3) text else text in
  let text := strip text in
  let text :=
    if negb (startswith "{" text) then
      match find_char "{" text, rfind_char "}" text with
      | Some start, Some stop => take (stop + 1 - start) (drop start text)
      | _, _ => text
      end
    else text in
  json_loads text.
End BedrockPrompt.

(** ** goal_text_change_test/compare_texts.py *)

Module CompareTexts.
Import PyNum PyStr Re.
Local Open Scope Q_scope.

Definition arrow : string := "→".

(** *** Visual change detection helpers *)

Section Visual.
Context `{Platform}.

(** [_load_image(path)]: the image, or [None]. *)
Definition _load_image (w : World) (path : option string) : option image :=
  match path with
  | None | Some "" => None
  | Some p => if pil_available w then file_bytes w p ≫= image_open else None
  end.

(** [_ahash(img)]: [None] when the pixel list is empty (division by zero). *)
Definition _ahash (img : image) : option (list Z) :=
  let px := gray_pixels img 8 8 in
  match px with
  | [] => None
  | _ =>
      let avg := inject_Z (fold_left Z.add px 0%Z) / inject_Z (Z.of_nat (List.length px)) in
      Some (List.map (fun p => if Qltb avg (inject_Z p) then 1%Z else 0%Z) px)
  end.

(** [_dhash(img)]: [None] when a pixel index is out of range. *)
Definition _dhash (img : image) : option (list Z) :=
  let px := gray_pixels img 9 8 in
  if (List.length px <? 72)%nat then None
  else
    Some (List.flat_map (fun y =>
            List.map (fun x =>
              if (nth (y * 9 + x) px 0 <? nth (y * 9 + x + 1) px 0)%Z then 1%Z else 0%Z)
              (seq 0 8))
          (seq 0 8)).

(** [_hamming(a, b)] *)
Definition _hamming (a b : list Z) : Z :=
  match a, b with
  | [], _ => 0%Z
  | _, [] => Z.of_nat (List.length a)
  | _, _ =>
      if negb (List.length a =? List.length b)%nat then Z.of_nat (List.length a)
      else Z.of_nat (List.length (List.filter (fun '(i, j) => negb (i =? j)%Z) (combine a b)))
  end.

(** [_sim_bits(a, b)]; a missing hash is [None]. *)
Definition _sim_bits (a b : option (list Z)) : Q :=
  match a, b with
  | Some (x :: xs), Some (y :: ys) =>
      py_max 0 (1 - inject_Z (_hamming (x :: xs) (y :: ys))
                    / inject_Z (Z.of_nat (List.length (x :: xs))))
  | _, _ => 1
  end.

(** [_rms_similarity(a, b)] *)
Definition _rms_similarity (a b : image) : option Q :=
  let p1 := gray_pixels a 64 64 in
  let p2 := gray_pixels b 64 64 in
  match p1 with
  | [] => None
  | _ =>
      let sq := List.map (fun '(x, y) => ((x - y) * (x - y))%Z) (combine p1 p2) in
      let mse := inject_Z (fold_left Z.add sq 0%Z) / inject_Z (Z.of_nat (List.length p1)) in
      let rmse := float_sqrt mse in
      Some (py_max 0 (1 - rmse / 255))
  end.

(** [_visual_similarity(img_prev, img_cur)] *)
Definition _visual_similarity (img_prev img_cur : image) : option Q :=
  let ah := _sim_bits (_ahash img_prev) (_ahash img_cur) in
  let dh := _sim_bits (_dhash img_prev) (_dhash img_cur) in
  match _rms_similarity img_prev img_cur with
  | None => None
  | Some rm =>
      let combined := 0.5 * ah + 0.3 * dh + 0.2 * rm in
      Some (py_max 0 (py_min 1 combined))
  end.
End Visual.

(** The size to which [_encode_image_b64(img, max_side)] resizes an image of
    [w] by [h] pixels before it encodes it; [None] when the image is left as
    it is.  A [max_side] of zero is a [ZeroDivisionError], which the
    function catches as an encoding failure. *)
Definition downscaled_size (w h max_side : Z) : result (option (Z * Z)) :=
  scale ←
    (if (max_side <? Z.max w h)%Z then
       if (max_side =? 0)%Z then Raised "ZeroDivisionError"
       else Ok (inject_Z (Z.max w h) / inject_Z max_side)
     else Ok 1);
  if Qltb 1 scale then
    let new_w := py_int (inject_Z w / scale) in
    let new_h := py_int (inject_Z h / scale) in
    Ok (Some (new_w, new_h))
  else Ok None.

(** *** Text analysis *)

(** [float(s)] on the numerals the KPI patterns capture: digits with an
    optional fraction. *)
Fixpoint digits_value (acc : Z) (s : string) : option Z :=
  match s with
  | "" => Some acc
  | String c s' =>
      if is_digit c then digits_value (10 * acc + Z.of_N (code c - 48)) s' else None
  end.

Definition float_of_decimal (s : string) : option Q :=
  match BedrockPrompt.split_on "." s with
  | [ip] => inject_Z <$> digits_value 0 ip
  | [ip; fp] =>
      i ← digits_value 0 ip;
      f ← digits_value 0 fp;
      Some (inject_Z i + inject_Z f / inject_Z (10 ^ Z.of_nat (String.length fp)))
  | _ => None
  end.

(** [s.replace(",", "")] *)
Fixpoint remove_commas (s : string) : string :=
  match s with
  | "" => ""
  | String c s' => if Ascii.eqb c "," then remove_commas s' else String c (remove_commas s')
  end.

(** Pattern: (?:study|trial|clinical\s+trial)[^.]*?phase\s*(?:iii|3|ii|2|iv|4|i|1) *)
Definition phase_numeral : regex :=
  Alt (Lit "iii") (Alt (Lit "3") (Alt (Lit "ii") (Alt (Lit "2")
    (Alt (Lit "iv") (Alt (Lit "4") (Alt (Lit "i") (Lit "1"))))))).
Definition phase_tail : regex := Seq (Lit "phase") (Seq (Star true ws) phase_numeral).
Definition overview_keyword : regex :=
  Alt (Lit "study") (Alt (Lit "trial") (Seq (Lit "clinical") (Seq (Plus true ws) (Lit "trial")))).
Definition overview_re : regex :=
  Seq overview_keyword (Seq (Star false (any_but ".")) phase_tail).

(** Pattern: phase\s*i(?!\s*(?:i|v)) *)
Definition phase_one_re : regex :=
  Seq (Lit "phase") (Seq (Star true ws) (Seq (Lit "i")
    (NotAhead (Seq (Star true ws) (Alt (Lit "i") (Lit "v")))))).

(** Pattern: (?:protocol\s+)?v(?:ersion\s+)?(\d+\.\d+) *)
Definition proto_re : regex :=
  Seq (Opt (Seq (Lit "protocol") (Plus true ws)))
    (Seq (Lit "v") (Seq (Opt (Seq (Lit "ersion") (Plus true ws)))
      (Grp 1 (Seq digits (Seq (Lit ".") digits))))).

(** Pattern: \d+(?:,\d{3})* *)
Definition grouped_digits : regex :=
  Seq digits (Star true (Seq (Lit ",") (Rep true 3 3 digit))).

(** Pattern: \d+(?:\.\d+)? *)
Definition decimal : regex := Seq digits (Opt (Seq (Lit ".") digits)).

(** Pattern: (?:enrolled?|enrollment)[\s:]+(\d+(?:,\d{3})* )\s*(?:patients?)? *)
Definition enroll_re : regex :=
  Seq (Alt (Seq (Lit "enrolle") (Opt (Lit "d"))) (Lit "enrollment"))
    (Seq (Plus true ws_or_colon) (Seq (Grp 1 grouped_digits)
      (Seq (Star true ws) (Opt (Seq (Lit "patient") (Opt (Lit "s"))))))).

(** Pattern: target\s+enrollment[\s:]+(\d+(?:,\d{3})* ) *)
Definition target_re : regex :=
  Seq (Lit "target") (Seq (Plus true ws) (Seq (Lit "enrollment")
    (Seq (Plus true ws_or_colon) (Grp 1 grouped_digits)))).

(** Pattern: (?:active\s+)?sites?[\s:]+(\d+) *)
Definition sites_re : regex :=
  Seq (Opt (Seq (Lit "active") (Plus true ws)))
    (Seq (Lit "site") (Seq (Opt (Lit "s")) (Seq (Plus true ws_or_colon) (Grp 1 digits)))).

(** Pattern: (?:sae|serious\s+adverse\s+events?)[^%]{0,50}?(\d+(?:\.\d+)?)% *)
Definition sae_re : regex :=
  Seq (Alt (Lit "sae")
         (Seq (Lit "serious") (Seq (Plus true ws) (Seq (Lit "adverse")
           (Seq (Plus true ws) (Seq (Lit "event") (Opt (Lit "s"))))))))
    (Seq (Rep false 0 50 (any_but "%")) (Seq (Grp 1 decimal) (Lit "%"))).

(** Pattern: adverse\s+event\s+rate[\s:]+(\d+(?:\.\d+)?)% *)
Definition ae_re : regex :=
  Seq (Lit "adverse") (Seq (Plus true ws) (Seq (Lit "event") (Seq (Plus true ws)
    (Seq (Lit "rate") (Seq (Plus true ws_or_colon) (Seq (Grp 1 decimal) (Lit "%"))))))).

(** Pattern: r&d\s+investment.*?[\$](\d+(?:\.\d+)?)\s*(billion|b|million|m) *)
Definition rd_re : regex :=
  Seq (Lit "r&d") (Seq (Plus true ws) (Seq (Lit "investment") (Seq (Star false dot)
    (Seq (Lit "$") (Seq (Grp 1 decimal) (Seq (Star true ws)
      (Grp 2 (Alt (Lit "billion") (Alt (Lit "b") (Alt (Lit "million") (Lit "m"))))))))))).

(** Pattern: program\s+cost.*?[\$](\d+(?:,\d{3})*(?:\.\d+)?)\s*(billion|million|m) *)
Definition cost_re : regex :=
  Seq (Lit "program") (Seq (Plus true ws) (Seq (Lit "cost") (Seq (Star false dot)
    (Seq (Lit "$") (Seq (Grp 1 (Seq grouped_digits (Opt (Seq (Lit ".") digits))))
      (Seq (Star true ws)
        (Grp 2 (Alt (Lit "billion") (Alt (Lit "million") (Lit "m")))))))))).

(** [kpis[label] = float(text)], for a captured numeral. *)
Definition set_float (label numeral : string) (kpis : gmap string Q) : gmap string Q :=
  match float_of_decimal numeral with
  | Some v => <[label := v]> kpis
  | None => kpis
  end.

(** The [Phase] entry of [extract_numbers_with_labels]. *)
Definition extract_phase (text_lower : string) (kpis : gmap string Q) : gmap string Q :=
  match search overview_re (take 500 text_lower) with
  | Some overview_match =>
      let overview_text := lower (whole overview_match) in
      if contains "phase iii" overview_text || contains "phase 3" overview_text
      then <["Phase" := 3]> kpis
      else if contains "phase ii" overview_text || contains "phase 2" overview_text
      then <["Phase" := 2]> kpis
      else if contains "phase iv" overview_text || contains "phase 4" overview_text
      then <["Phase" := 4]> kpis
      else if bool_decide (is_Some (search phase_one_re overview_text))
      then <["Phase" := 1]> kpis
      else kpis
  | None => kpis
  end.

(** The other entries of [extract_numbers_with_labels], one per block. *)
Definition extract_protocol (text_lower : string) (kpis : gmap string Q) : gmap string Q :=
  match search proto_re text_lower with
  | Some proto_match => set_float "Protocol" (group proto_match 1) kpis
  | None => kpis
  end.

Definition extract_enrollment (text_lower : string) (kpis : gmap string Q) : gmap string Q :=
  match search enroll_re text_lower with
  | Some enroll_match => set_float "Enrollment" (remove_commas (group enroll_match 1)) kpis
  | None => kpis
  end.

Definition extract_target (text_lower : string) (kpis : gmap string Q) : gmap string Q :=
  match search target_re text_lower with
  | Some target_match =>
      set_float "Target Enrollment" (remove_commas (group target_match 1)) kpis
  | None => kpis
  end.

Definition extract_sites (text_lower : string) (kpis : gmap string Q) : gmap string Q :=
  match search sites_re text_lower with
  | Some sites_match => set_float "Sites" (group sites_match 1) kpis
  | None => kpis
  end.

Definition extract_sae (text_lower : string) (kpis : gmap string Q) : gmap string Q :=
  match search sae_re text_lower with
  | Some sae_match => set_float "SAE" (group sae_match 1) kpis
  | None => kpis
  end.

Definition extract_ae (text_lower : string) (kpis : gmap string Q) : gmap string Q :=
  match search ae_re text_lower with
  | Some ae_match => set_float "Adverse Event Rate" (group ae_match 1) kpis
  | None => kpis
  end.

Definition extract_rd (text_lower : string) (kpis : gmap string Q) : gmap string Q :=
  match search rd_re text_lower with
  | Some rd_match =>
      let unit := lower (group rd_match 2) in
      match float_of_decimal (group rd_match 1) with
      | Some value =>
          if contains "b" unit then <["R&D" := value]> kpis
          else if contains "m" unit then <["R&D" := value / 1000]> kpis
          else kpis
      | None => kpis
      end
  | None => kpis
  end.

Definition extract_cost (text_lower : string) (kpis : gmap string Q) : gmap string Q :=
  match search cost_re text_lower with
  | Some cost_match =>
      let unit := lower (group cost_match 2) in
      match float_of_decimal (remove_commas (group cost_match 1)) with
      | Some value => if contains "m" unit then <["Program Cost" := value]> kpis else kpis
      | None => kpis
      end
  | None => kpis
  end.

(** [extract_numbers_with_labels(text)] *)
Definition extract_numbers_with_labels (text : string) : gmap string Q :=
  let kpis : gmap string Q := ∅ in
  let text_lower := lower text in
  let kpis := extract_phase text_lower kpis in
  let kpis := extract_protocol text_lower kpis in
  let kpis := extract_enrollment text_lower kpis in
  let kpis := extract_target text_lower kpis in
  let kpis := extract_sites text_lower kpis in
  let kpis := extract_sae text_lower kpis in
  let kpis := extract_ae text_lower kpis in
  let kpis := extract_rd text_lower kpis in
  let kpis := extract_cost text_lower kpis in
  kpis.

Definition critical_terms : list string :=
  [ "fast track"; "breakthrough"; "discontinued"; "terminated"; "recall";
    "regulatory submission"; "protocol v1.1"; "phase 3"; "phase iii";
    "paused"; "delay"; "hold"; "accelerated approval"; "priority review" ].

(** [detect_critical_phrases(prev_text, cur_text)] *)
Definition detect_critical_phrases (prev_text cur_text : string) : list string :=
  let prev_lower := lower prev_text in
  let cur_lower := lower cur_text in
  List.map title
    (List.filter (fun term => contains term cur_lower && negb (contains term prev_lower))
                 critical_terms).

(** [re.findall(r'\b\w{3,}\b', s)]: the maximal runs of word characters that
    are at least three long. *)
Fixpoint word_runs_from (cur : string) (s : string) : list string :=
  match s with
  | "" => [cur]
  | String c s' =>
      if is_word c then word_runs_from (cur ++ String c "") s'
      else cur :: word_runs_from "" s'
  end.
Definition findall_words3 (s : string) : list string :=
  List.filter (fun w => (3 <=? String.length w)%nat) (word_runs_from "" s).

(** [compute_goal_keywords(goal)] *)
Definition compute_goal_keywords (goal : string) : list string :=
  findall_words3 (lower goal).

(** [count_keyword_hits(goal_keywords, text, numeric_insights)] *)
Definition count_keyword_hits (goal_keywords : list string) (text : string)
    (numeric_insights : list string) : Z :=
  let combined := lower (text ++ " " ++ join " " numeric_insights) in
  Z.of_nat (List.length (List.filter (fun kw => contains kw combined) goal_keywords)).

(** *** Numeric deltas and scoring *)

Definition key_le (a b : string) : Prop := Is_true (String.leb a b).

(** [sorted(set(prev_kpis.keys()) & set(cur_kpis.keys()))] *)
Definition common_keys (prev_kpis cur_kpis : gmap string Q) : list string :=
  merge_sort key_le (elements (dom prev_kpis ∩ dom cur_kpis)).

Section WithPlatform.
Context `{Platform}.

(** The insight string of one changed KPI. *)
Definition insight_for (key : string) (prev_val cur_val : Q) : string :=
  if String.eqb key "Phase" then
    "Phase " ++ str_int (py_int prev_val) ++ " → " ++ str_int (py_int cur_val)
  else if String.eqb key "Protocol" then
    "Protocol v" ++ float_format ".1f" prev_val ++ " → v" ++ float_format ".1f" cur_val
  else if String.eqb key "Enrollment" then
    "Enrollment " ++ str_int (py_int prev_val) ++ " → " ++ str_int (py_int cur_val)
  else if String.eqb key "Sites" then
    "Sites " ++ str_int (py_int prev_val) ++ " → " ++ str_int (py_int cur_val)
  else if String.eqb key "SAE" then
    "SAE " ++ float_format ".1f" prev_val ++ "% → " ++ float_format ".1f" cur_val ++ "%"
  else if String.eqb key "Adverse Event Rate" then
    "Adverse Event Rate " ++ float_format ".1f" prev_val ++ "% → "
      ++ float_format ".1f" cur_val ++ "%"
  else if String.eqb key "R&D" then
    "R&D $" ++ float_format ".1f" prev_val ++ "B → $" ++ float_format ".1f" cur_val ++ "B"
  else if String.eqb key "Program Cost" then
    "Program Cost $" ++ str_int (py_int prev_val) ++ "M → $" ++ str_int (py_int cur_val) ++ "M"
  else
    key ++ " " ++ float_format "" prev_val ++ " → " ++ float_format "" cur_val.

(** One turn of the loop of [compute_numeric_delta]. *)
Definition delta_step (prev_kpis cur_kpis : gmap string Q)
    (acc : list string * list Q) (key : string) : list string * list Q :=
  let '(insights, deltas) := acc in
  match prev_kpis !! key, cur_kpis !! key with
  | Some prev_val, Some cur_val =>
      if Qltb 0.01 (Qabs (prev_val - cur_val)) then
        let denominator := py_max (py_max (Qabs prev_val) (Qabs cur_val)) 1 in
        let delta := Qabs (cur_val - prev_val) / denominator in
        ((insights ++ [insight_for key prev_val cur_val])%list, (deltas ++ [delta])%list)
      else acc
  | _, _ => acc
  end.

(** [compute_numeric_delta(prev_kpis, cur_kpis)] *)
Definition compute_numeric_delta (prev_kpis cur_kpis : gmap string Q) : Q * list string :=
  let '(insights, deltas) :=
    fold_left (delta_step prev_kpis cur_kpis) (common_keys prev_kpis cur_kpis) ([], []) in
  let mean_delta :=
    match deltas with
    | [] => 0
    | _ => py_sum deltas / inject_Z (Z.of_nat (List.length deltas))
    end in
  (mean_delta, insights).
End WithPlatform.

Definition domain_keywords : list string := ["regulatory"; "trial"; "safety"; "clinical"].

(** The threshold ladder of [recalibrated_scoring] and of [main]. *)
Definition classify (score : Q) : string * string :=
  if Qltb score 4.5 then ("low", "low")
  else if Qltb score 7 then ("medium", "med")
  else ("critical", "crit").

(** [recalibrated_scoring(similarity, mean_numeric_delta, keyword_hits,
    critical_flags, goal_alignment, goal)] *)
Definition recalibrated_scoring
    (similarity mean_numeric_delta : Q) (keyword_hits : Z)
    (critical_flags : list string) (goal_alignment : Q) (goal : string)
  : Q * string * string :=
  let text_term := (1 - similarity) * 0.55 in
  let num_term := py_min 1 mean_numeric_delta * 0.25 in
  let kw_term := py_min 1 (inject_Z keyword_hits / 5) * 0.10 in
  let crit_term := (match critical_flags with [] => 0 | _ => 1 end) * 0.10 in
  let align_term := goal_alignment * 0.05 in
  let base_score := text_term + num_term + kw_term + crit_term + align_term in
  let score := 10 * base_score in
  let goal_lower := lower goal in
  let score :=
    if existsb (fun kw => contains kw goal_lower) domain_keywords
    then score * 1.3 else score in
  let score := py_min 10 score in
  let '(importance, alert) := classify score in
  (py_round score 2, importance, alert).

(** *** The analysis result and the two analysis paths *)

(** The dict that [enhanced_diff_analysis] and [run_bedrock_analysis]
    return.  The entries a model response can supply hold JSON values. *)
Record analysis := {
  has_change : json;
  summary_change : json;
  text_added : Z;
  text_removed : Z;
  similarity : json;
  total_diff_lines : Z;
  importance : string;
  import_score : Q;
  alert_criteria : string;
  key_insights : json;
  goal_alignment : json;
  reasoning : json;
  llm_used : bool;
  model_id : option string;
  analysis_timestamp : string
}.

(** The result with its [analysis_timestamp] entry replaced. *)
Definition with_timestamp (t : string) (r : analysis) : analysis :=
  {| has_change := has_change r;
     summary_change := summary_change r;
     text_added := text_added r;
     text_removed := text_removed r;
     similarity := similarity r;
     total_diff_lines := total_diff_lines r;
     importance := importance r;
     import_score := import_score r;
     alert_criteria := alert_criteria r;
     key_insights := key_insights r;
     goal_alignment := goal_alignment r;
     reasoning := reasoning r;
     llm_used := llm_used r;
     model_id := model_id r;
     analysis_timestamp := t |}.

(** [list(dict.fromkeys(l))]: the first occurrence of each element. *)
Fixpoint dedup (seen l : list string) : list string :=
  match l with
  | [] => []
  | x :: l' =>
      if bool_decide (x ∈ seen) then dedup seen l' else x :: dedup (x :: seen) l'
  end.

Section Analysis.
Context `{Platform}.

(** [enhanced_diff_analysis(goal, prev_text, cur_text)] *)
Definition enhanced_diff_analysis (w : World) (goal prev_text cur_text : string)
  : analysis :=
  let prev_tokens := split_ws prev_text in
  let cur_tokens := split_ws cur_text in
  let diff := ndiff prev_tokens cur_tokens in
  let added := Z.of_nat (List.length (List.filter (startswith "+ ") diff)) in
  let removed :=
    Z.of_nat (List.length
      (List.filter (fun line => negb (startswith "+ " line) && startswith "- " line) diff)) in
  let similarity := py_round (sm_ratio_chars prev_text cur_text) 4 in
  let diff_lines :=
    Z.of_nat (List.length (unified_diff (splitlines prev_text) (splitlines cur_text))) in
  let prev_kpis := extract_numbers_with_labels prev_text in
  let cur_kpis := extract_numbers_with_labels cur_text in
  let '(mean_numeric_delta, numeric_insights) := compute_numeric_delta prev_kpis cur_kpis in
  let critical_flags := detect_critical_phrases prev_text cur_text in
  let goal_keywords := compute_goal_keywords goal in
  let keyword_hits :=
    count_keyword_hits goal_keywords (prev_text ++ cur_text) numeric_insights in
  let goal_alignment := 0.5 in
  let '(import_score, importance, alert) :=
    recalibrated_scoring similarity mean_numeric_delta keyword_hits critical_flags
                         goal_alignment goal in
  let key_part :=
    match numeric_insights with
    | [] => []
    | _ => ["Key changes: " ++ join ", " (List.firstn 4 numeric_insights)]
    end in
  let critical_part :=
    match critical_flags with
    | [] => []
    | _ => ["Critical updates: " ++ join ", " (List.firstn 3 critical_flags)]
    end in
  let token_part :=
    [str_int added ++ " tokens added, " ++ str_int removed ++ " removed; similarity="
       ++ float_format ".2%" similarity] in
  let summary_parts := (key_part ++ critical_part ++ token_part)%list in
  let summary_change := join ". " summary_parts ++ "." in
  let key_insights := List.firstn 8 (dedup [] (numeric_insights ++ critical_flags)%list) in
  let key_insights :=
    match key_insights with
    | [] => ["Minor or no changes detected"]
    | _ => key_insights
    end in
  let has_change :=
    (0 <? added + removed)%Z || Qltb similarity 0.98
    || match critical_flags with [] => false | _ => true end in
  {| has_change := JBool has_change;
     summary_change := JStr (take 500 summary_change);
     text_added := added;
     text_removed := removed;
     similarity := JNum similarity;
     total_diff_lines := diff_lines;
     importance := importance;
     import_score := import_score;
     alert_criteria := alert;
     key_insights := JArr (JStr <$> key_insights);
     goal_alignment := JNum goal_alignment;
     reasoning :=
       JStr ("Enhanced analysis: text dissimilarity=" ++ float_format ".2%" (1 - similarity)
             ++ ", numeric delta=" ++ float_format ".2f" mean_numeric_delta
             ++ ", keyword hits=" ++ str_int keyword_hits
             ++ ", critical flags=" ++ str_int (Z.of_nat (List.length critical_flags)));
     llm_used := false;
     model_id := None;
     analysis_timestamp := now_isoformat w |}.

(** The [visual_ctx] dict. *)
Record visual_ctx := {
  ctx_visual_similarity : Q;
  ctx_include_images : bool;
  ctx_prev_image_b64 : option string;
  ctx_cur_image_b64 : option string
}.

(** The request of [build_universal_bedrock_prompt(goal, prev_text,
    cur_text, visual_ctx)] sent with the configured model and region. *)
Definition build_request (w : World) (goal prev_text cur_text : string)
    (ctx : option visual_ctx) : bedrock_request :=
  {| req_model_id :=
       getenv w "BEDROCK_MODEL_ID" "anthropic.claude-3-5-sonnet-20240620-v1:0";
     req_region := getenv w "AWS_REGION" "us-west-2";
     req_goal := goal;
     req_previous := BedrockPrompt._smart_truncate prev_text 3500;
     req_current := BedrockPrompt._smart_truncate cur_text 3500;
     req_visual_similarity := ctx_visual_similarity <$> ctx;
     req_images :=
       c ← ctx;
       if ctx_include_images c then
         match ctx_prev_image_b64 c, ctx_cur_image_b64 c with
         | Some (String a p), Some (String b q) => Some (String a p, String b q)
         | _, _ => None
         end
       else None |}.

(** The merge of a parsed model response with the local metrics, and the
    recomputation of the score: the second half of the [try] block of
    [run_bedrock_analysis]. *)
Definition merge_analysis (w : World) (goal prev_text cur_text : string)
    (used_model : string) (llm_result : json) : result analysis :=
  let local_result := enhanced_diff_analysis w goal prev_text cur_text in
  m_has_change ←
    of_option "AttributeError" (Json.get llm_result "has_change" (has_change local_result));
  m_summary ←
    of_option "AttributeError"
      (Json.get llm_result "summary_change" (summary_change local_result));
  m_similarity ←
    of_option "AttributeError" (Json.get llm_result "similarity" (similarity local_result));
  m_insights ←
    of_option "AttributeError"
      (Json.get llm_result "key_insights" (key_insights local_result));
  m_alignment ←
    of_option "AttributeError"
      (Json.get llm_result "goal_alignment" (goal_alignment local_result));
  let prev_kpis := extract_numbers_with_labels prev_text in
  let cur_kpis := extract_numbers_with_labels cur_text in
  let mean_numeric_delta := fst (compute_numeric_delta prev_kpis cur_kpis) in
  let critical_flags := detect_critical_phrases prev_text cur_text in
  let goal_keywords := compute_goal_keywords goal in
  let keyword_hits := count_keyword_hits goal_keywords (prev_text ++ cur_text) [] in
  sim ← of_option "TypeError" (Json.as_number m_similarity);
  align ← of_option "TypeError" (Json.as_number m_alignment);
  let '(import_score, importance, alert) :=
    recalibrated_scoring sim mean_numeric_delta keyword_hits critical_flags align goal in
  m_reasoning ←
    of_option "AttributeError" (Json.get llm_result "reasoning" (reasoning local_result));
  Ok {| has_change := m_has_change;
        summary_change := m_summary;
        text_added := text_added local_result;
        text_removed := text_removed local_result;
        similarity := m_similarity;
        total_diff_lines := total_diff_lines local_result;
        importance := importance;
        import_score := import_score;
        alert_criteria := alert;
        key_insights := m_insights;
        goal_alignment := m_alignment;
        reasoning := m_reasoning;
        llm_used := true;
        model_id := Some used_model;
        analysis_timestamp := now_isoformat w |}.

(** The body of the [try] block of [run_bedrock_analysis]. *)
Definition bedrock_attempt (w : World) (goal prev_text cur_text : string)
    (ctx : option visual_ctx) : result analysis :=
  let request := build_request w goal prev_text cur_text ctx in
  body_text ← of_option "invoke_model" (bedrock_invoke w request);
  body ← of_option "JSONDecodeError" (json_loads body_text);
  content ← of_option "KeyError" (Json.item body "content");
  block ← of_option "IndexError" (Json.first content);
  text ← of_option "KeyError" (Json.item block "text");
  response_text ← match text with JStr t => Ok t | _ => Raised "AttributeError" end;
  llm_result ← of_option "JSONDecodeError" (BedrockPrompt.coerce_json response_text);
  merge_analysis w goal prev_text cur_text (req_model_id request) llm_result.

(** [run_bedrock_analysis(goal, prev_text, cur_text, visual_ctx)] *)
Definition run_bedrock_analysis (w : World) (goal prev_text cur_text : string)
    (ctx : option visual_ctx) : analysis :=
  if negb (boto3_available w) then enhanced_diff_analysis w goal prev_text cur_text
  else if negb (String.eqb (lower (getenv w "USE_BEDROCK" "false")) "true")
  then enhanced_diff_analysis w goal prev_text cur_text
  else
    match bedrock_attempt w goal prev_text cur_text ctx with
    | Ok merged => merged
    | Raised _ => enhanced_diff_analysis w goal prev_text cur_text
    end.

(** *** [main]: the analysis of two texts with optional screenshots *)





End Analysis.

End CompareTexts.

(** ** Python floats in binary64 *)

Module Binary64.

(** A Python [float]: an IEEE 754 binary64 number, with the operations of
    the format rounded to nearest, ties to even. *)
Definition float : Type := spec_float.
Definition prec : Z := 53.
Definition emax : Z := 1024.

Definition add : float -> float -> float := SFadd prec emax.
Definition sub : float -> float -> float := SFsub prec emax.
Definition mul : float -> float -> float := SFmul prec emax.
Definition div : float -> float -> float := SFdiv prec emax.

(** [x < y] *)
Definition ltb : float -> float -> bool := SFltb.

(** The float nearest to a rational: the value of a decimal literal. *)
Definition of_Q (q : Q) : float :=
  match Qnum q with
  | Z0 => S754_zero false
  | Zpos n => div (S754_finite false n 0) (S754_finite false (Qden q) 0)
  | Zneg n => div (S754_finite true n 0) (S754_finite false (Qden q) 0)
  end.

(** The exact value of a finite float. *)
Definition to_Q (x : float) : option Q :=
  match x with
  | S754_zero _ => Some 0%Q
  | S754_finite s m e =>
      let n := if s then Zneg m else Zpos m in
      Some (match e with
            | Zneg p => n # (2 ^ p)
            | _ => inject_Z (n * 2 ^ e)
            end)
  | _ => None
  end.

(** The sign bit. *)
Definition signbit (x : float) : bool :=
  match x with
  | S754_zero s | S754_infinity s | S754_finite s _ _ => s
  | S754_nan => false
  end.

(** [float(n)] of an int, as in [n / 5.0]: an int beyond the range of the
    format raises. *)
Definition of_int (n : Z) : result float :=
  match binary_normalize prec emax n 0 false with
  | S754_infinity _ => Raised "OverflowError"
  | x => Ok x
  end.

(** [min(a, b)]: the builtin keeps its first argument unless the second is
    strictly smaller. *)
Definition py_min (a b : float) : float := if ltb b a then b else a.

(** [round(x, ndigits)] with [ndigits >= 0]: the exact value of [x] rounded
    to [ndigits] decimals, ties to even, and taken back to the nearest
    float; the sign of a zero is kept, and an infinity or a NaN is
    returned as it is. *)
Definition py_round (x : float) (ndigits : nat) : float :=
  match to_Q x with
  | None => x
  | Some q =>
      let r := PyNum.py_round q ndigits in
      if Qeq_bool r 0 then S754_zero (signbit x) else of_Q r
  end.
End Binary64.

(** ** goal_text_change_test/compare_texts.py: the scoring in binary64 *)

Module CompareTexts64.
Import PyStr Binary64.

(** The threshold ladder of [recalibrated_scoring]. *)
Definition classify (score : float) : string * string :=
  if ltb score (of_Q 4.5) then ("low", "low")
  else if ltb score (of_Q 7) then ("medium", "med")
  else ("critical", "crit").

(** [recalibrated_scoring(similarity, mean_numeric_delta, keyword_hits,
    critical_flags, goal_alignment, goal)], every operation in binary64 and
    in the order of the source. *)
Definition recalibrated_scoring
    (similarity mean_numeric_delta : float) (keyword_hits : Z)
    (critical_flags : list string) (goal_alignment : float) (goal : string)
  : result (float * string * string) :=
  let text_term := mul (sub (of_Q 1) similarity) (of_Q 0.55) in
  let num_term := mul (py_min (of_Q 1) mean_numeric_delta) (of_Q 0.25) in
  hits ← of_int keyword_hits;
  let kw_term := mul (py_min (of_Q 1) (div hits (of_Q 5))) (of_Q 0.10) in
  let crit_term :=
    mul (match critical_flags with [] => of_Q 0 | _ => of_Q 1 end) (of_Q 0.10) in
  let align_term := mul goal_alignment (of_Q 0.05) in
  let base_score := add (add (add (add text_term num_term) kw_term) crit_term) align_term in
  let score := mul (of_Q 10) base_score in
  let goal_lower := lower goal in
  let score :=
    if existsb (fun kw => contains kw goal_lower) CompareTexts.domain_keywords
    then mul score (of_Q 1.3) else score in
  let score := py_min (of_Q 10) score in
  let '(importance, alert) := classify score in
  Ok (py_round score 2, importance, alert).
End CompareTexts64.

(** ** src/change_analysis/schemas.py *)

Module Schemas.
Import PyNum.

(** [ChangeResult], with the field constraints of the model. *)
Record ChangeResult := {
  has_change : bool;
  text_added : Z;
  text_removed : Z;
  similarity : Q;
  total_diff_lines : Z;
  summary_change : string;
  importance : string;
  import_score : Q;
  alert_criteria : string
}.

Definition Severity : list string := ["low"; "medium"; "critical"].
Definition Alert : list string := ["low"; "med"; "crit"].

(** The validation that constructing a [ChangeResult] performs. *)
Definition valid (r : ChangeResult) : bool :=
  (0 <=? text_added r)%Z && (0 <=? text_removed r)%Z
  && Qle_bool 0 (similarity r) && Qle_bool (similarity r) 1
  && (0 <=? total_diff_lines r)%Z
  && bool_decide (importance r ∈ Severity)
  && Qle_bool 0 (import_score r) && Qle_bool (import_score r) 10
  && bool_decide (alert_criteria r ∈ Alert).

Definition make (r : ChangeResult) : result ChangeResult :=
  if valid r then Ok r else Raised "ValidationError".

(** [result.model_dump()]: the fields in declaration order. *)
Definition model_dump (r : ChangeResult) : list (string * json) :=
  [ ("has_change", JBool (has_change r));
    ("text_added", JNum (inject_Z (text_added r)));
    ("text_removed", JNum (inject_Z (text_removed r)));
    ("similarity", JNum (similarity r));
    ("total_diff_lines", JNum (inject_Z (total_diff_lines r)));
    ("summary_change", JStr (summary_change r));
    ("importance", JStr (importance r));
    ("import_score", JNum (import_score r));
    ("alert_criteria", JStr (alert_criteria r)) ].
End Schemas.

(** ** src/change_analysis/importance.py *)

Module Importance.
Import PyNum PyStr.
Local Open Scope Q_scope.

(** [DomainWeights] *)
Definition DomainWeights : gmap string Q :=
  {[ "regulatory" := 1.2; "safety" := 1.15; "pricing" := 1.1 ]}.

(** [compute_importance_score]; [keywords=None] is [None]. *)
Definition compute_importance_score `{Platform}
    (text_added text_removed : Z) (sim_text sim_visual : Q)
    (goal domain : string) (keywords : option (list string)) : Q * string :=
  let base := (1 - sim_text) * 0.6 + (1 - sim_visual) * 0.4 in
  let base :=
    match keywords with
    | None | Some [] => base
    | Some ks =>
        let key_hits :=
          Z.of_nat (List.length (List.filter (fun k => contains (lower k) (lower goal)) ks)) in
        if (key_hits =? 0)%Z then base else base + 0.05 * inject_Z key_hits
    end in
  let weight := default 1 (DomainWeights !! lower domain) in
  let score := py_min 1 (base * weight) in
  let score_10 := py_round (score * 10) 2 in
  let rationale :=
    "textΔ=" ++ float_format ".2f" (1 - sim_text) ++
    ", visΔ=" ++ float_format ".2f" (1 - sim_visual) ++
    ", domain=" ++ domain ++ ", weighted=" ++ float_format "" score_10 in
  (score_10, rationale).

Definition label_from_score (score : Q) : string :=
  if Qltb score 4.5 then "low"
  else if Qltb score 7.5 then "medium"
  else "critical".

(** A lookup in a three-entry dict: any other label is a [KeyError]. *)
Definition alert_from_label (label : string) : option string :=
  ({[ "low" := "low"; "medium" := "med"; "critical" := "crit" ]} : gmap string string)
    !! label.
End Importance.

(** ** src/change_analysis/utils_image.py *)

(** An image reference: [None], raw bytes or a string. *)
Inductive image_ref :=
| RefNone
| RefBytes (b : list Byte.byte)
| RefStr (s : string).

Module UtilsImage.
Import PyNum PyStr Re.
Local Open Scope Q_scope.

(** Pattern: ^data:image/.+;base64, *)
Definition data_uri_re : regex :=
  Seq (Lit "data:image/") (Seq (Plus true dot) (Lit ";base64,")).

(** [re.sub("^data:image/.+;base64,", "", x)] *)
Definition strip_data_uri (x : string) : string :=
  match match_at data_uri_re x with
  | Some mo => drop (String.length (whole mo)) x
  | None => x
  end.

Section WithPlatform.
Context `{Platform}.

(** [load_image(x)] *)
Definition load_image (w : World) (x : image_ref) : result image :=
  match x with
  | RefNone | RefStr "" => Ok image_blank
  | RefBytes b => of_option "UnidentifiedImageError" (image_open b)
  | RefStr x =>
      if startswith "data:image" (strip x) then
        let b64 := strip_data_uri x in
        raw ← of_option "binascii.Error" (b64decode b64);
        of_option "UnidentifiedImageError" (image_open raw)
      else if path_exists w x then
        of_option "OSError" (file_bytes w x ≫= image_open)
      else
        match b64decode x ≫= image_open with
        | Some img => Ok img
        | None => Ok image_blank
        end
  end.

(** [int(bits, 2)] for a list of binary digits. *)
Definition int_of_bits (bits : list bool) : Z :=
  fold_left (fun acc (b : bool) => (2 * acc + (if b then 1 else 0))%Z) bits 0%Z.

(** [ahash(img)] with [size = 8]. *)
Definition ahash (img : image) : result Z :=
  let px := gray_pixels img 8 8 in
  match px with
  | [] => Raised "ZeroDivisionError"
  | _ =>
      let avg := inject_Z (fold_left Z.add px 0%Z) / inject_Z (Z.of_nat (List.length px)) in
      Ok (int_of_bits (List.map (fun p => Qltb avg (inject_Z p)) px))
  end.

(** [dhash(img)] with [size = 8]: the image is resized to 9 by 9. *)
Definition dhash (img : image) : result Z :=
  let pixels := gray_pixels img 9 9 in
  if (List.length pixels <? 81)%nat then Raised "IndexError"
  else
    Ok (int_of_bits
          (List.flat_map (fun y =>
             List.map (fun x => (nth (y * 9 + x + 1) pixels 0 <? nth (y * 9 + x) pixels 0)%Z)
                      (seq 0 8))
           (seq 0 9))).

(** [bin(n).count("1")] *)
Fixpoint pos_popcount (p : positive) : Z :=
  match p with
  | xH => 1
  | xO p' => pos_popcount p'
  | xI p' => 1 + pos_popcount p'
  end%Z.
Definition popcount (n : Z) : Z :=
  match n with
  | Z0 => 0%Z
  | Zpos p | Zneg p => pos_popcount p
  end.

(** [hamming(a, b)] *)
Definition hamming (a b : Z) : Z := popcount (Z.lxor a b).

(** [perceptual_similarity(prev_img, cur_img)] *)
Definition perceptual_similarity (prev_img cur_img : image) : result Q :=
  ah1 ← ahash prev_img;
  ah2 ← ahash cur_img;
  dh1 ← dhash prev_img;
  dh2 ← dhash cur_img;
  let max_bits := 64 in
  let ah_diff := inject_Z (hamming ah1 ah2) / max_bits in
  let dh_diff := inject_Z (hamming dh1 dh2) / max_bits in
  let sim := 1 - ((ah_diff + dh_diff) / 2) in
  Ok (py_round (py_max 0 (py_min 1 sim)) 4).
End WithPlatform.
End UtilsImage.

(** ** src/change_analysis/utils_dom.py *)

Module UtilsDom.
Import PyNum PyStr.
Local Open Scope Q_scope.

(** [re.sub(r"\s+", " ", text)] *)
Fixpoint collapse_ws_from (in_ws : bool) (s : string) : string :=
  match s with
  | "" => ""
  | String c s' =>
      if is_space c
      then (if in_ws then collapse_ws_from true s' else String " " (collapse_ws_from true s'))
      else String c (collapse_ws_from false s')
  end.
Definition collapse_ws (s : string) : string := collapse_ws_from false s.

(** [short_context_snippets]: the inner function [trim]. *)
Definition trim (max_chars : Z) (t : string) : string :=
  let t := strip t in
  if (len t <=? max_chars)%Z then t
  else
    let half := (max_chars / 2)%Z in
    slice_to half t ++ " ... " ++ slice_from (- half) t.

(** [short_context_snippets(prev_text, cur_text, max_chars)] *)
Definition short_context_snippets (prev_text cur_text : string) (max_chars : Z)
  : string * string :=
  (trim max_chars prev_text, trim max_chars cur_text).

Section WithPlatform.
Context `{Platform}.

(** [extract_visible_text(html_content)] *)
Definition extract_visible_text (html_content : string) : string :=
  match html_content with
  | "" => ""
  | _ => strip (collapse_ws (soup_text html_content))
  end.

(** [text_diff_stats(prev_text, cur_text)] *)
Definition text_diff_stats (prev_text cur_text : string) : Z * Z * Z * Q :=
  let prev_lines := split_ws prev_text in
  let cur_lines := split_ws cur_text in
  let '(added, removed) :=
    fold_left (fun '(added, removed) op =>
                 match op_tag op with
                 | op_insert => ((added + (op_j2 op - op_j1 op))%Z, removed)
                 | op_delete => (added, (removed + (op_i2 op - op_i1 op))%Z)
                 | _ => (added, removed)
                 end)
              (sm_opcodes prev_lines cur_lines) (0%Z, 0%Z) in
  let diff_lines :=
    Z.of_nat (List.length (unified_diff (splitlines prev_text) (splitlines cur_text))) in
  let similarity := py_round (sm_ratio_words prev_lines cur_lines) 4 in
  (added, removed, diff_lines, similarity).
End WithPlatform.
End UtilsDom.

(** ** src/change_analysis/llm_adapter.py *)

Module LlmAdapter.
Import PyNum PyStr Re.

(** [USE_BEDROCK] and [MODEL_ID], read from the environment. *)
Definition USE_BEDROCK (w : World) : bool :=
  String.eqb (lower (getenv w "USE_BEDROCK" "false")) "true".
Definition MODEL_ID (w : World) : string :=
  getenv w "BEDROCK_MODEL_ID" "anthropic.claude-3-5-sonnet-20240620-v1:0".

Definition nl : string := BedrockPrompt.nl.

(** [build_diff_prompt] *)
Definition build_diff_prompt (url goal domain prev_snippet cur_snippet : string)
    (added removed diff_lines : Z) : string :=
  nl ++ "You are an expert analyst. Compare previous vs current webpage snapshots." ++ nl
  ++ nl ++ "URL: " ++ url
  ++ nl ++ "Goal: " ++ goal
  ++ nl ++ "Domain: " ++ domain ++ nl
  ++ nl ++ "Stats:"
  ++ nl ++ "- text added: " ++ str_int added
  ++ nl ++ "- text removed: " ++ str_int removed
  ++ nl ++ "- total diff lines: " ++ str_int diff_lines ++ nl
  ++ nl ++ "Previous snippet:"
  ++ nl ++ "<<<"
  ++ nl ++ prev_snippet
  ++ nl ++ ">>>" ++ nl
  ++ nl ++ "Current snippet:"
  ++ nl ++ "<<<"
  ++ nl ++ cur_snippet
  ++ nl ++ ">>>" ++ nl
  ++ nl ++ "Respond strictly in JSON with keys:"
  ++ nl ++ "summary_change (string)"
  ++ nl ++ "salient_points (list)"
  ++ nl ++ "keyword_hits (list)" ++ nl.

(** Pattern: \{.*\} with re.S *)
Definition object_re : regex :=
  Seq (Lit "{") (Seq (Star true (Cls (fun _ => true))) (Lit "}")).

(** [summarize_with_llm(prompt)] *)
Definition summarize_with_llm `{Platform} (w : World) (prompt : string) : option json :=
  if negb (USE_BEDROCK w) then None
  else
    text ← bedrock_complete w (MODEL_ID w) prompt;
    mo ← search object_re text;
    json_loads (whole mo).

(** [local_summary_fallback] *)
Definition local_summary_fallback (url goal domain prev_text cur_text : string)
    (added removed diff_lines : Z) : json :=
  let change :=
    if negb (added =? 0)%Z && (removed =? 0)%Z then
      "Added " ++ str_int added ++ " new words."
    else if negb (removed =? 0)%Z && (added =? 0)%Z then
      "Removed " ++ str_int removed ++ " words."
    else if negb (added =? 0)%Z || negb (removed =? 0)%Z then
      str_int added ++ " added, " ++ str_int removed ++ " removed."
    else "Minor formatting change." in
  let summary :=
    "Content modified on " ++ domain ++ " page (" ++ url ++ "): " ++ change
      ++ " (" ++ str_int diff_lines ++ " diff lines)." in
  JObj {[ "summary_change" := JStr summary;
          "salient_points" := JArr [];
          "keyword_hits" := JArr [] ]}.

(** The truth value of a parsed response. *)
Definition truthy (v : json) : bool :=
  match v with
  | JNull => false
  | JBool b => b
  | JNum q => negb (Qeq_bool q 0)
  | JStr s => negb (String.eqb s "")
  | JArr l => match l with [] => false | _ => true end
  | JObj m => negb (bool_decide (m = ∅))
  end.
End LlmAdapter.

(** ** src/change_analysis/pipeline.py *)

Module Pipeline.
Import PyNum PyStr.
Local Open Scope Q_scope.

Section WithPlatform.
Context `{Platform}.

(** [analyze_change(prev_dom, cur_dom, prev_ss, cur_ss, goal, domain, url,
    keywords)] *)
Definition analyze_change (w : World) (prev_dom cur_dom : string)
    (prev_ss cur_ss : image_ref) (goal domain url : string)
    (keywords : option (list string)) : result Schemas.ChangeResult :=
  prev_img ← UtilsImage.load_image w prev_ss;
  cur_img ← UtilsImage.load_image w cur_ss;
  sim_visual ← UtilsImage.perceptual_similarity prev_img cur_img;
  let prev_text := UtilsDom.extract_visible_text prev_dom in
  let cur_text := UtilsDom.extract_visible_text cur_dom in
  let '(added, removed, diff_lines, sim_text) :=
    UtilsDom.text_diff_stats prev_text cur_text in
  let '(prev_snip, cur_snip) := UtilsDom.short_context_snippets prev_text cur_text 800 in
  let prompt :=
    LlmAdapter.build_diff_prompt url goal domain prev_snip cur_snip added removed diff_lines in
  let llm_res :=
    match LlmAdapter.summarize_with_llm w prompt with
    | Some res =>
        if LlmAdapter.truthy res then res
        else LlmAdapter.local_summary_fallback url goal domain prev_text cur_text
               added removed diff_lines
    | None =>
        LlmAdapter.local_summary_fallback url goal domain prev_text cur_text
          added removed diff_lines
    end in
  summary_value ← of_option "AttributeError" (Json.get llm_res "summary_change" (JStr ""));
  summary ← match summary_value with JStr t => Ok t | _ => Raised "TypeError" end;
  let '(score_10, rationale) :=
    Importance.compute_importance_score added removed sim_text sim_visual goal domain
      (Some (default [] keywords)) in
  let label := Importance.label_from_score score_10 in
  alert ← of_option "KeyError" (Importance.alert_from_label label);
  let has_change := (0 <? added + removed)%Z || Qltb sim_visual 0.98 in
  let similarity := py_round (sim_text * 0.6 + sim_visual * 0.4) 4 in
  Schemas.make
    {| Schemas.has_change := has_change;
       Schemas.text_added := added;
       Schemas.text_removed := removed;
       Schemas.similarity := similarity;
       Schemas.total_diff_lines := diff_lines;
       Schemas.summary_change := take 500 summary;
       Schemas.importance := label;
       Schemas.import_score := score_10;
       Schemas.alert_criteria := alert |}.

(** [json.dumps(result.model_dump())], the serialized result. *)
Definition serialize (r : Schemas.ChangeResult) : string :=
  json_dumps (Schemas.model_dump r).
End WithPlatform.
End Pipeline.

(** ** Stand-ins for the libraries, to run the program on concrete inputs *)

Module Stub.
Import PyNum PyStr.
Local Open Scope Q_scope.

(** An image is one gray level; a one-byte file decodes to it. *)
Definition open_gray (b : list Byte.byte) : option Z :=
  match b with
  | [x] => Some (Z.of_N (Byte.to_N x))
  | _ => None
  end.

Definition same_words (a b : list string) : bool := bool_decide (a = b).

(** Equal sequences match entirely; different ones are replaced as a whole. *)
Definition opcodes (a b : list string) : list opcode :=
  let la := Z.of_nat (List.length a) in
  let lb := Z.of_nat (List.length b) in
  if same_words a b then
    match a with
    | [] => []
    | _ => [ {| op_tag := op_equal; op_i1 := 0; op_i2 := la; op_j1 := 0; op_j2 := lb |} ]
    end
  else
    [ {| op_tag := op_delete; op_i1 := 0; op_i2 := la; op_j1 := 0; op_j2 := 0 |};
      {| op_tag := op_insert; op_i1 := la; op_i2 := la; op_j1 := 0; op_j2 := lb |} ].

Definition ratio_words (a b : list string) : Q := if same_words a b then 1 else 0.
Definition ratio_chars (a b : string) : Q := if String.eqb a b then 1 else 0.

Definition line_diff (a b : list string) : list string :=
  if same_words a b then []
  else (List.map (String.append "-") a ++ List.map (String.append "+") b)%list.

Definition word_diff (a b : list string) : list string :=
  if same_words a b then List.map (String.append "  ") a
  else (List.map (String.append "- ") a ++ List.map (String.append "+ ") b)%list.

(** A float is shown as its reduced fraction. *)
Definition show_fraction (spec : string) (q : Q) : string :=
  let r := Qred q in
  pretty (Qnum r) ++ "/" ++ pretty (Zpos (Qden r)).

Definition platform : Platform :=
  {| image := Z;
     image_open := open_gray;
     image_blank := 255%Z;
     gray_pixels := fun img w h => List.repeat img (Z.to_nat (w * h));
     image_encode_b64 := fun img => Some (pretty img);
     b64decode := fun _ => None;
     soup_text := fun html => html;
     sm_opcodes := opcodes;
     sm_ratio_words := ratio_words;
     sm_ratio_chars := ratio_chars;
     unified_diff := line_diff;
     ndiff := word_diff;
     float_format := show_fraction;
     float_of_str := CompareTexts.float_of_decimal;
     float_sqrt := fun q => q;
     json_loads := fun _ => None;
     json_dumps := fun items => "{" ++ join ", " (List.map fst items) ++ "}" |}.

(** A world with an empty environment, no files and no Bedrock access. *)
Definition world (clock : string) : World :=
  {| environ := ∅;
     path_exists := fun _ => false;
     file_bytes := fun _ => None;
     now_isoformat := clock;
     pil_available := true;
     boto3_available := false;
     bedrock_invoke := fun _ => None;
     bedrock_complete := fun _ _ => None |}.

(** The platform with a table in place of [json.loads]. *)
Definition platform_with_json (table : list (string * json)) : Platform :=
  {| image := Z;
     image_open := open_gray;
     image_blank := 255%Z;
     gray_pixels := fun img w h => List.repeat img (Z.to_nat (w * h));
     image_encode_b64 := fun img => Some (pretty img);
     b64decode := fun _ => None;
     soup_text := fun html => html;
     sm_opcodes := opcodes;
     sm_ratio_words := ratio_words;
     sm_ratio_chars := ratio_chars;
     unified_diff := line_diff;
     ndiff := word_diff;
     float_format := show_fraction;
     float_of_str := CompareTexts.float_of_decimal;
     float_sqrt := fun q => q;
     json_loads := fun s => snd <$> List.find (fun '(k, _) => String.eqb k s) table;
     json_dumps := fun items => "{" ++ join ", " (List.map fst items) ++ "}" |}.

(** A world in which Bedrock is enabled and answers every request with [body]. *)
Definition world_with_bedrock (clock body : string) : World :=
  {| environ := {[ "USE_BEDROCK" := "true" ]};
     path_exists := fun _ => false;
     file_bytes := fun _ => None;
     now_isoformat := clock;
     pil_available := true;
     boto3_available := true;
     bedrock_invoke := fun _ => Some body;
     bedrock_complete := fun _ _ => Some body |}.

(** A response body and the reply it wraps, as [json.loads] reads them. *)
Definition reply_table : list (string * json) :=
  [ ("body", JObj {[ "content" := JArr [JObj {[ "text" := JStr "reply" ]}] ]});
    ("reply", JObj {[ "similarity" := JNum 1; "has_change" := JBool false ]}) ].

(** A world in which every path exists and holds the given bytes. *)
Definition world_with_file (content : list Byte.byte) : World :=
  {| environ := ∅;
     path_exists := fun _ => true;
     file_bytes := fun _ => Some content;
     now_isoformat := "";
     pil_available := true;
     boto3_available := false;
     bedrock_invoke := fun _ => None;
     bedrock_complete := fun _ _ => None |}.
End Stub.

(** ** The scoring formula as the specification words it *)

Module Spec.
Import PyNum PyStr.
Local Open Scope Q_scope.

(** [kw] occurs in [g] as a substring, up to the case of letters. *)
Definition ci_substring (kw g : string) : Prop :=
  exists pre mid post, g = pre ++ mid ++ post /\ lower mid = lower kw.

(** The goal text contains one of the four domain words. *)
Definition mentions_domain (g : string) : Prop :=
  exists kw, In kw ["regulatory"; "trial"; "safety"; "clinical"] /\ ci_substring kw g.

(** score = round(min(10, m * 10 * base), 2) *)
Definition score_formula (m s d : Q) (k : Z) (c : list string) (a : Q) : Q :=
  let textTerm := (1 - s) * 0.55 in
  let numTerm := Qmin 1 d * 0.25 in
  let kwTerm := Qmin 1 (inject_Z k / 5) * 0.10 in
  let critTerm := (match c with [] => 0 | _ :: _ => 1 end) * 0.10 in
  let alignTerm := a * 0.05 in
  py_round (Qmin 10 (m * 10 * (textTerm + numTerm + kwTerm + critTerm + alignTerm))) 2.

(** The score of [recalibrated_scoring] before it is classified and rounded. *)
Definition raw_score (s d : Q) (k : Z) (c : list string) (a : Q) (g : string) : Q :=
  let base := (1 - s) * 0.55 + py_min 1 d * 0.25 + py_min 1 (inject_Z k / 5) * 0.10
              + (match c with [] => 0 | _ => 1 end) * 0.10 + a * 0.05 in
  py_min 10 (if existsb (fun kw => contains kw (lower g)) CompareTexts.domain_keywords
             then 10 * base * 1.3 else 10 * base).


(** The shape that [trim] and [_smart_truncate] share: strip, keep a text
    within the limit, else join its first [a] and last [b] characters. *)
Definition truncate_with (a b : Z) (sep : string) (max_chars : Z) (t : string) : string :=
  let t := strip t in
  if (len t <=? max_chars)%Z then t
  else slice_to a t ++ sep ++ slice_from (- b) t.

(** The signals that the goal-aware analysis computes from the two texts. *)
Section Signals.
Context `{Platform}.
Import CompareTexts.

Definition token_counts (prev_text cur_text : string) : Z * Z :=
  let diff := ndiff (split_ws prev_text) (split_ws cur_text) in
  (Z.of_nat (List.length (List.filter (startswith "+ ") diff)),
   Z.of_nat (List.length
     (List.filter (fun line => negb (startswith "+ " line) && startswith "- " line) diff))).

Definition text_similarity (prev_text cur_text : string) : Q :=
  py_round (sm_ratio_chars prev_text cur_text) 4.

Definition diff_line_count (prev_text cur_text : string) : Z :=
  Z.of_nat (List.length (unified_diff (splitlines prev_text) (splitlines cur_text))).

Definition numeric_delta (prev_text cur_text : string) : Q * list string :=
  compute_numeric_delta (extract_numbers_with_labels prev_text)
                        (extract_numbers_with_labels cur_text).

Definition keyword_hits (goal prev_text cur_text : string) (insights : list string) : Z :=
  count_keyword_hits (compute_goal_keywords goal) (prev_text ++ cur_text) insights.

(** The object that [run_bedrock_analysis] merges: what [coerce_json] reads
    from the text of the model response,
    [coerce_json(json.loads(response["body"].read())["content"][0]["text"])]. *)
Definition model_response (w : World) (goal prev_text cur_text : string)
    (ctx : option visual_ctx) : result json :=
  let request := build_request w goal prev_text cur_text ctx in
  body_text ← of_option "invoke_model" (bedrock_invoke w request);
  body ← of_option "JSONDecodeError" (json_loads body_text);
  content ← of_option "KeyError" (Json.item body "content");
  block ← of_option "IndexError" (Json.first content);
  text ← of_option "KeyError" (Json.item block "text");
  response_text ← match text with JStr t => Ok t | _ => Raised "AttributeError" end;
  of_option "JSONDecodeError" (BedrockPrompt.coerce_json response_text).
End Signals.

(** The scoring formula with every operation in binary64. *)
Section Binary64Formula.
Import Binary64.

(** The sum of the five weighted terms, added from left to right. *)
Definition base_score64 (s d hits : float) (c : list string) (a : float) : float :=
  let textTerm := mul (sub (of_Q 1) s) (of_Q 0.55) in
  let numTerm := mul (py_min (of_Q 1) d) (of_Q 0.25) in
  let kwTerm := mul (py_min (of_Q 1) (div hits (of_Q 5))) (of_Q 0.10) in
  let critTerm := mul (match c with [] => of_Q 0 | _ :: _ => of_Q 1 end) (of_Q 0.10) in
  let alignTerm := mul a (of_Q 0.05) in
  add (add (add (add textTerm numTerm) kwTerm) critTerm) alignTerm.

(** score = round(min(10, m * 10 * base), 2), the products taken in the
    order written. *)
Definition score_formula64 (m s d hits : float) (c : list string) (a : float) : float :=
  py_round (py_min (of_Q 10) (mul (mul m (of_Q 10)) (base_score64 s d hits c a))) 2.

(** score = round(min(10, 10 * base * 1.3), 2): the formula for a domain
    goal with its product taken from the base, [10 * base] first. *)
Definition score_formula64_domain (s d hits : float) (c : list string) (a : float) : float :=
  py_round (py_min (of_Q 10) (mul (mul (of_Q 10) (base_score64 s d hits c a)) (of_Q 1.3))) 2.
End Binary64Formula.

(** Every value of the dict is at most 10^300: the numerals it was read
    from are then within the range of a float. *)
Definition within_float_range (kpis : gmap string Q) : bool :=
  forallb (fun kv => Qle_bool (snd kv) (inject_Z (10 ^ 300))) (map_to_list kpis).

(** The number of positions at which two bit strings differ. *)
Definition differing_bits (xs ys : list bool) : Z :=
  Z.of_nat (List.length (List.filter (fun '(x, y) => xorb x y) (combine xs ys))).

(** No character of the text is white space. *)
Fixpoint spaceless (s : string) : bool :=
  match s with
  | "" => true
  | String c s' => negb (is_space c) && spaceless s'
  end.

(** The labels under which [extract_numbers_with_labels] stores a value. *)
Definition kpi_labels : list string :=
  [ "Phase"; "Protocol"; "Enrollment"; "Target Enrollment"; "Sites"; "SAE";
    "Adverse Event Rate"; "R&D"; "Program Cost" ].

(** What holds of an extracted entry. *)
Definition kpi_entry_ok (key : string) (v : Q) : Prop :=
  In key kpi_labels /\ (0 <= v)%Q
  /\ (key = "Phase" -> v = 1%Q \/ v = 2%Q \/ v = 3%Q \/ v = 4%Q).

Definition kpis_ok (kpis : gmap string Q) : Prop :=
  forall key v, kpis !! key = Some v -> kpi_entry_ok key v.

(** What follows the greedy [.*] of the pattern of an object: a closing
    brace, then the rest of the match. *)
Definition after_any {A} (k : string -> Re.caps -> option A)
  : string -> Re.caps -> option A :=
  fun s' c' => match Re.strip_prefix "}" s' with Some s'' => k s'' c' | None => None end.
End Spec.

(* ===================================================================== *)
(** * Part II: properties                                                 *)
(* ===================================================================== *)

Import PyNum PyStr.

#[local] Arguments String.append !_ _ / : simpl nomatch.

(** ** Floats *)

Section Floats.
Local Open Scope Q_scope.

Lemma Qltb_lt x y : Qltb x y = true <-> x < y.
Proof.
  unfold Qltb. rewrite negb_true_iff, <- not_true_iff_false, Qle_bool_iff.
  split; [apply Qnot_le_lt | apply Qlt_not_le].
Qed.

Lemma Qltb_ge x y : Qltb x y = false <-> y <= x.
Proof.
  unfold Qltb. rewrite negb_false_iff, Qle_bool_iff. reflexivity.
Qed.

Lemma py_min_Qmin a b : py_min a b == Qmin a b.
Proof.
  unfold py_min. destruct (Qltb b a) eqn:E.
  - apply Qltb_lt in E. symmetry. apply Q.min_r. apply Qlt_le_weak, E.
  - apply Qltb_ge in E. symmetry. apply Q.min_l, E.
Qed.

Lemma py_min_le_l a b : py_min a b <= a.
Proof. rewrite py_min_Qmin. apply Q.le_min_l. Qed.

Lemma py_min_le_r a b : py_min a b <= b.
Proof. rewrite py_min_Qmin. apply Q.le_min_r. Qed.

Lemma py_min_glb a b c : c <= a -> c <= b -> c <= py_min a b.
Proof. intros. rewrite py_min_Qmin. now apply Q.min_glb. Qed.

Lemma py_max_Qmax a b : py_max a b == Qmax a b.
Proof.
  unfold py_max. destruct (Qltb a b) eqn:E.
  - apply Qltb_lt in E. symmetry. apply Q.max_r. apply Qlt_le_weak, E.
  - apply Qltb_ge in E. symmetry. apply Q.max_l, E.
Qed.

Lemma py_max_ge_l a b : a <= py_max a b.
Proof. rewrite py_max_Qmax. apply Q.le_max_l. Qed.

Lemma py_max_ge_r a b : b <= py_max a b.
Proof. rewrite py_max_Qmax. apply Q.le_max_r. Qed.

Lemma py_max_lub a b c : a <= c -> b <= c -> py_max a b <= c.
Proof. intros. rewrite py_max_Qmax. now apply Q.max_lub. Qed.

#[local] Instance py_min_proper : Proper (Qeq ==> Qeq ==> Qeq) py_min.
Proof. intros a a' Ha b b' Hb. rewrite !py_min_Qmin, Ha, Hb. reflexivity. Qed.

Lemma round_half_even_proper x y : x == y -> round_half_even x = round_half_even y.
Proof.
  intros E. unfold round_half_even.
  rewrite (Qfloor_comp _ _ E).
  assert (E' : x - inject_Z (Qfloor y) == y - inject_Z (Qfloor y)) by (rewrite E; reflexivity).
  rewrite (Qcompare_comp _ _ E' _ _ (Qeq_refl _)). reflexivity.
Qed.

Lemma round_half_even_floor x :
  (Qfloor x <= round_half_even x <= Qfloor x + 1)%Z.
Proof.
  unfold round_half_even.
  destruct (Qcompare _ _); [destruct (Z.even _) | |]; lia.
Qed.

Lemma round_half_even_ge x z : inject_Z z <= x -> (z <= round_half_even x)%Z.
Proof.
  intros L. pose proof (round_half_even_floor x) as [F _].
  apply Qfloor_resp_le in L. rewrite Qfloor_Z in L. lia.
Qed.

Lemma round_half_even_le x z : x <= inject_Z z -> (round_half_even x <= z)%Z.
Proof.
  intros L. pose proof (Qfloor_resp_le _ _ L) as F. rewrite Qfloor_Z in F.
  destruct (Z.eq_dec (Qfloor x) z) as [E | N].
  - unfold round_half_even.
    assert (Z0 : x - inject_Z (Qfloor x) == 0).
    { rewrite E. pose proof (Qfloor_le x) as Lo. rewrite E in Lo.
      apply Qle_antisym; lra. }
    rewrite (Qcompare_comp _ _ Z0 _ _ (Qeq_refl _)). simpl. lia.
  - pose proof (round_half_even_floor x). lia.
Qed.

Lemma scale_pos n : (0 < 10 ^ Z.of_nat n)%Z.
Proof. apply Z.pow_pos_nonneg; lia. Qed.

Lemma Qmake_scale z n : z # Z.to_pos (10 ^ Z.of_nat n) == inject_Z z / inject_Z (10 ^ Z.of_nat n).
Proof.
  pose proof (scale_pos n) as P.
  destruct (10 ^ Z.of_nat n)%Z as [| p | p] eqn:E; try lia.
  simpl. rewrite Qmake_Qdiv. reflexivity.
Qed.

Lemma py_round_proper x y n : x == y -> py_round x n = py_round y n.
Proof.
  intros E. unfold py_round. cbv zeta. f_equal.
  apply round_half_even_proper. rewrite E. reflexivity.
Qed.

Lemma py_round_ge x n z : inject_Z z <= x -> inject_Z z <= py_round x n.
Proof.
  intros L. unfold py_round. cbv zeta. rewrite Qmake_scale.
  pose proof (scale_pos n) as P.
  assert (P' : 0 < inject_Z (10 ^ Z.of_nat n)).
  { replace 0 with (inject_Z 0) by reflexivity. rewrite <- Zlt_Qlt. exact P. }
  apply Qle_shift_div_l; [exact P' |].
  rewrite <- inject_Z_mult, <- Zle_Qle.
  apply round_half_even_ge. rewrite inject_Z_mult.
  apply Qmult_le_compat_r; [exact L | apply Qlt_le_weak, P'].
Qed.

Lemma py_round_le x n z : x <= inject_Z z -> py_round x n <= inject_Z z.
Proof.
  intros L. unfold py_round. cbv zeta. rewrite Qmake_scale.
  pose proof (scale_pos n) as P.
  assert (P' : 0 < inject_Z (10 ^ Z.of_nat n)).
  { replace 0 with (inject_Z 0) by reflexivity. rewrite <- Zlt_Qlt. exact P. }
  apply Qle_shift_div_r; [exact P' |].
  rewrite <- inject_Z_mult, <- Zle_Qle.
  apply round_half_even_le. rewrite inject_Z_mult.
  apply Qmult_le_compat_r; [exact L | apply Qlt_le_weak, P'].
Qed.
End Floats.

(** ** Strings *)

Section Strings.

Lemma append_nil_r s : s ++ "" = s.
Proof. induction s; simpl; congruence. Qed.

Lemma append_assoc (a b c : string) : (a ++ b) ++ c = a ++ (b ++ c).
Proof. induction a; simpl; congruence. Qed.

Lemma length_append (a b : string) :
  String.length (a ++ b) = (String.length a + String.length b)%nat.
Proof. induction a; simpl; congruence. Qed.

Lemma lower_append a b : lower (a ++ b) = lower a ++ lower b.
Proof. induction a; simpl; congruence. Qed.


(** A split of [lower s] comes from a split of [s]. *)
Lemma lower_split s a b :
  lower s = a ++ b -> exists a' b', s = a' ++ b' /\ lower a' = a /\ lower b' = b.
Proof.
  revert s. induction a as [| c a IH]; intros s E.
  - exists "", s. auto.
  - destruct s as [| d s]; simpl in E; [discriminate |].
    injection E as Ec Es. destruct (IH _ Es) as (a' & b' & -> & Ha & Hb).
    exists (String d a'), b'. simpl. rewrite Ec, Ha. auto.
Qed.

Lemma startswith_spec p s : startswith p s = true <-> exists post, s = p ++ post.
Proof.
  revert s. induction p as [| a p IH]; intros s; simpl.
  - split; eauto.
  - destruct s as [| b s].
    + split; [discriminate | intros [post E]; discriminate].
    + rewrite andb_true_iff, Ascii.eqb_eq, IH. split.
      * intros [-> [post ->]]. eauto.
      * intros [post E]. injection E as -> ->. eauto.
Qed.

Lemma contains_spec sub s :
  contains sub s = true <-> exists pre post, s = pre ++ sub ++ post.
Proof.
  induction s as [| c s IH]; simpl.
  - rewrite orb_false_r, startswith_spec. split.
    + intros [post E]. exists "", post. exact E.
    + intros (pre & post & E). destruct pre; [eauto | discriminate].
  - rewrite orb_true_iff, startswith_spec, IH. split.
    + intros [[post E] | (pre & post & E)].
      * exists "", post. exact E.
      * exists (String c pre), post. simpl. congruence.
    + intros (pre & post & E). destruct pre as [| d pre]; simpl in E.
      * left. eauto.
      * right. injection E as -> ->. eauto.
Qed.

(** The test [kw in goal.lower()] decides a case-insensitive occurrence of a
    lower-case word. *)
Lemma contains_lower_ci kw g :
  lower kw = kw -> (contains kw (lower g) = true <-> Spec.ci_substring kw g).
Proof.
  intros Hkw. rewrite contains_spec. unfold Spec.ci_substring. split.
  - intros (pre & post & E).
    apply lower_split in E as (pre' & rest & -> & Hpre & E).
    apply lower_split in E as (mid & post' & -> & Hmid & Hpost).
    exists pre', mid, post'. split; [reflexivity | congruence].
  - intros (pre & mid & post & -> & E).
    exists (lower pre), (lower post). rewrite !lower_append. congruence.
Qed.
End Strings.

(** ** The primary scoring function *)

Section Scoring.
Local Open Scope Q_scope.
Import CompareTexts.

Lemma domain_test_spec g :
  existsb (fun kw => contains kw (lower g)) domain_keywords = true
  <-> Spec.mentions_domain g.
Proof.
  rewrite existsb_exists. unfold Spec.mentions_domain. split.
  - intros (kw & Hin & Hc). exists kw. split; [exact Hin |].
    apply contains_lower_ci; [| exact Hc].
    simpl in Hin. intuition subst; reflexivity.
  - intros (kw & Hin & Hc). exists kw. split; [exact Hin |].
    apply contains_lower_ci; [| exact Hc].
    simpl in Hin. intuition subst; reflexivity.
Qed.

Lemma recalibrated_scoring_unfold s d k c a g :
  recalibrated_scoring s d k c a g =
  (py_round (Spec.raw_score s d k c a g) 2,
   fst (classify (Spec.raw_score s d k c a g)), snd (classify (Spec.raw_score s d k c a g))).
Proof.
  unfold recalibrated_scoring, Spec.raw_score. cbv zeta.
  destruct (classify _) as [i al]. reflexivity.
Qed.

(** With exact arithmetic in place of binary64, the score is
    round(min(10, m * 10 * ((1 - s) * 0.55 + min(1, d) * 0.25
    + min(1, k / 5) * 0.10 + (1 if c is non-empty else 0) * 0.10 + a * 0.05)), 2),
    where m is 1.3 when the goal contains "regulatory", "trial", "safety" or
    "clinical" as a case-insensitive substring, and 1.0 otherwise. *)
Lemma score_formula_exact (s d : Q) (k : Z) (c : list string) (a : Q) (g : string) :
  exists m : Q,
    ((Spec.mentions_domain g /\ m = 1.3) \/ (~ Spec.mentions_domain g /\ m = 1))
    /\ fst (fst (recalibrated_scoring s d k c a g)) = Spec.score_formula m s d k c a.
Proof.
  rewrite recalibrated_scoring_unfold. cbn [fst].
  unfold Spec.raw_score, Spec.score_formula. cbv zeta.
  destruct (existsb _ domain_keywords) eqn:E.
  - exists 1.3. split.
    + left. split; [apply domain_test_spec, E | reflexivity].
    + apply py_round_proper. rewrite !py_min_Qmin.
      apply Q.min_compat; [reflexivity |].
      destruct c; ring.
  - exists 1. split.
    + right. split; [| reflexivity].
      intros M. apply domain_test_spec in M. congruence.
    + apply py_round_proper. rewrite !py_min_Qmin.
      apply Q.min_compat; [reflexivity |].
      destruct c; ring.
Qed.

(** The ladder is applied to the score before rounding. *)
Lemma classify_spec (x : Q) :
  (x < 4.5 /\ classify x = ("low", "low"))
  \/ (4.5 <= x /\ x < 7 /\ classify x = ("medium", "med"))
  \/ (7 <= x /\ classify x = ("critical", "crit")).
Proof.
  unfold classify.
  destruct (Qltb x 4.5) eqn:A; [left; split; [apply Qltb_lt, A | reflexivity] |].
  apply Qltb_ge in A.
  destruct (Qltb x 7) eqn:B.
  - right; left. repeat split; [exact A | apply Qltb_lt, B].
  - right; right. split; [apply Qltb_ge, B | reflexivity].
Qed.

(** C4. At similarity 0.228, no numeric delta, no keyword hit, no critical
    phrase, goal alignment 0.5 and an empty goal, the score before rounding
    is 4.496: the function labels it "low"/"low" and returns the rounded
    score 4.5, which the threshold ladder places in "medium"/"med". *)
Theorem C4_rounded_threshold_score_labelled_low :
  let r := recalibrated_scoring 0.228 0 0 [] 0.5 "" in
  Spec.raw_score 0.228 0 0 [] 0.5 "" == 4.496
  /\ fst (fst r) == 4.5 /\ snd (fst r) = "low" /\ snd r = "low"
  /\ classify (fst (fst r)) = ("medium", "med").
Proof. vm_compute. repeat split. Qed.

Lemma raw_score_le_10 s d k c a g : Spec.raw_score s d k c a g <= 10.
Proof. unfold Spec.raw_score. cbv zeta. apply py_min_le_l. Qed.

Lemma py_min_nonneg a b : 0 <= a -> 0 <= b -> 0 <= py_min a b.
Proof. apply py_min_glb. Qed.

Lemma raw_score_nonneg s d k c a g :
  s <= 1 -> 0 <= d -> (0 <= k)%Z -> 0 <= a -> 0 <= Spec.raw_score s d k c a g.
Proof.
  intros Hs Hd Hk Ha. unfold Spec.raw_score. cbv zeta.
  assert (Hk' : 0 <= inject_Z k / 5).
  { apply Qle_shift_div_l; [reflexivity |]. rewrite Qmult_0_l.
    replace 0 with (inject_Z 0) by reflexivity. rewrite <- Zle_Qle. exact Hk. }
  pose proof (py_min_nonneg 1 d ltac:(lra) Hd) as M1.
  pose proof (py_min_nonneg 1 _ ltac:(lra) Hk') as M2.
  set (m1 := py_min 1 d) in *. set (m2 := py_min 1 (inject_Z k / 5)) in *.
  assert (C : 0 <= match c with [] => 0 | _ => 1 end) by (destruct c; lra).
  set (cc := match c with [] => 0 | _ => 1 end) in *.
  apply py_min_glb; [lra |].
  destruct (existsb _ _); nra.
Qed.

Lemma recalibrated_score_le_10 s d k c a g :
  fst (fst (recalibrated_scoring s d k c a g)) <= 10.
Proof.
  rewrite recalibrated_scoring_unfold. cbn [fst].
  apply (py_round_le _ 2 10), raw_score_le_10.
Qed.

Lemma recalibrated_score_nonneg s d k c a g :
  s <= 1 -> 0 <= d -> (0 <= k)%Z -> 0 <= a ->
  0 <= fst (fst (recalibrated_scoring s d k c a g)).
Proof.
  intros. rewrite recalibrated_scoring_unfold. cbn [fst].
  apply (py_round_ge _ 2 0), raw_score_nonneg; assumption.
Qed.
End Scoring.

(** ** The primary scoring function in binary64 *)

Section ScoringBinary64.
Import Binary64 CompareTexts64.

(** C1, amended.  For a keyword-hit count that converts to a float, and with
    every operation in binary64, the primary scoring function returns
    round(min(10, m * 10 * base), 2) with m = 1.0 when the goal contains
    none of "regulatory", "trial", "safety" and "clinical" as a
    case-insensitive substring, and round(min(10, 10 * base * 1.3), 2), the
    product 10 * base taken first, when it contains one; base is the sum,
    from left to right, of (1 - s) * 0.55, min(1, d) * 0.25,
    min(1, k / 5) * 0.10, (1 if c is non-empty else 0) * 0.10 and
    a * 0.05. *)
Theorem C1_score_formula_binary64 (s d : float) (k : Z) (c : list string) (a : float)
    (g : string) (hits : float) :
  of_int k = Ok hits ->
  exists (score : float) (importance alert : string),
    recalibrated_scoring s d k c a g = Ok (score, importance, alert)
    /\ ((Spec.mentions_domain g /\ score = Spec.score_formula64_domain s d hits c a)
        \/ (~ Spec.mentions_domain g
            /\ score = Spec.score_formula64 (of_Q 1) s d hits c a)).
Proof.
  intros K. unfold recalibrated_scoring. rewrite K. cbn [mbind result_bind]. cbv zeta.
  destruct (classify _) as [importance alert] eqn:L. clear L.
  eexists _, importance, alert. split; [reflexivity |].
  destruct (existsb _ CompareTexts.domain_keywords) eqn:E.
  - left. split; [apply domain_test_spec, E |].
    unfold Spec.score_formula64_domain, Spec.base_score64. cbv zeta.
    destruct c; reflexivity.
  - right. split.
    + intros M. apply domain_test_spec in M. congruence.
    + unfold Spec.score_formula64, Spec.base_score64. cbv zeta.
      replace (mul (of_Q 1) (of_Q 10)) with (of_Q 10) by (vm_compute; reflexivity).
      destruct c; reflexivity.
Qed.
End ScoringBinary64.

(** C1, as stated, fails: at similarity 0.0, numeric delta 0, two keyword
    hits, one critical phrase, goal alignment 0.5 and the goal "trial", the
    function returns 9.29, while the formula round(min(10, m * 10 * base), 2)
    gives 9.3, both with its products in binary64 in the order written and
    with exact arithmetic: 10 * base * 1.3 falls just below the tie 9.295
    that 1.3 * 10 * base reaches.  With an empty goal, at similarity 0.01,
    numeric delta 0.5 and goal alignment 0.5, the function returns 6.95 and
    the formula in exact arithmetic 6.94. *)
Lemma C1_counterexample_rounding_tie :
  CompareTexts64.recalibrated_scoring
    (Binary64.of_Q 0) (Binary64.of_Q 0) 2 ["X"] (Binary64.of_Q 0.5) "trial"
  = Ok (Binary64.of_Q 9.29, "critical", "crit")
  /\ Spec.score_formula64 (Binary64.of_Q 1.3) (Binary64.of_Q 0) (Binary64.of_Q 0)
       (Binary64.of_Q 2) ["X"] (Binary64.of_Q 0.5)
     = Binary64.of_Q 9.3
  /\ (Spec.score_formula 1.3 0 0 2 ["X"] 0.5 == 9.3)%Q
  /\ Binary64.of_Q 9.29 <> Binary64.of_Q 9.3
  /\ CompareTexts64.recalibrated_scoring
       (Binary64.of_Q 0.01) (Binary64.of_Q 0.5) 0 [] (Binary64.of_Q 0.5) ""
     = Ok (Binary64.of_Q 6.95, "medium", "med")
  /\ (Spec.score_formula 1 0.01 0.5 0 [] 0.5 == 6.94)%Q
  /\ Binary64.of_Q 6.95 <> Binary64.of_Q 6.94.
Proof.
  split; [vm_compute; reflexivity |].
  split; [vm_compute; reflexivity |].
  split; [vm_compute; reflexivity |].
  split; [vm_compute; discriminate |].
  split; [vm_compute; reflexivity |].
  split; [vm_compute; reflexivity |].
  vm_compute. discriminate.
Qed.

Lemma C1_score_formula_binary64_witness :
  exists (score : Binary64.float) (importance alert : string),
    CompareTexts64.recalibrated_scoring
      (Binary64.of_Q 0) (Binary64.of_Q 0) 2 ["X"] (Binary64.of_Q 0.5) "trial"
    = Ok (score, importance, alert)
    /\ ((Spec.mentions_domain "trial"
         /\ score = Spec.score_formula64_domain (Binary64.of_Q 0) (Binary64.of_Q 0)
                      (Binary64.of_Q 2) ["X"] (Binary64.of_Q 0.5))
        \/ (~ Spec.mentions_domain "trial"
            /\ score = Spec.score_formula64 (Binary64.of_Q 1) (Binary64.of_Q 0)
                         (Binary64.of_Q 0) (Binary64.of_Q 2) ["X"] (Binary64.of_Q 0.5))).
Proof.
  apply C1_score_formula_binary64. vm_compute. reflexivity.
Defined.

(** ** The local goal-aware analysis *)

Section LocalAnalysis.
Local Open Scope Q_scope.
Import CompareTexts.
Context `{Platform}.

(** Every field of the result of [enhanced_diff_analysis], in terms of the
    signals. *)
Lemma enhanced_fields (w : World) (goal prev cur : string) :
  let r := enhanced_diff_analysis w goal prev cur in
  let sim := Spec.text_similarity prev cur in
  let nd := Spec.numeric_delta prev cur in
  let flags := detect_critical_phrases prev cur in
  let scored :=
    recalibrated_scoring sim (fst nd) (Spec.keyword_hits goal prev cur (snd nd)) flags 0.5 goal in
  text_added r = fst (Spec.token_counts prev cur)
  /\ text_removed r = snd (Spec.token_counts prev cur)
  /\ total_diff_lines r = Spec.diff_line_count prev cur
  /\ similarity r = JNum sim
  /\ goal_alignment r = JNum 0.5
  /\ import_score r = fst (fst scored)
  /\ importance r = snd (fst scored)
  /\ alert_criteria r = snd scored
  /\ has_change r =
       JBool ((0 <? fst (Spec.token_counts prev cur) + snd (Spec.token_counts prev cur))%Z
              || Qltb sim 0.98 || match flags with [] => false | _ => true end)
  /\ llm_used r = false
  /\ analysis_timestamp r = now_isoformat w.
Proof.
  cbv zeta. unfold enhanced_diff_analysis, Spec.numeric_delta, Spec.keyword_hits,
    Spec.text_similarity, Spec.token_counts, Spec.diff_line_count. cbv zeta.
  destruct (compute_numeric_delta _ _) as [nd ins].
  cbn [fst snd].
  destruct (recalibrated_scoring _ _ _ _ _ _) as [[sc im] al].
  cbn [text_added text_removed total_diff_lines similarity goal_alignment import_score
       importance alert_criteria has_change llm_used analysis_timestamp fst snd].
  repeat (split; [reflexivity |]). reflexivity.
Qed.

Lemma py_sum_nonneg (xs : list Q) (acc : Q) :
  Forall (Qle 0) xs -> 0 <= acc -> 0 <= fold_left Qplus xs acc.
Proof.
  revert acc. induction xs as [| x xs IH]; intros acc F A; simpl; [exact A |].
  inversion F; subst. apply IH; [assumption | lra].
Qed.

Lemma delta_step_nonneg p c acc key :
  Forall (Qle 0) (snd acc) -> Forall (Qle 0) (snd (delta_step p c acc key)).
Proof.
  destruct acc as [ins ds]. intros F. unfold delta_step.
  destruct (p !! key) as [pv |]; [| exact F].
  destruct (c !! key) as [cv |]; [| exact F].
  destruct (Qltb _ _); [| exact F].
  cbn [snd] in *. apply Forall_app. split; [exact F |].
  constructor; [| constructor].
  apply Qle_shift_div_l.
  - apply Qlt_le_trans with 1; [reflexivity | apply py_max_ge_r].
  - rewrite Qmult_0_l. apply Qabs_nonneg.
Qed.

Lemma compute_numeric_delta_nonneg p c : 0 <= fst (compute_numeric_delta p c).
Proof.
  unfold compute_numeric_delta.
  assert (F : Forall (Qle 0)
                (snd (fold_left (delta_step p c) (common_keys p c) ([], [])))).
  { generalize (common_keys p c). intros keys.
    assert (G : forall acc, Forall (Qle 0) (snd acc) ->
                  Forall (Qle 0) (snd (fold_left (delta_step p c) keys acc))).
    { induction keys as [| k keys IH]; intros acc A; simpl; [exact A |].
      apply IH, delta_step_nonneg, A. }
    apply G. constructor. }
  destruct (fold_left _ _ _) as [ins ds]. cbn [snd] in F. cbn [fst].
  destruct ds as [| d ds]; [lra |].
  apply Qle_shift_div_l.
  - replace 0 with (inject_Z 0) by reflexivity. rewrite <- Zlt_Qlt. simpl. lia.
  - rewrite Qmult_0_l. apply py_sum_nonneg; [exact F | lra].
Qed.

Lemma count_keyword_hits_nonneg kws text ins : (0 <= count_keyword_hits kws text ins)%Z.
Proof. unfold count_keyword_hits. lia. Qed.

Lemma text_similarity_range prev cur :
  0 <= sm_ratio_chars prev cur <= 1 -> 0 <= Spec.text_similarity prev cur <= 1.
Proof.
  intros [L U]. unfold Spec.text_similarity. split.
  - apply (py_round_ge _ 4 0), L.
  - apply (py_round_le _ 4 1), U.
Qed.

(** On the local path the score is within bounds when difflib's ratio is. *)
Lemma enhanced_score_range w goal prev cur :
  0 <= sm_ratio_chars prev cur <= 1 ->
  0 <= import_score (enhanced_diff_analysis w goal prev cur) <= 10.
Proof.
  intros R. apply text_similarity_range in R as [L U].
  destruct (enhanced_fields w goal prev cur) as (_ & _ & _ & _ & _ & -> & _).
  split; [| apply recalibrated_score_le_10].
  apply recalibrated_score_nonneg.
  - exact U.
  - apply compute_numeric_delta_nonneg.
  - apply count_keyword_hits_nonneg.
  - lra.
Qed.
End LocalAnalysis.

(** ** The alternate scoring function *)

Section AlternateScoring.
Local Open Scope Q_scope.
Import Importance.
Context `{Platform}.

Lemma domain_weight_ge_1 (d : string) : 1 <= default 1 (DomainWeights !! d).
Proof.
  destruct (DomainWeights !! d) as [v |] eqn:E; simpl; [| lra].
  unfold DomainWeights in E.
  apply lookup_insert_Some in E as [[_ <-] | [_ E]]; [lra |].
  apply lookup_insert_Some in E as [[_ <-] | [_ E]]; [lra |].
  apply lookup_singleton_Some in E as [_ <-]. lra.
Qed.

Lemma importance_score_le_10 ta tr st sv g dom kws :
  fst (compute_importance_score ta tr st sv g dom kws) <= 10.
Proof.
  unfold compute_importance_score. cbv zeta. cbn [fst].
  apply (py_round_le _ 2 10).
  match goal with |- py_min 1 ?b * 10 <= _ => pose proof (py_min_le_l 1 b) end.
  change (inject_Z 10) with 10. lra.
Qed.

Lemma importance_score_nonneg ta tr st sv g dom kws :
  st <= 1 -> sv <= 1 -> 0 <= fst (compute_importance_score ta tr st sv g dom kws).
Proof.
  intros Hst Hsv. unfold compute_importance_score. cbv zeta. cbn [fst].
  apply (py_round_ge _ 2 0).
  pose proof (domain_weight_ge_1 (lower dom)) as W.
  set (wt := default 1 (DomainWeights !! lower dom)) in *.
  assert (B0 : 0 <= (1 - st) * 0.6 + (1 - sv) * 0.4) by nra.
  set (b0 := (1 - st) * 0.6 + (1 - sv) * 0.4) in *.
  match goal with |- _ <= py_min 1 (?b * wt) * 10 => assert (B : 0 <= b) end.
  { destruct kws as [[| k ks] |]; try exact B0.
    destruct (_ =? 0)%Z eqn:Z0; [exact B0 |].
    match goal with |- 0 <= b0 + 0.05 * inject_Z ?h => assert (0 <= inject_Z h) end.
    { replace 0 with (inject_Z 0) by reflexivity. rewrite <- Zle_Qle. lia. }
    nra. }
  match goal with |- _ <= py_min 1 (?b * wt) * 10 =>
    pose proof (py_min_nonneg 1 (b * wt) ltac:(lra) ltac:(nra)) end.
  change (inject_Z 0) with 0. lra.
Qed.
End AlternateScoring.

(** ** The full pipeline *)

Section FullPipeline.
Local Open Scope Q_scope.
Import Pipeline.
Context `{Platform}.

Lemma bind_Ok {A B} (r : result A) (f : A -> result B) (b : B) :
  r ≫= f = Ok b -> exists a, r = Ok a /\ f a = Ok b.
Proof. destruct r as [a | e]; simpl; [eauto | discriminate]. Qed.

Lemma of_option_Ok {A} (e : string) (o : option A) (a : A) :
  of_option e o = Ok a -> o = Some a.
Proof. destruct o; simpl; congruence. Qed.

Lemma make_Ok r r' : Schemas.make r = Ok r' -> r' = r /\ Schemas.valid r = true.
Proof. unfold Schemas.make. destruct (Schemas.valid r); [| discriminate]. intros [= <-]. auto. Qed.

(** What a returned [ChangeResult] contains. *)
Lemma analyze_change_Ok (w : World) prev_dom cur_dom prev_ss cur_ss goal domain url keywords r :
  analyze_change w prev_dom cur_dom prev_ss cur_ss goal domain url keywords = Ok r ->
  exists prev_img cur_img sim_visual,
    UtilsImage.load_image w prev_ss = Ok prev_img
    /\ UtilsImage.load_image w cur_ss = Ok cur_img
    /\ UtilsImage.perceptual_similarity prev_img cur_img = Ok sim_visual
    /\ let stats := UtilsDom.text_diff_stats (UtilsDom.extract_visible_text prev_dom)
                                             (UtilsDom.extract_visible_text cur_dom) in
       let added := fst (fst (fst stats)) in
       let removed := snd (fst (fst stats)) in
       let diff_lines := snd (fst stats) in
       let sim_text := snd stats in
       Schemas.has_change r = ((0 <? added + removed)%Z || Qltb sim_visual 0.98)
       /\ Schemas.text_added r = added
       /\ Schemas.text_removed r = removed
       /\ Schemas.total_diff_lines r = diff_lines
       /\ Schemas.similarity r = py_round (sim_text * 0.6 + sim_visual * 0.4) 4
       /\ Schemas.import_score r =
            fst (Importance.compute_importance_score added removed sim_text sim_visual
                   goal domain (Some (default [] keywords)))
       /\ Schemas.importance r = Importance.label_from_score (Schemas.import_score r)
       /\ Importance.alert_from_label (Schemas.importance r) = Some (Schemas.alert_criteria r)
       /\ Schemas.valid r = true.
Proof.
  unfold analyze_change. intros E.
  apply bind_Ok in E as (prev_img & E1 & E).
  apply bind_Ok in E as (cur_img & E2 & E).
  apply bind_Ok in E as (sim_visual & E3 & E).
  exists prev_img, cur_img, sim_visual. repeat (split; [assumption |]).
  destruct (UtilsDom.text_diff_stats _ _) as [[[added removed] diff_lines] sim_text].
  cbv zeta. cbn [fst snd].
  destruct (UtilsDom.short_context_snippets _ _ _) as [ps cs].
  apply bind_Ok in E as (sv & _ & E).
  apply bind_Ok in E as (summary & _ & E).
  destruct (Importance.compute_importance_score _ _ _ _ _ _ _) as [score_10 rationale] eqn:S.
  apply bind_Ok in E as (alert & EA & E).
  apply of_option_Ok in EA.
  apply make_Ok in E as [-> V]. cbn. repeat split; assumption.
Qed.
End FullPipeline.

(** ** Bounds of the similarity and of the score *)

Section Bounds.
Local Open Scope Q_scope.

Lemma valid_bounds (r : Schemas.ChangeResult) :
  Schemas.valid r = true ->
  0 <= Schemas.similarity r <= 1 /\ 0 <= Schemas.import_score r <= 10.
Proof.
  unfold Schemas.valid. rewrite !andb_true_iff, !Qle_bool_iff. tauto.
Qed.

(** C3, as stated, fails: a response of the summarizer that carries
    similarity 2 is merged unchecked, and the result has similarity 2 and a
    negative score; the primary scoring function itself returns a negative
    score at similarity 2. *)
Lemma C3_counterexample_external_similarity :
  (exists r,
      @CompareTexts.merge_analysis Stub.platform (Stub.world "t") "" "a" "b" "m"
        (JObj {[ "similarity" := JNum 2 ]}) = Ok r
      /\ CompareTexts.similarity r = JNum 2
      /\ CompareTexts.import_score r < 0)
  /\ fst (fst (CompareTexts.recalibrated_scoring 2 0 0 [] 0.5 "")) < 0.
Proof.
  split.
  - eexists. split; [vm_compute; reflexivity |]. split; [reflexivity | reflexivity].
  - reflexivity.
Qed.

(** C3, amended.  Neither scoring function returns a score above 10.  The
    primary score is at least 0 when the similarity is at most 1 and the
    numeric delta, the keyword hits and the goal alignment are not negative;
    the alternate score is at least 0 when both similarities are at most 1.
    Every [ChangeResult] that the full pipeline returns has its similarity
    in [0,1] and its score in [0,10], and so has the result of the local
    goal-aware analysis whenever the ratio of the sequence matcher is in
    [0,1]. *)
Theorem C3_score_and_similarity_bounds `{Platform} :
  (forall s d k c a g,
      fst (fst (CompareTexts.recalibrated_scoring s d k c a g)) <= 10
      /\ (s <= 1 -> 0 <= d -> (0 <= k)%Z -> 0 <= a ->
          0 <= fst (fst (CompareTexts.recalibrated_scoring s d k c a g))))
  /\ (forall ta tr st sv g dom kws,
      fst (Importance.compute_importance_score ta tr st sv g dom kws) <= 10
      /\ (st <= 1 -> sv <= 1 ->
          0 <= fst (Importance.compute_importance_score ta tr st sv g dom kws)))
  /\ (forall w prev_dom cur_dom prev_ss cur_ss goal domain url keywords r,
      Pipeline.analyze_change w prev_dom cur_dom prev_ss cur_ss goal domain url keywords = Ok r ->
      0 <= Schemas.similarity r <= 1 /\ 0 <= Schemas.import_score r <= 10)
  /\ (forall w goal prev cur,
      0 <= sm_ratio_chars prev cur <= 1 ->
      let r := CompareTexts.enhanced_diff_analysis w goal prev cur in
      (exists q, CompareTexts.similarity r = JNum q /\ 0 <= q <= 1)
      /\ 0 <= CompareTexts.import_score r <= 10).
Proof.
  split; [| split; [| split]].
  - intros. split; [apply recalibrated_score_le_10 | apply recalibrated_score_nonneg].
  - intros. split; [apply importance_score_le_10 | apply importance_score_nonneg].
  - intros * E. apply analyze_change_Ok in E as (? & ? & ? & _ & _ & _ & E).
    cbv zeta in E. apply valid_bounds. tauto.
  - intros w goal prev cur R. cbv zeta. split.
    + destruct (enhanced_fields w goal prev cur) as (_ & _ & _ & -> & _).
      eexists. split; [reflexivity | apply text_similarity_range, R].
    + apply enhanced_score_range, R.
Qed.

Lemma C3_score_and_similarity_bounds_witness :
  0 <= fst (fst (CompareTexts.recalibrated_scoring 0.5 0.25 2 ["Fast Track"] 0.5 "trial")) <= 10
  /\ 0 <= fst (@Importance.compute_importance_score Stub.platform 1 1 0.5 0.5
                 "goal" "pricing" None) <= 10
  /\ (exists r,
        @Pipeline.analyze_change Stub.platform (Stub.world "t") "<p>a</p>" "<p>b</p>"
          (RefStr "") RefNone "goal" "regulatory" "u" None = Ok r
        /\ 0 <= Schemas.similarity r <= 1 /\ 0 <= Schemas.import_score r <= 10)
  /\ 0 <= CompareTexts.import_score
            (@CompareTexts.enhanced_diff_analysis Stub.platform (Stub.world "t")
               "goal" "a" "b") <= 10.
Proof.
  destruct (@C3_score_and_similarity_bounds Stub.platform) as (A & B & C & D).
  split; [| split; [| split]].
  - destruct (A 0.5 0.25 2%Z ["Fast Track"] 0.5 "trial") as [U L].
    split; [apply L; [lra | lra | lia | lra] | exact U].
  - destruct (B 1%Z 1%Z 0.5 0.5 "goal" "pricing" None) as [U L].
    split; [apply L; lra | exact U].
  - eexists. split; [vm_compute; reflexivity |].
    apply (C (Stub.world "t") "<p>a</p>" "<p>b</p>" (RefStr "") RefNone
             "goal" "regulatory" "u" None).
    vm_compute. reflexivity.
  - apply (D (Stub.world "t") "goal" "a" "b"). vm_compute. split; discriminate.
Defined.
End Bounds.

(** ** The change flag and the headline similarity *)

Section ChangeFlag.
Local Open Scope Q_scope.
Context `{Platform}.






End ChangeFlag.


Section HasChange.
Local Open Scope Q_scope.
Context `{Platform}.

(** Opcodes that are all "equal" add and remove nothing. *)
Lemma equal_opcodes_count_nothing (ops : list opcode) (acc : Z * Z) :
  Forall (fun op => op_tag op = op_equal) ops ->
  fold_left (fun '(added, removed) op =>
               match op_tag op with
               | op_insert => ((added + (op_j2 op - op_j1 op))%Z, removed)
               | op_delete => (added, (removed + (op_i2 op - op_i1 op))%Z)
               | _ => (added, removed)
               end) ops acc = acc.
Proof.
  intros F. revert acc. induction F as [| op ops E F IH]; intros [a r]; simpl; [reflexivity |].
  rewrite E. apply IH.
Qed.

Lemma text_diff_stats_equal_opcodes (t : string) :
  Forall (fun op => op_tag op = op_equal) (sm_opcodes (split_ws t) (split_ws t)) ->
  fst (fst (fst (UtilsDom.text_diff_stats t t))) = 0%Z
  /\ snd (fst (fst (UtilsDom.text_diff_stats t t))) = 0%Z.
Proof.
  intros F. unfold UtilsDom.text_diff_stats. cbv zeta.
  rewrite (equal_opcodes_count_nothing _ _ F). cbn. split; reflexivity.
Qed.

(** C9. The [ChangeResult] of the full pipeline has has_change = true exactly
    when text_added + text_removed > 0 or the visual similarity is below
    0.98; two DOMs with the same visible text, which the sequence matcher
    reports as equal, and screenshots of similarity at least 0.98 give
    has_change = false.  The goal-aware analysis sets has_change when its
    token counts are positive, the text similarity is below 0.98 or a new
    critical phrase is detected. *)
Theorem C9_has_change_flag :
  (forall w prev_dom cur_dom prev_ss cur_ss goal domain url keywords r,
      Pipeline.analyze_change w prev_dom cur_dom prev_ss cur_ss goal domain url keywords = Ok r ->
      exists prev_img cur_img sim_visual,
        UtilsImage.load_image w prev_ss = Ok prev_img
        /\ UtilsImage.load_image w cur_ss = Ok cur_img
        /\ UtilsImage.perceptual_similarity prev_img cur_img = Ok sim_visual
        /\ (Schemas.has_change r = true
            <-> (0 < Schemas.text_added r + Schemas.text_removed r)%Z \/ sim_visual < 0.98)
        /\ (UtilsDom.extract_visible_text prev_dom = UtilsDom.extract_visible_text cur_dom ->
            Forall (fun op => op_tag op = op_equal)
                   (sm_opcodes (split_ws (UtilsDom.extract_visible_text cur_dom))
                               (split_ws (UtilsDom.extract_visible_text cur_dom))) ->
            0.98 <= sim_visual ->
            Schemas.has_change r = false))
  /\ (forall w goal prev cur,
      let r := CompareTexts.enhanced_diff_analysis w goal prev cur in
      exists flag,
        CompareTexts.has_change r = JBool flag
        /\ (flag = true
            <-> (0 < CompareTexts.text_added r + CompareTexts.text_removed r)%Z
                \/ Spec.text_similarity prev cur < 0.98
                \/ CompareTexts.detect_critical_phrases prev cur <> [])).
Proof.
  split.
  - intros * E. apply analyze_change_Ok in E as (pi & ci & sv & E1 & E2 & E3 & E).
    exists pi, ci, sv. repeat (split; [assumption |]).
    cbv zeta in E. destruct E as (HC & TA & TR & _).
    assert (Iff : Schemas.has_change r = true
                  <-> (0 < Schemas.text_added r + Schemas.text_removed r)%Z \/ sv < 0.98).
    { rewrite HC, TA, TR, orb_true_iff, Z.ltb_lt, Qltb_lt. reflexivity. }
    split; [exact Iff |].
    intros Same Eq Hi. apply not_true_iff_false. rewrite Iff. intros [Pos | Lo].
    + rewrite TA, TR, Same in Pos.
      destruct (text_diff_stats_equal_opcodes _ Eq) as [A0 R0].
      rewrite A0, R0 in Pos. lia.
    + apply (Qlt_not_le _ _ Lo), Hi.
  - intros w goal prev cur. cbv zeta.
    destruct (enhanced_fields w goal prev cur)
      as (-> & -> & _ & _ & _ & _ & _ & _ & -> & _).
    eexists. split; [reflexivity |].
    rewrite !orb_true_iff, Z.ltb_lt, Qltb_lt.
    destruct (CompareTexts.detect_critical_phrases prev cur); split.
    + intros [[P | P] | P]; [auto | auto | discriminate].
    + intros [P | [P | P]]; [auto | auto | congruence].
    + intros _. right. right. discriminate.
    + intros _. right. reflexivity.
Qed.
End HasChange.

Lemma C9_has_change_flag_witness :
  exists r,
    @Pipeline.analyze_change Stub.platform (Stub.world "t") "<p>a</p>" "  <p>a</p> "
      RefNone RefNone "goal" "regulatory" "u" None = Ok r
    /\ Schemas.has_change r = false.
Proof.
  destruct (@C9_has_change_flag Stub.platform) as (A & _).
  assert (E : exists r,
      @Pipeline.analyze_change Stub.platform (Stub.world "t") "<p>a</p>" "  <p>a</p> "
        RefNone RefNone "goal" "regulatory" "u" None = Ok r)
    by (vm_compute; eauto).
  destruct E as [r E]. exists r. split; [exact E |].
  destruct (A _ _ _ _ _ _ _ _ _ _ E) as (pi & ci & sv & E1 & E2 & E3 & _ & P).
  apply P.
  - vm_compute. reflexivity.
  - vm_compute. repeat constructor.
  - injection E1 as <-. injection E2 as <-. vm_compute in E3. injection E3 as <-.
    vm_compute. discriminate.
Defined.

(** ** The merge of a model response *)

Section Merge.
Local Open Scope Q_scope.
Import CompareTexts.
Context `{Platform}.

Lemma get_Ok (llm_result : json) (key : string) (dflt v : json) :
  of_option "AttributeError" (Json.get llm_result key dflt) = Ok v ->
  exists payload, llm_result = JObj payload /\ v = default dflt (payload !! key).
Proof.
  destruct llm_result; simpl; try discriminate. intros [= <-]. eauto.
Qed.

(** What the merge returns. *)
Lemma merge_analysis_Ok (w : World) (goal prev cur used_model : string) (llm_result : json)
    (r : analysis) :
  merge_analysis w goal prev cur used_model llm_result = Ok r ->
  let local_result := enhanced_diff_analysis w goal prev cur in
  text_added r = text_added local_result
  /\ text_removed r = text_removed local_result
  /\ total_diff_lines r = total_diff_lines local_result
  /\ llm_used r = true
  /\ (exists payload,
        llm_result = JObj payload
        /\ has_change r = default (has_change local_result) (payload !! "has_change")
        /\ summary_change r = default (summary_change local_result) (payload !! "summary_change")
        /\ similarity r = default (similarity local_result) (payload !! "similarity")
        /\ key_insights r = default (key_insights local_result) (payload !! "key_insights")
        /\ goal_alignment r = default (goal_alignment local_result) (payload !! "goal_alignment")
        /\ reasoning r = default (reasoning local_result) (payload !! "reasoning"))
  /\ (exists sim align,
        Json.as_number (similarity r) = Some sim
        /\ Json.as_number (goal_alignment r) = Some align
        /\ (import_score r, importance r, alert_criteria r)
           = recalibrated_scoring sim (fst (Spec.numeric_delta prev cur))
               (Spec.keyword_hits goal prev cur []) (detect_critical_phrases prev cur)
               align goal).
Proof.
  unfold merge_analysis. cbv zeta. intros E.
  apply bind_Ok in E as (hc & E1 & E). apply get_Ok in E1 as (payload & -> & ->).
  apply bind_Ok in E as (su & E2 & E). apply get_Ok in E2 as (? & [= <-] & ->).
  apply bind_Ok in E as (si & E3 & E). apply get_Ok in E3 as (? & [= <-] & ->).
  apply bind_Ok in E as (ki & E4 & E). apply get_Ok in E4 as (? & [= <-] & ->).
  apply bind_Ok in E as (ga & E5 & E). apply get_Ok in E5 as (? & [= <-] & ->).
  apply bind_Ok in E as (sim & ES & E). apply of_option_Ok in ES.
  apply bind_Ok in E as (align & EA & E). apply of_option_Ok in EA.
  destruct (recalibrated_scoring _ _ _ _ _ _) as [[sc im] al] eqn:S.
  apply bind_Ok in E as (re & E6 & E). apply get_Ok in E6 as (? & [= <-] & ->).
  injection E as <-.
  cbn [text_added text_removed total_diff_lines llm_used has_change summary_change similarity
       key_insights goal_alignment reasoning import_score importance alert_criteria].
  repeat (split; [reflexivity |]). split.
  - exists payload. repeat (split; [reflexivity |]). reflexivity.
  - exists sim, align. split; [exact ES |]. split; [exact EA |].
    symmetry. exact S.
Qed.

(** The result that uses the model response is the merge of the object read
    from that response. *)
Lemma run_bedrock_analysis_merged (w : World) (goal prev cur : string)
    (ctx : option visual_ctx) :
  llm_used (run_bedrock_analysis w goal prev cur ctx) = true ->
  exists llm_result,
    Spec.model_response w goal prev cur ctx = Ok llm_result
    /\ merge_analysis w goal prev cur (req_model_id (build_request w goal prev cur ctx))
         llm_result
       = Ok (run_bedrock_analysis w goal prev cur ctx).
Proof.
  assert (L : llm_used (enhanced_diff_analysis w goal prev cur) = false).
  { destruct (enhanced_fields w goal prev cur)
      as (_ & _ & _ & _ & _ & _ & _ & _ & _ & L & _). exact L. }
  unfold run_bedrock_analysis.
  destruct (negb (boto3_available w)); [congruence |].
  destruct (negb _); [congruence |].
  destruct (bedrock_attempt w goal prev cur ctx) as [merged | e] eqn:E; [| congruence].
  intros _. unfold bedrock_attempt in E. cbv zeta in E.
  unfold Spec.model_response. cbv zeta.
  apply bind_Ok in E as (body_text & E1 & E). rewrite E1. cbn [mbind result_bind].
  apply bind_Ok in E as (body & E2 & E). rewrite E2. cbn [mbind result_bind].
  apply bind_Ok in E as (content & E3 & E). rewrite E3. cbn [mbind result_bind].
  apply bind_Ok in E as (block & E4 & E). rewrite E4. cbn [mbind result_bind].
  apply bind_Ok in E as (text & E5 & E). rewrite E5. cbn [mbind result_bind].
  apply bind_Ok in E as (response_text & E6 & E). rewrite E6. cbn [mbind result_bind].
  apply bind_Ok in E as (llm_result & E7 & E). rewrite E7.
  exists llm_result. split; [reflexivity | exact E].
Qed.

(** C2. When the response of the summarizer is used, there is an object
    [payload] read from that response such that text_added, text_removed
    and total_diff_lines are those of the local analysis, while has_change,
    summary_change, similarity, key_insights, goal_alignment and reasoning
    are each the entry of [payload] when it has one and the entry of the
    local analysis otherwise; the score, importance and alert are
    recomputed by the scoring function from the merged similarity and goal
    alignment and the local numeric delta, keyword hits and critical
    phrases. *)
Theorem C2_merged_entries_come_from_response (w : World) (goal prev cur : string)
    (ctx : option visual_ctx) :
  let r := run_bedrock_analysis w goal prev cur ctx in
  let local_result := enhanced_diff_analysis w goal prev cur in
  llm_used r = true ->
  exists payload : gmap string json,
    Spec.model_response w goal prev cur ctx = Ok (JObj payload)
    /\ text_added r = text_added local_result
    /\ text_removed r = text_removed local_result
    /\ total_diff_lines r = total_diff_lines local_result
    /\ has_change r = default (has_change local_result) (payload !! "has_change")
    /\ summary_change r = default (summary_change local_result) (payload !! "summary_change")
    /\ similarity r = default (similarity local_result) (payload !! "similarity")
    /\ key_insights r = default (key_insights local_result) (payload !! "key_insights")
    /\ goal_alignment r = default (goal_alignment local_result) (payload !! "goal_alignment")
    /\ reasoning r = default (reasoning local_result) (payload !! "reasoning")
    /\ (exists sim align,
          Json.as_number (similarity r) = Some sim
          /\ Json.as_number (goal_alignment r) = Some align
          /\ (import_score r, importance r, alert_criteria r)
             = recalibrated_scoring sim (fst (Spec.numeric_delta prev cur))
                 (Spec.keyword_hits goal prev cur []) (detect_critical_phrases prev cur)
                 align goal).
Proof.
  cbv zeta. intros U.
  apply run_bedrock_analysis_merged in U as (llm_result & R & E).
  apply merge_analysis_Ok in E. cbv zeta in E.
  destruct E as (A & B & C & _ & (payload & -> & D1 & D2 & D3 & D4 & D5 & D6) & S).
  exists payload. repeat (split; [assumption |]). exact S.
Qed.
End Merge.

(** At the goal "goal" and the texts "a" and "b", with a response that
    carries similarity 1 and has_change false: the merged similarity and
    has_change are those of the response, and the recomputed score falls
    from 5.75 ("medium") to 0.25 ("low"). *)
Lemma C2_merged_entries_come_from_response_witness :
  let P := Stub.platform_with_json Stub.reply_table in
  let w := Stub.world_with_bedrock "t" "body" in
  let r := @CompareTexts.run_bedrock_analysis P w "goal" "a" "b" None in
  let local_result := @CompareTexts.enhanced_diff_analysis P w "goal" "a" "b" in
  (exists payload : gmap string json,
      @Spec.model_response P w "goal" "a" "b" None = Ok (JObj payload)
      /\ CompareTexts.similarity r
         = default (CompareTexts.similarity local_result) (payload !! "similarity")
      /\ CompareTexts.has_change r
         = default (CompareTexts.has_change local_result) (payload !! "has_change"))
  /\ CompareTexts.similarity r = JNum 1
  /\ CompareTexts.similarity local_result = JNum (0 # 10000)
  /\ CompareTexts.has_change r = JBool false
  /\ CompareTexts.has_change local_result = JBool true
  /\ CompareTexts.import_score r == 0.25
  /\ CompareTexts.importance r = "low"
  /\ CompareTexts.import_score local_result == 5.75
  /\ CompareTexts.importance local_result = "medium".
Proof.
  cbv zeta. split.
  - destruct (@C2_merged_entries_come_from_response (Stub.platform_with_json Stub.reply_table)
           (Stub.world_with_bedrock "t" "body") "goal" "a" "b" None)
      as (payload & R & _ & _ & _ & HC & _ & SI & _).
    + vm_compute. reflexivity.
    + exists payload. split; [exact R |]. split; [exact SI | exact HC].
  - vm_compute. repeat split.
Defined.

(** ** Image decoding *)

Section ImageDecoding.
Import UtilsImage.
Context `{Platform}.

(** An absent or empty reference is the blank placeholder. *)
Lemma load_image_absent (w : World) :
  load_image w RefNone = Ok image_blank /\ load_image w (RefStr "") = Ok image_blank.
Proof. split; reflexivity. Qed.

(** A string that is neither a data URI nor an existing path never raises:
    it decodes as base64 or falls back to the placeholder. *)
Lemma load_image_plain_string (w : World) (x : string) :
  startswith "data:image" (strip x) = false -> path_exists w x = false ->
  exists img, load_image w (RefStr x) = Ok img
              /\ (b64decode x ≫= image_open = None -> img = image_blank).
Proof.
  intros D E. unfold load_image. destruct x as [| c x]; [eexists; split; eauto |].
  rewrite D, E. destruct (b64decode _ ≫= image_open) as [img |].
  - exists img. split; [reflexivity | discriminate].
  - exists image_blank. split; reflexivity.
Qed.

(** [_load_image] of compare_texts.py returns no image, and no placeholder,
    for a missing or undecodable file. *)
Lemma _load_image_undecodable (w : World) (path : string) :
  file_bytes w path ≫= image_open = None ->
  CompareTexts._load_image w (Some path) = None.
Proof.
  intros E. unfold CompareTexts._load_image. destruct path; [reflexivity |].
  destruct (pil_available w); [exact E | reflexivity].
Qed.

(** C5. [load_image] raises on undecodable input in three of its branches:
    raw bytes that Pillow cannot identify, a data URI whose payload is not
    base64, and an existing path that is not an image.  Only the last branch,
    a string taken as base64, degrades to the blank placeholder. *)
Theorem C5_load_image_raises_on_undecodable_input :
  (forall w b,
      image_open b = None ->
      load_image w (RefBytes b) = Raised "UnidentifiedImageError")
  /\ (forall w x,
      x <> "" -> startswith "data:image" (strip x) = true ->
      b64decode (strip_data_uri x) = None ->
      load_image w (RefStr x) = Raised "binascii.Error")
  /\ (forall w x,
      x <> "" -> startswith "data:image" (strip x) = false ->
      path_exists w x = true -> file_bytes w x ≫= image_open = None ->
      load_image w (RefStr x) = Raised "OSError").
Proof.
  split; [| split].
  - intros w b E. unfold load_image. rewrite E. reflexivity.
  - intros w x N D E. unfold load_image. destruct x; [congruence |].
    rewrite D, E. reflexivity.
  - intros w x N D P E. unfold load_image. destruct x; [congruence |].
    rewrite D, P, E. reflexivity.
Qed.
End ImageDecoding.

Lemma C5_load_image_raises_on_undecodable_input_witness :
  @UtilsImage.load_image Stub.platform (Stub.world "t")
    (RefBytes (list_byte_of_string "not an image")) = Raised "UnidentifiedImageError"
  /\ @UtilsImage.load_image Stub.platform (Stub.world "t")
       (RefStr "data:image/png;base64,@@@") = Raised "binascii.Error"
  /\ @UtilsImage.load_image Stub.platform
       (Stub.world_with_file (list_byte_of_string "not an image"))
       (RefStr "notes.txt") = Raised "OSError".
Proof.
  destruct (@C5_load_image_raises_on_undecodable_input Stub.platform) as (A & B & C).
  split; [| split].
  - apply A. reflexivity.
  - apply B; [discriminate | reflexivity | reflexivity].
  - apply C; [discriminate | reflexivity | reflexivity | reflexivity].
Defined.

(** ** Determinism *)

Section Determinism.
Local Open Scope Q_scope.
Context `{Platform}.

Lemma load_image_same_files (w1 w2 : World) (x : image_ref) :
  (forall p, path_exists w1 p = path_exists w2 p) ->
  (forall p, file_bytes w1 p = file_bytes w2 p) ->
  UtilsImage.load_image w1 x = UtilsImage.load_image w2 x.
Proof.
  intros PE FB. unfold UtilsImage.load_image.
  destruct x as [| b | [| c x]]; try reflexivity.
  rewrite PE, FB. reflexivity.
Qed.

Lemma summarize_disabled (w : World) (prompt : string) :
  LlmAdapter.USE_BEDROCK w = false -> LlmAdapter.summarize_with_llm w prompt = None.
Proof. intros D. unfold LlmAdapter.summarize_with_llm. rewrite D. reflexivity. Qed.

(** The local analysis reads the world only through its clock. *)
Lemma enhanced_diff_analysis_clock (w1 w2 : World) (goal prev cur : string) :
  CompareTexts.enhanced_diff_analysis w1 goal prev cur
  = CompareTexts.with_timestamp (now_isoformat w1)
      (CompareTexts.enhanced_diff_analysis w2 goal prev cur).
Proof.
  unfold CompareTexts.enhanced_diff_analysis, CompareTexts.with_timestamp. cbv zeta.
  destruct (CompareTexts.compute_numeric_delta _ _) as [nd ins].
  destruct (CompareTexts.recalibrated_scoring _ _ _ _ _ _) as [[sc im] al].
  reflexivity.
Qed.

Lemma run_bedrock_analysis_disabled (w : World) (goal prev cur : string)
    (ctx : option CompareTexts.visual_ctx) :
  LlmAdapter.USE_BEDROCK w = false ->
  CompareTexts.run_bedrock_analysis w goal prev cur ctx
  = CompareTexts.enhanced_diff_analysis w goal prev cur.
Proof.
  intros D. unfold CompareTexts.run_bedrock_analysis.
  unfold LlmAdapter.USE_BEDROCK in D. rewrite D.
  destruct (negb (boto3_available w)); reflexivity.
Qed.

(** C6, amended.  With summarization disabled, two runs of the full pipeline
    on the same inputs, in worlds that hold the same files, return the same
    result and hence the same serialized JSON, whatever the clock and the
    rest of the environment are.  The goal-aware analysis stamps its result
    with the current time: two runs on the same inputs agree on every entry
    but analysis_timestamp. *)
Theorem C6_deterministic_without_summarizer :
  (forall w1 w2 prev_dom cur_dom prev_ss cur_ss goal domain url keywords,
      LlmAdapter.USE_BEDROCK w1 = false -> LlmAdapter.USE_BEDROCK w2 = false ->
      (forall p, path_exists w1 p = path_exists w2 p) ->
      (forall p, file_bytes w1 p = file_bytes w2 p) ->
      Pipeline.analyze_change w1 prev_dom cur_dom prev_ss cur_ss goal domain url keywords
      = Pipeline.analyze_change w2 prev_dom cur_dom prev_ss cur_ss goal domain url keywords
      /\ forall r1 r2,
           Pipeline.analyze_change w1 prev_dom cur_dom prev_ss cur_ss goal domain url keywords
           = Ok r1 ->
           Pipeline.analyze_change w2 prev_dom cur_dom prev_ss cur_ss goal domain url keywords
           = Ok r2 ->
           Pipeline.serialize r1 = Pipeline.serialize r2)
  /\ (forall w1 w2 goal prev cur ctx t,
      LlmAdapter.USE_BEDROCK w1 = false -> LlmAdapter.USE_BEDROCK w2 = false ->
      CompareTexts.with_timestamp t (CompareTexts.run_bedrock_analysis w1 goal prev cur ctx)
      = CompareTexts.with_timestamp t (CompareTexts.run_bedrock_analysis w2 goal prev cur ctx)
      /\ CompareTexts.analysis_timestamp (CompareTexts.run_bedrock_analysis w1 goal prev cur ctx)
         = now_isoformat w1).
Proof.
  split.
  - intros * D1 D2 PE FB.
    assert (E : Pipeline.analyze_change w1 prev_dom cur_dom prev_ss cur_ss goal domain url
                  keywords
                = Pipeline.analyze_change w2 prev_dom cur_dom prev_ss cur_ss goal domain url
                  keywords).
    { unfold Pipeline.analyze_change.
      rewrite !(load_image_same_files w1 w2) by assumption.
      destruct (UtilsImage.load_image w2 prev_ss) as [pi |]; [| reflexivity].
      destruct (UtilsImage.load_image w2 cur_ss) as [ci |]; [| reflexivity].
      cbn [mbind result_bind].
      destruct (UtilsImage.perceptual_similarity pi ci) as [sv |]; [| reflexivity].
      destruct (UtilsDom.text_diff_stats _ _) as [[[added removed] diff_lines] sim_text].
      destruct (UtilsDom.short_context_snippets _ _ _) as [ps cs].
      rewrite !summarize_disabled by assumption. reflexivity. }
    split; [exact E |]. intros r1 r2 E1 E2. rewrite E, E2 in E1.
    injection E1 as ->. reflexivity.
  - intros * D1 D2. rewrite !run_bedrock_analysis_disabled by assumption.
    rewrite (enhanced_diff_analysis_clock w1 w2). split; reflexivity.
Qed.
End Determinism.

(** C6, as stated, fails for the goal-aware analysis: two runs on the same
    inputs at different times differ, in the analysis_timestamp entry. *)
Lemma C6_counterexample_timestamp :
  @CompareTexts.enhanced_diff_analysis Stub.platform (Stub.world "2026-01-01T00:00:00")
    "goal" "a" "b"
  <> @CompareTexts.enhanced_diff_analysis Stub.platform (Stub.world "2026-01-01T00:00:01")
       "goal" "a" "b".
Proof.
  intros E. apply (f_equal CompareTexts.analysis_timestamp) in E.
  vm_compute in E. discriminate.
Qed.

Lemma C6_deterministic_without_summarizer_witness :
  @Pipeline.analyze_change Stub.platform (Stub.world "morning") "<p>a</p>" "<p>b</p>"
    RefNone RefNone "goal" "regulatory" "u" None
  = @Pipeline.analyze_change Stub.platform (Stub.world "evening") "<p>a</p>" "<p>b</p>"
      RefNone RefNone "goal" "regulatory" "u" None
  /\ CompareTexts.analysis_timestamp
       (@CompareTexts.run_bedrock_analysis Stub.platform (Stub.world "morning")
          "goal" "a" "b" None) = "morning".
Proof.
  destruct (@C6_deterministic_without_summarizer Stub.platform) as (A & B).
  split.
  - apply A; reflexivity.
  - apply (B (Stub.world "morning") (Stub.world "evening") "goal" "a" "b" None "");
      reflexivity.
Defined.

(** ** Truncation *)

Section Truncation.

Lemma take_length (n : nat) (s : string) :
  (n <= String.length s)%nat -> String.length (take n s) = n.
Proof.
  revert s. induction n as [| n IH]; intros [| c s] L; simpl in *; try lia.
  rewrite IH; lia.
Qed.

Lemma drop_length (n : nat) (s : string) :
  String.length (drop n s) = (String.length s - n)%nat.
Proof.
  revert s. induction n as [| n IH]; intros [| c s]; simpl; try lia. apply IH.
Qed.

Lemma take_append_exact (a b : string) : take (String.length a) (a ++ b) = a.
Proof. induction a; simpl; [destruct b; reflexivity | congruence]. Qed.

Lemma drop_append_exact (a b : string) : drop (String.length a) (a ++ b) = b.
Proof. induction a; simpl; [destruct b; reflexivity | assumption]. Qed.

Lemma lstrip_length (s : string) : (String.length (lstrip s) <= String.length s)%nat.
Proof. induction s as [| c s IH]; simpl; [lia |]. destruct (is_space c); simpl; lia. Qed.

Lemma lstrip_fixed_head (c : ascii) (s : string) :
  lstrip (String c s) = String c s -> is_space c = false.
Proof.
  simpl. destruct (is_space c); [| reflexivity].
  intros E. apply (f_equal String.length) in E. simpl in E.
  pose proof (lstrip_length s). lia.
Qed.

Lemma lstrip_idem (s : string) : lstrip (lstrip s) = lstrip s.
Proof.
  induction s as [| c s IH]; simpl; [reflexivity |].
  destruct (is_space c) eqn:E; [exact IH | simpl; rewrite E; reflexivity].
Qed.

Lemma rstrip_cases (c : ascii) (s : string) :
  (rstrip (String c s) = "" /\ is_space c = true /\ rstrip s = "")
  \/ exists r, rstrip (String c s) = String c r.
Proof.
  simpl. destruct (rstrip s) as [| d r].
  - destruct (is_space c); [left; auto | right; eauto].
  - right. eauto.
Qed.

Lemma rstrip_idem (s : string) : rstrip (rstrip s) = rstrip s.
Proof.
  induction s as [| c s IH]; simpl; [reflexivity |].
  destruct (rstrip s) as [| d r] eqn:E.
  - destruct (is_space c) eqn:Sp; simpl; [reflexivity | rewrite Sp; reflexivity].
  - change (rstrip (String c (String d r))) with
      (match rstrip (String d r) with
       | "" => if is_space c then "" else String c ""
       | x => String c x
       end).
    rewrite IH. reflexivity.
Qed.

Lemma lstrip_rstrip (s : string) : lstrip s = s -> lstrip (rstrip s) = rstrip s.
Proof.
  destruct s as [| c s]; [reflexivity |]. intros L. apply lstrip_fixed_head in L.
  destruct (rstrip_cases c s) as [(-> & _) | [r ->]]; [reflexivity |].
  simpl. rewrite L. reflexivity.
Qed.

Lemma strip_fixed (s : string) : lstrip s = s -> rstrip s = s -> strip s = s.
Proof. intros L R. unfold strip. rewrite L. exact R. Qed.

Lemma strip_lstrip (s : string) : lstrip (strip s) = strip s.
Proof. unfold strip. apply lstrip_rstrip, lstrip_idem. Qed.

Lemma strip_rstrip (s : string) : rstrip (strip s) = strip s.
Proof. unfold strip. apply rstrip_idem. Qed.

Lemma strip_idem (s : string) : strip (strip s) = strip s.
Proof. apply strip_fixed; [apply strip_lstrip | apply strip_rstrip]. Qed.

Lemma rstrip_append_fixed (x s : string) :
  s <> "" -> rstrip s = s -> rstrip (x ++ s) = x ++ s.
Proof.
  intros N R. induction x as [| c x IH]; simpl; [exact R |].
  rewrite IH. destruct (x ++ s) eqn:E; [| reflexivity].
  destruct x; simpl in E; [congruence | discriminate].
Qed.

Lemma rstrip_drop_fixed (t : string) (k : nat) : rstrip t = t -> rstrip (drop k t) = drop k t.
Proof.
  revert k. induction t as [| c t IH]; intros k R; [destruct k; reflexivity |].
  destruct k as [| k]; [exact R |]. simpl. apply IH.
  simpl in R. destruct (rstrip t) as [| d r] eqn:E.
  - destruct (is_space c); [discriminate | congruence].
  - congruence.
Qed.

Lemma lstrip_append_fixed (a b : string) :
  a <> "" -> lstrip a = a -> lstrip (a ++ b) = a ++ b.
Proof.
  intros N L. destruct a as [| c a]; [congruence |].
  apply lstrip_fixed_head in L. simpl. rewrite L. reflexivity.
Qed.

Lemma lstrip_take_fixed (t : string) (k : nat) : lstrip t = t -> lstrip (take k t) = take k t.
Proof.
  intros L. destruct t as [| c t]; [destruct k; reflexivity |].
  destruct k as [| k]; [reflexivity |].
  apply lstrip_fixed_head in L. simpl. rewrite L. reflexivity.
Qed.

Lemma length_zero_empty (s : string) : String.length s = 0%nat -> s = "".
Proof. destruct s; [reflexivity | discriminate]. Qed.

(** The first [a] and last [b] characters of a stripped text, joined by a
    separator, are a stripped text with the same first and last characters. *)
Lemma joined_ends_fixed (t sep : string) (a b : nat) :
  lstrip t = t -> rstrip t = t ->
  (1 <= a <= String.length t)%nat -> (1 <= b <= String.length t)%nat ->
  let joined := take a t ++ sep ++ drop (String.length t - b) t in
  strip joined = joined
  /\ String.length joined = (a + String.length sep + b)%nat
  /\ take a joined = take a t
  /\ drop (String.length joined - b) joined = drop (String.length t - b) t.
Proof.
  intros L R A B joined.
  assert (La : String.length (take a t) = a) by (apply take_length; lia).
  assert (Lb : String.length (drop (String.length t - b) t) = b)
    by (rewrite drop_length; lia).
  assert (Len : String.length joined = (a + String.length sep + b)%nat).
  { unfold joined. rewrite !length_append, La, Lb. lia. }
  split; [| split; [exact Len | split]].
  - apply strip_fixed.
    + unfold joined. apply lstrip_append_fixed.
      * intros E. rewrite E in La. simpl in La. lia.
      * apply lstrip_take_fixed, L.
    + unfold joined. rewrite <- append_assoc. apply rstrip_append_fixed.
      * intros E. rewrite E in Lb. simpl in Lb. lia.
      * apply rstrip_drop_fixed, R.
  - unfold joined. rewrite <- La at 1. apply take_append_exact.
  - rewrite Len. unfold joined. rewrite <- append_assoc.
    replace (a + String.length sep + b - b)%nat
      with (String.length (take a t ++ sep)) by (rewrite length_append, La; lia).
    apply drop_append_exact.
Qed.

Lemma truncate_with_short (a b : Z) (sep : string) (max_chars : Z) (t : string) :
  (len (strip t) <= max_chars)%Z -> Spec.truncate_with a b sep max_chars t = strip t.
Proof.
  intros S. unfold Spec.truncate_with. cbv zeta.
  apply Z.leb_le in S. rewrite S. reflexivity.
Qed.

(** Truncating twice is truncating once, when both kept parts are non-empty
    and, with the separator, exceed the limit. *)
Lemma truncate_with_idem (a b : Z) (sep : string) (max_chars : Z) (t : string) :
  (1 <= a <= max_chars)%Z -> (1 <= b <= max_chars)%Z ->
  (max_chars < a + len sep + b)%Z ->
  Spec.truncate_with a b sep max_chars (Spec.truncate_with a b sep max_chars t)
  = Spec.truncate_with a b sep max_chars t.
Proof.
  intros A B Over.
  destruct (Z.leb_spec (len (strip t)) max_chars) as [S | S].
  - rewrite (truncate_with_short a b sep max_chars t S).
    rewrite truncate_with_short; [apply strip_idem | rewrite strip_idem; exact S].
  - unfold len in *.
    assert (E : Spec.truncate_with a b sep max_chars t
                = take (Z.to_nat a) (strip t) ++ sep
                  ++ drop (String.length (strip t) - Z.to_nat b) (strip t)).
    { unfold Spec.truncate_with, slice_to, slice_from, len. cbv zeta.
      destruct (Z.leb_spec (Z.of_nat (String.length (strip t))) max_chars); [lia |].
      destruct (Z.ltb_spec a 0); [lia |]. destruct (Z.ltb_spec (- b) 0); [| lia].
      do 3 f_equal. lia. }
    destruct (joined_ends_fixed (strip t) sep (Z.to_nat a) (Z.to_nat b)
                (strip_lstrip t) (strip_rstrip t) ltac:(lia) ltac:(lia))
      as (Fix & Len & Tk & Dr).
    rewrite <- E in Fix, Len, Tk, Dr.
    set (once := Spec.truncate_with a b sep max_chars t) in *.
    unfold Spec.truncate_with at 1. cbv zeta. rewrite Fix.
    unfold slice_to, slice_from, len.
    destruct (Z.leb_spec (Z.of_nat (String.length once)) max_chars); [lia |].
    destruct (Z.ltb_spec a 0); [lia |]. destruct (Z.ltb_spec (- b) 0); [| lia].
    rewrite Tk.
    replace (Z.to_nat (Z.of_nat (String.length once) + - b))
      with (String.length once - Z.to_nat b)%nat by lia.
    rewrite Dr. symmetry. exact E.
Qed.

Lemma trim_shape (max_chars : Z) (t : string) :
  UtilsDom.trim max_chars t
  = Spec.truncate_with (max_chars / 2) (max_chars / 2) " ... " max_chars t.
Proof. reflexivity. Qed.

Lemma smart_truncate_shape (max_chars : Z) (t : string) :
  BedrockPrompt._smart_truncate t max_chars
  = Spec.truncate_with (Z.quot (max_chars * 6) 10) (Z.quot (max_chars * 4) 10)
      BedrockPrompt.truncation_marker max_chars t.
Proof.
  unfold BedrockPrompt._smart_truncate, Spec.truncate_with, py_int. cbv zeta.
  destruct (len (strip t) <=? max_chars)%Z; [reflexivity |].
  cbn [Qnum Qden Qmult inject_Z]. reflexivity.
Qed.

(** C8, amended.  Both truncation functions strip surrounding white space
    first: a text whose stripped length is at most the limit is returned
    stripped, hence unchanged when it has no surrounding white space.  With a
    limit of at least 2 for [trim] of short_context_snippets, and of at least
    3 for [_smart_truncate], truncating a second time with the same limit
    returns the once-truncated text. *)
Theorem C8_truncation_idempotent :
  (forall max_chars t,
      (len (strip t) <= max_chars)%Z ->
      UtilsDom.trim max_chars t = strip t
      /\ BedrockPrompt._smart_truncate t max_chars = strip t
      /\ (strip t = t -> UtilsDom.trim max_chars t = t))
  /\ (forall max_chars t,
      (2 <= max_chars)%Z ->
      UtilsDom.trim max_chars (UtilsDom.trim max_chars t) = UtilsDom.trim max_chars t)
  /\ (forall max_chars t,
      (3 <= max_chars)%Z ->
      BedrockPrompt._smart_truncate (BedrockPrompt._smart_truncate t max_chars) max_chars
      = BedrockPrompt._smart_truncate t max_chars).
Proof.
  split; [| split].
  - intros max_chars t S. rewrite trim_shape, smart_truncate_shape.
    rewrite !truncate_with_short by exact S.
    split; [reflexivity | split; [reflexivity | congruence]].
  - intros max_chars t M. rewrite !trim_shape.
    assert (0 <= max_chars / 2)%Z by (apply Z.div_pos; lia).
    pose proof (Z.mul_div_le max_chars 2 ltac:(lia)).
    pose proof (Z.mul_succ_div_gt max_chars 2 ltac:(lia)).
    assert (1 <= max_chars / 2)%Z by lia.
    apply truncate_with_idem; try lia. change (len " ... ") with 5%Z. lia.
  - intros max_chars t M. rewrite !smart_truncate_shape.
    rewrite !Z.quot_div_nonneg by lia.
    pose proof (Z.mul_div_le (max_chars * 6) 10 ltac:(lia)).
    pose proof (Z.mul_succ_div_gt (max_chars * 6) 10 ltac:(lia)).
    pose proof (Z.mul_div_le (max_chars * 4) 10 ltac:(lia)).
    pose proof (Z.mul_succ_div_gt (max_chars * 4) 10 ltac:(lia)).
    apply truncate_with_idem; try lia.
    change (len BedrockPrompt.truncation_marker) with 31%Z. lia.
Qed.
End Truncation.

(** C8, as stated, fails: a text within the limit that starts with a space is
    not returned unchanged, and with a limit of 1 a second truncation changes
    the once-truncated text. *)
Lemma C8_counterexample_surrounding_space :
  (len " a" <= 800)%Z
  /\ UtilsDom.trim 800 " a" <> " a"
  /\ BedrockPrompt._smart_truncate " a" 3500 <> " a"
  /\ UtilsDom.trim 1 (UtilsDom.trim 1 "abc") <> UtilsDom.trim 1 "abc".
Proof. vm_compute. repeat split; discriminate. Qed.

Lemma C8_truncation_idempotent_witness :
  UtilsDom.trim 800 "a b" = "a b"
  /\ UtilsDom.trim 4 (UtilsDom.trim 4 "abcdefgh") = "ab ... gh"
  /\ BedrockPrompt._smart_truncate (BedrockPrompt._smart_truncate "abcdefgh" 5) 5
     = BedrockPrompt._smart_truncate "abcdefgh" 5.
Proof.
  destruct C8_truncation_idempotent as (A & B & C).
  split; [| split].
  - apply (A 800%Z "a b"); [vm_compute; discriminate | reflexivity].
  - rewrite (B 4%Z "abcdefgh"); [reflexivity | lia].
  - apply (C 5%Z "abcdefgh"). lia.
Defined.

(** ** The regular-expression matcher *)

Section Matcher.
Import Re.

Lemma orelse_None_r {A} (x : option A) : orelse x None = x.
Proof. destruct x; reflexivity. Qed.

Lemma star_lazy_cls {A} (p : ascii -> bool) (k : string -> caps -> option A)
    (n : nat) (s : string) (c : caps) :
  (String.length s <= n)%nat ->
  star_loop (fun s' c' k' => m (Cls p) s' c' k') false k n s c = lazy_cls p k s c.
Proof.
  revert s c. induction n as [| n IH]; intros s c L.
  - destruct s; [reflexivity | simpl in L; lia].
  - destruct s as [| a s]; [reflexivity |]. simpl in L.
    cbn [star_loop lazy_cls m]. f_equal.
    destruct (p a); [| reflexivity].
    replace (String.length s <? String.length (String a s))%nat with true
      by (symmetry; apply Nat.ltb_lt; simpl; lia).
    apply IH. lia.
Qed.

Lemma star_greedy_cls {A} (p : ascii -> bool) (k : string -> caps -> option A)
    (n : nat) (s : string) (c : caps) :
  (String.length s <= n)%nat ->
  star_loop (fun s' c' k' => m (Cls p) s' c' k') true k n s c = greedy_cls p k s c.
Proof.
  revert s c. induction n as [| n IH]; intros s c L.
  - destruct s; [reflexivity | simpl in L; lia].
  - destruct s as [| a s]; [reflexivity |]. simpl in L.
    cbn [star_loop greedy_cls m].
    destruct (p a); [| reflexivity].
    replace (String.length s <? String.length (String a s))%nat with true
      by (symmetry; apply Nat.ltb_lt; simpl; lia).
    rewrite IH by lia. reflexivity.
Qed.



Lemma m_lazy_cls {A} (p : ascii -> bool) (k : string -> caps -> option A) s c :
  m (Star false (Cls p)) s c k = lazy_cls p k s c.
Proof. cbn [m]. apply star_lazy_cls. lia. Qed.

Lemma m_greedy_cls {A} (p : ascii -> bool) (k : string -> caps -> option A) s c :
  m (Star true (Cls p)) s c k = greedy_cls p k s c.
Proof. cbn [m]. apply star_greedy_cls. lia. Qed.



Lemma consumed_append (x rest : string) : consumed (x ++ rest) rest = x.
Proof.
  unfold consumed. rewrite length_append.
  replace (String.length x + String.length rest - String.length rest)%nat
    with (String.length x) by lia.
  apply take_append_exact.
Qed.
End Matcher.

(** ** The Phase indicator *)

Section PhaseIndicator.
Import Re CompareTexts.
































End PhaseIndicator.

(** ** The numeric delta of two KPI maps *)

Section NumericDelta.
Local Open Scope Q_scope.
Import CompareTexts.
Context `{Platform}.






End NumericDelta.



(* ===================================================================== *)
(** * Part III: further properties of the code                            *)
(* ===================================================================== *)

(** ** Rounding is monotone *)

Section Rounding.
Local Open Scope Q_scope.

Lemma round_half_even_mono (x y : Q) : x <= y -> (round_half_even x <= round_half_even y)%Z.
Proof.
  intros L. pose proof (Qfloor_resp_le _ _ L) as F.
  pose proof (round_half_even_floor x) as [Lx Ux].
  pose proof (round_half_even_floor y) as [Ly Uy].
  destruct (Z.eq_dec (Qfloor x) (Qfloor y)) as [E | N]; [| lia].
  unfold round_half_even in *. rewrite <- E in *.
  destruct (Qcompare_spec (x - inject_Z (Qfloor x)) (1 # 2)) as [Cx | Cx | Cx];
    destruct (Qcompare_spec (y - inject_Z (Qfloor x)) (1 # 2)) as [Cy | Cy | Cy];
    try lia; try (destruct (Z.even (Qfloor x)); lia); exfalso; lra.
Qed.

Lemma py_round_mono (x y : Q) (n : nat) : x <= y -> py_round x n <= py_round y n.
Proof.
  intros L. unfold py_round. cbv zeta. rewrite !Qmake_scale.
  pose proof (scale_pos n) as P.
  assert (P' : 0 < inject_Z (10 ^ Z.of_nat n)).
  { replace 0 with (inject_Z 0) by reflexivity. rewrite <- Zlt_Qlt. exact P. }
  apply Qmult_le_compat_r; [| apply Qlt_le_weak, Qinv_lt_0_compat, P'].
  rewrite <- Zle_Qle. apply round_half_even_mono.
  apply Qmult_le_compat_r; [exact L | apply Qlt_le_weak, P'].
Qed.

Lemma py_min_mono (a x y : Q) : x <= y -> py_min a x <= py_min a y.
Proof.
  intros L. rewrite !py_min_Qmin. apply Q.min_le_compat_l, L.
Qed.

Lemma py_max_mono (a x y : Q) : x <= y -> py_max a x <= py_max a y.
Proof.
  intros L. rewrite !py_max_Qmax. apply Q.max_le_compat_l, L.
Qed.
End Rounding.

(** ** The shape of the primary scoring function *)

Section ScoringShape.
Local Open Scope Q_scope.
Import CompareTexts.

Lemma inject_Z_div_mono (k k' : Z) : (k <= k')%Z -> inject_Z k / 5 <= inject_Z k' / 5.
Proof.
  intros L. apply Qmult_le_compat_r; [rewrite <- Zle_Qle; exact L | discriminate].
Qed.

Lemma raw_score_monotone (s s' d d' : Q) (k k' : Z) (c c' : list string) (a a' : Q)
    (g : string) :
  s' <= s -> d <= d' -> (k <= k')%Z -> (c' = [] -> c = []) -> a <= a' ->
  Spec.raw_score s d k c a g <= Spec.raw_score s' d' k' c' a' g.
Proof.
  intros Hs Hd Hk Hc Ha. unfold Spec.raw_score. cbv zeta.
  apply py_min_mono.
  pose proof (py_min_mono 1 d d' Hd) as M1.
  pose proof (py_min_mono 1 _ _ (inject_Z_div_mono k k' Hk)) as M2.
  set (m1 := py_min 1 d) in *. set (m1' := py_min 1 d') in *.
  set (m2 := py_min 1 (inject_Z k / 5)) in *. set (m2' := py_min 1 (inject_Z k' / 5)) in *.
  assert (C : (match c with [] => 0 | _ => 1 end) <= (match c' with [] => 0 | _ => 1 end)).
  { destruct c'; [rewrite Hc by reflexivity; lra | destruct c; lra]. }
  set (cc := match c with [] => 0 | _ => 1 end) in *.
  set (cc' := match c' with [] => 0 | _ => 1 end) in *.
  destruct (existsb _ _); lra.
Qed.

(** X1. [recalibrated_scoring] is monotone in its signals: a lower similarity, a
    larger numeric delta, more keyword hits, a larger goal alignment and
    critical flags in place of none never lower the score.  A result rated
    "low" stays "low" under the weaker signals, and a result rated "critical"
    stays "critical" under the stronger ones. *)
Theorem recalibrated_scoring_monotone (s s' d d' : Q) (k k' : Z) (c c' : list string)
    (a a' : Q) (g : string) :
  s' <= s -> d <= d' -> (k <= k')%Z -> (c' = [] -> c = []) -> a <= a' ->
  let lo := recalibrated_scoring s d k c a g in
  let hi := recalibrated_scoring s' d' k' c' a' g in
  fst (fst lo) <= fst (fst hi)
  /\ (snd (fst hi) = "low" -> snd (fst lo) = "low")
  /\ (snd (fst lo) = "critical" -> snd (fst hi) = "critical").
Proof.
  intros Hs Hd Hk Hc Ha. cbv zeta. rewrite !recalibrated_scoring_unfold. cbn [fst snd].
  pose proof (raw_score_monotone s s' d d' k k' c c' a a' g Hs Hd Hk Hc Ha) as R.
  split; [apply py_round_mono, R |].
  destruct (classify_spec (Spec.raw_score s d k c a g)) as [[L ->] | [(L1 & L2 & ->) | [L ->]]];
    destruct (classify_spec (Spec.raw_score s' d' k' c' a' g))
      as [[H ->] | [(H1 & H2 & ->) | [H ->]]];
    cbn [fst snd]; split; intros E; try reflexivity; try discriminate E; exfalso; lra.
Qed.

Lemma recalibrated_scoring_monotone_witness :
  fst (fst (recalibrated_scoring 0.9 0 1 [] 0.5 "watch"))
  <= fst (fst (recalibrated_scoring 0.4 0.5 3 ["Recall"] 0.5 "watch")).
Proof.
  apply (recalibrated_scoring_monotone 0.9 0.4 0 0.5 1 3 [] ["Recall"] 0.5 0.5 "watch");
    first [lra | lia | discriminate].
Defined.


(** X3. With a similarity of 1 or more and a goal alignment of at most 1,
    [recalibrated_scoring] returns a score of at most 6.5 and never the
    importance "critical", whatever the numeric delta, the keyword hits, the
    critical flags and the goal are. *)
Theorem unchanged_similarity_never_critical (s d : Q) (k : Z) (c : list string) (a : Q)
    (g : string) :
  1 <= s -> a <= 1 ->
  fst (fst (recalibrated_scoring s d k c a g)) <= 6.5
  /\ (snd (fst (recalibrated_scoring s d k c a g)) = "low"
      \/ snd (fst (recalibrated_scoring s d k c a g)) = "medium").
Proof.
  intros S A. rewrite recalibrated_scoring_unfold. cbn [fst snd].
  assert (R : Spec.raw_score s d k c a g <= 6.5).
  { unfold Spec.raw_score. cbv zeta.
    pose proof (py_min_le_l 1 d) as M1. pose proof (py_min_le_l 1 (inject_Z k / 5)) as M2.
    set (m1 := py_min 1 d) in *. set (m2 := py_min 1 (inject_Z k / 5)) in *.
    assert (C : (match c with [] => 0 | _ => 1 end) <= 1) by (destruct c; lra).
    set (cc := match c with [] => 0 | _ => 1 end) in *.
    eapply Qle_trans; [apply py_min_le_r |].
    destruct (existsb _ _); lra. }
  split.
  - apply Qle_trans with (py_round 6.5 2); [apply py_round_mono, R | vm_compute; discriminate].
  - destruct (classify_spec (Spec.raw_score s d k c a g)) as [[L ->] | [(L1 & L2 & ->) | [L ->]]];
      cbn [fst snd]; auto. exfalso. lra.
Qed.

Lemma unchanged_similarity_never_critical_witness :
  fst (fst (recalibrated_scoring 1 5 9 ["Recall"] 1 "clinical trial")) <= 6.5.
Proof.
  apply (unchanged_similarity_never_critical 1 5 9 ["Recall"] 1 "clinical trial"); lra.
Defined.
End ScoringShape.

(** ** The extracted KPIs *)

Section KpiExtraction.
Local Open Scope Q_scope.
Import CompareTexts.

Lemma digits_value_nonneg (s : string) (acc v : Z) :
  (0 <= acc)%Z -> digits_value acc s = Some v -> (0 <= v)%Z.
Proof.
  revert acc. induction s as [| c s IH]; intros acc A E; simpl in E.
  - congruence.
  - destruct (is_digit c); [| discriminate].
    apply (IH (10 * acc + Z.of_N (code c - 48))%Z); [| exact E].
    pose proof (N2Z.is_nonneg (code c - 48)). lia.
Qed.

Lemma float_of_decimal_nonneg (s : string) (v : Q) : float_of_decimal s = Some v -> 0 <= v.
Proof.
  unfold float_of_decimal. destruct (BedrockPrompt.split_on "." s) as [| ip [| fp [| ? ?]]];
    try discriminate.
  - destruct (digits_value 0 ip) as [i |] eqn:I; [| discriminate].
    intros [= <-]. apply digits_value_nonneg in I; [| lia].
    replace 0 with (inject_Z 0) by reflexivity. rewrite <- Zle_Qle. exact I.
  - destruct (digits_value 0 ip) as [i |] eqn:I; [| discriminate].
    destruct (digits_value 0 fp) as [f |] eqn:F; [| discriminate].
    simpl. intros [= <-].
    apply digits_value_nonneg in I; [| lia]. apply digits_value_nonneg in F; [| lia].
    assert (0 <= inject_Z i) by (replace 0 with (inject_Z 0) by reflexivity; rewrite <- Zle_Qle; exact I).
    assert (0 <= inject_Z f) by (replace 0 with (inject_Z 0) by reflexivity; rewrite <- Zle_Qle; exact F).
    assert (0 <= inject_Z f / inject_Z (10 ^ Z.of_nat (String.length fp))).
    { apply Qle_shift_div_l.
      - replace 0 with (inject_Z 0) by reflexivity. rewrite <- Zlt_Qlt. apply scale_pos.
      - rewrite Qmult_0_l. assumption. }
    lra.
Qed.

Lemma kpis_ok_insert (label : string) (v : Q) (kpis : gmap string Q) :
  Spec.kpi_entry_ok label v -> Spec.kpis_ok kpis -> Spec.kpis_ok (<[label := v]> kpis).
Proof.
  intros E K key w L. apply lookup_insert_Some in L as [[<- <-] | [_ L]]; auto.
Qed.

Lemma kpis_ok_set_float (label numeral : string) (kpis : gmap string Q) :
  In label Spec.kpi_labels -> label <> "Phase" ->
  Spec.kpis_ok kpis -> Spec.kpis_ok (set_float label numeral kpis).
Proof.
  intros I N K. unfold set_float.
  destruct (float_of_decimal numeral) as [v |] eqn:E; [| exact K].
  apply kpis_ok_insert; [| exact K].
  split; [exact I | split; [exact (float_of_decimal_nonneg _ _ E) | congruence]].
Qed.

Lemma kpis_ok_extract (text : string) : Spec.kpis_ok (extract_numbers_with_labels text).
Proof.
  unfold extract_numbers_with_labels. cbv zeta.
  set (tl := lower text).
  assert (K0 : Spec.kpis_ok (∅ : gmap string Q)) by (intros key v L; rewrite lookup_empty in L; discriminate).
  assert (K1 : Spec.kpis_ok (extract_phase tl ∅)).
  { unfold extract_phase. destruct (Re.search overview_re _); [| exact K0].
    repeat match goal with
           | |- Spec.kpis_ok (if ?b then _ else _) => destruct b
           end; try exact K0;
      (apply kpis_ok_insert; [| exact K0]);
      (split; [(simpl; tauto) | split; [discriminate | intros _; tauto]]). }
  revert K1. generalize (extract_phase tl ∅). intros k K.
  assert (S1 : Spec.kpis_ok (extract_protocol tl k)).
  { unfold extract_protocol. destruct (Re.search _ _); [| exact K].
    apply kpis_ok_set_float; [(simpl; tauto) | discriminate | exact K]. }
  revert S1. generalize (extract_protocol tl k). clear k K. intros k K.
  assert (S1 : Spec.kpis_ok (extract_enrollment tl k)).
  { unfold extract_enrollment. destruct (Re.search _ _); [| exact K].
    apply kpis_ok_set_float; [(simpl; tauto) | discriminate | exact K]. }
  revert S1. generalize (extract_enrollment tl k). clear k K. intros k K.
  assert (S1 : Spec.kpis_ok (extract_target tl k)).
  { unfold extract_target. destruct (Re.search _ _); [| exact K].
    apply kpis_ok_set_float; [(simpl; tauto) | discriminate | exact K]. }
  revert S1. generalize (extract_target tl k). clear k K. intros k K.
  assert (S1 : Spec.kpis_ok (extract_sites tl k)).
  { unfold extract_sites. destruct (Re.search _ _); [| exact K].
    apply kpis_ok_set_float; [(simpl; tauto) | discriminate | exact K]. }
  revert S1. generalize (extract_sites tl k). clear k K. intros k K.
  assert (S1 : Spec.kpis_ok (extract_sae tl k)).
  { unfold extract_sae. destruct (Re.search _ _); [| exact K].
    apply kpis_ok_set_float; [(simpl; tauto) | discriminate | exact K]. }
  revert S1. generalize (extract_sae tl k). clear k K. intros k K.
  assert (S1 : Spec.kpis_ok (extract_ae tl k)).
  { unfold extract_ae. destruct (Re.search _ _); [| exact K].
    apply kpis_ok_set_float; [(simpl; tauto) | discriminate | exact K]. }
  revert S1. generalize (extract_ae tl k). clear k K. intros k K.
  assert (S1 : Spec.kpis_ok (extract_rd tl k)).
  { unfold extract_rd. destruct (Re.search _ _) as [mo |]; [| exact K]. cbv zeta.
    destruct (float_of_decimal _) as [v |] eqn:E; [| exact K].
    apply float_of_decimal_nonneg in E.
    destruct (contains "b" _).
    - apply kpis_ok_insert; [| exact K]. split; [(simpl; tauto) | split; [exact E | discriminate]].
    - destruct (contains "m" _); [| exact K].
      apply kpis_ok_insert; [| exact K].
      split; [(simpl; tauto) | split; [| discriminate]].
      apply Qle_shift_div_l; [reflexivity | lra]. }
  revert S1. generalize (extract_rd tl k). clear k K. intros k K.
  unfold extract_cost. destruct (Re.search _ _) as [mo |]; [| exact K]. cbv zeta.
  destruct (float_of_decimal _) as [v |] eqn:E; [| exact K].
  apply float_of_decimal_nonneg in E.
  destruct (contains "m" _); [| exact K].
  apply kpis_ok_insert; [| exact K]. split; [(simpl; tauto) | split; [exact E | discriminate]].
Qed.

(** X4. Every entry of the dict of [extract_numbers_with_labels] has one of the
    nine labels Phase, Protocol, Enrollment, Target Enrollment, Sites, SAE,
    Adverse Event Rate, R&D and Program Cost, its value is not negative, and
    the value of Phase is 1, 2, 3 or 4. *)
Theorem extracted_kpis_are_labelled_and_nonnegative (text key : string) (v : Q) :
  extract_numbers_with_labels text !! key = Some v -> Spec.kpi_entry_ok key v.
Proof. apply kpis_ok_extract. Qed.
End KpiExtraction.

Lemma extracted_kpis_are_labelled_and_nonnegative_witness :
  Spec.kpi_entry_ok "Enrollment" 1200.
Proof.
  apply (extracted_kpis_are_labelled_and_nonnegative "Enrolled: 1,200 patients").
  vm_compute. reflexivity.
Defined.

(** ** Numeric deltas and critical phrases *)

Section NumericDeltas.
Local Open Scope Q_scope.
Import CompareTexts.
Context `{Platform}.

Lemma delta_le_1 (p c : Q) :
  0 <= p -> 0 <= c -> Qabs (c - p) / py_max (py_max (Qabs p) (Qabs c)) 1 <= 1.
Proof.
  intros P C.
  pose proof (py_max_ge_r (py_max (Qabs p) (Qabs c)) 1) as D1.
  pose proof (py_max_ge_l (py_max (Qabs p) (Qabs c)) 1) as D2.
  pose proof (py_max_ge_l (Qabs p) (Qabs c)) as D3.
  pose proof (py_max_ge_r (Qabs p) (Qabs c)) as D4.
  pose proof (Qle_Qabs p) as Ap. pose proof (Qle_Qabs c) as Ac.
  set (ap := Qabs p) in *. set (ac := Qabs c) in *.
  set (den := py_max (py_max ap ac) 1) in *.
  set (mx := py_max ap ac) in *.
  apply Qle_shift_div_r; [lra |].
  apply Qabs_case; intros _; lra.
Qed.

Lemma delta_step_unit p c acc key :
  (forall k v, p !! k = Some v -> 0 <= v) -> (forall k v, c !! k = Some v -> 0 <= v) ->
  Forall (fun d => d <= 1) (snd acc) -> Forall (fun d => d <= 1) (snd (delta_step p c acc key)).
Proof.
  intros Pp Pc. destruct acc as [ins ds]. intros F. unfold delta_step.
  destruct (p !! key) as [pv |] eqn:Ep; [| exact F].
  destruct (c !! key) as [cv |] eqn:Ec; [| exact F].
  destruct (Qltb _ _); [| exact F].
  cbn [snd] in *. apply Forall_app. split; [exact F |].
  constructor; [| constructor].
  apply delta_le_1; [exact (Pp _ _ Ep) | exact (Pc _ _ Ec)].
Qed.

Lemma py_sum_le (xs : list Q) (acc : Q) :
  Forall (fun d => d <= 1) xs ->
  fold_left Qplus xs acc <= acc + inject_Z (Z.of_nat (List.length xs)).
Proof.
  revert acc. induction xs as [| x xs IH]; intros acc F.
  - cbn [fold_left List.length]. change (inject_Z (Z.of_nat 0)) with 0. lra.
  - inversion F; subst. cbn [fold_left List.length].
    eapply Qle_trans; [apply IH; assumption |].
    rewrite Nat2Z.inj_succ, <- Z.add_1_l, inject_Z_plus. change (inject_Z 1) with 1. lra.
Qed.

Lemma compute_numeric_delta_le_1 (p c : gmap string Q) :
  (forall k v, p !! k = Some v -> 0 <= v) -> (forall k v, c !! k = Some v -> 0 <= v) ->
  fst (compute_numeric_delta p c) <= 1.
Proof.
  intros Pp Pc. unfold compute_numeric_delta.
  assert (F : Forall (fun d => d <= 1)
                (snd (fold_left (delta_step p c) (common_keys p c) ([], [])))).
  { generalize (common_keys p c). intros keys.
    assert (G : forall acc, Forall (fun d => d <= 1) (snd acc) ->
                  Forall (fun d => d <= 1) (snd (fold_left (delta_step p c) keys acc))).
    { induction keys as [| k keys IH]; intros acc A; simpl; [exact A |].
      apply IH, delta_step_unit; assumption. }
    apply G. constructor. }
  destruct (fold_left _ _ _) as [ins ds]. cbn [snd] in F. cbn [fst].
  destruct ds as [| d ds]; [lra |].
  apply Qle_shift_div_r.
  - replace 0 with (inject_Z 0) by reflexivity. rewrite <- Zlt_Qlt. simpl. lia.
  - pose proof (py_sum_le (d :: ds) 0 F) as S. unfold py_sum. lra.
Qed.

(** X5. For two texts whose extracted KPI values are at most 10^300 (a
    numeral beyond the range of a float is an infinity for [float], which
    the exact model does not have), the mean numeric delta that
    [compute_numeric_delta] returns for their KPIs lies between 0 and 1, so
    the cap [min(1.0, mean_numeric_delta)] of the scoring leaves it as it
    is. *)
Theorem numeric_delta_of_texts_within_unit (prev_text cur_text : string) :
  let mean_numeric_delta := fst (Spec.numeric_delta prev_text cur_text) in
  Spec.within_float_range (extract_numbers_with_labels prev_text) = true ->
  Spec.within_float_range (extract_numbers_with_labels cur_text) = true ->
  0 <= mean_numeric_delta <= 1 /\ py_min 1 mean_numeric_delta == mean_numeric_delta.
Proof.
  cbv zeta. intros _ _. unfold Spec.numeric_delta.
  assert (B : 0 <= fst (compute_numeric_delta (extract_numbers_with_labels prev_text)
                          (extract_numbers_with_labels cur_text)) <= 1).
  { split; [apply compute_numeric_delta_nonneg |].
    apply compute_numeric_delta_le_1; intros k v L;
      apply kpis_ok_extract in L as (_ & N & _); exact N. }
  split; [exact B |]. rewrite py_min_Qmin. apply Q.min_r. apply B.
Qed.
Lemma fold_delta_small (p c : gmap string Q) (keys : list string) (acc : list string * list Q) :
  (forall key pv cv, p !! key = Some pv -> c !! key = Some cv -> Qabs (pv - cv) <= 0.01) ->
  fold_left (delta_step p c) keys acc = acc.
Proof.
  intros Small. revert acc. induction keys as [| k keys IH]; intros acc; [reflexivity |].
  simpl. rewrite <- (IH acc) at 2. f_equal.
  destruct acc as [ins ds]. unfold delta_step.
  destruct (p !! k) as [pv |] eqn:Ep; [| reflexivity].
  destruct (c !! k) as [cv |] eqn:Ec; [| reflexivity].
  pose proof (Small k pv cv Ep Ec) as S. apply Qltb_ge in S. rewrite S. reflexivity.
Qed.

(** X6. [compute_numeric_delta] ignores differences of at most 0.01: when no
    common key differs by more, and in particular for equal dicts or dicts
    without a common key, the mean delta is 0 and no insight is emitted. *)
Theorem numeric_delta_ignores_small_differences (prev_kpis cur_kpis : gmap string Q) :
  (forall key pv cv,
      prev_kpis !! key = Some pv -> cur_kpis !! key = Some cv -> Qabs (pv - cv) <= 0.01) ->
  compute_numeric_delta prev_kpis cur_kpis = (0, []).
Proof.
  intros Small. unfold compute_numeric_delta.
  rewrite (fold_delta_small _ _ _ _ Small). reflexivity.
Qed.
End NumericDeltas.

Lemma numeric_delta_of_texts_within_unit_witness :
  let mean_numeric_delta :=
    fst (@Spec.numeric_delta Stub.platform "Enrolled: 1,200 patients at 40 sites: 12"
           "Enrolled: 1,500 patients at 40 sites: 12") in
  (0 <= mean_numeric_delta <= 1)%Q /\ (py_min 1 mean_numeric_delta == mean_numeric_delta)%Q.
Proof.
  cbv zeta.
  apply (@numeric_delta_of_texts_within_unit Stub.platform); vm_compute; reflexivity.
Defined.

Lemma numeric_delta_ignores_small_differences_witness :
  @CompareTexts.compute_numeric_delta Stub.platform
    {[ "Sites" := 12%Q; "SAE" := 2.5%Q ]} {[ "Sites" := 12%Q; "SAE" := 2.505%Q; "Phase" := 3%Q ]}
  = (0%Q, []).
Proof.
  apply (@numeric_delta_ignores_small_differences Stub.platform).
  intros key pv cv Ep Ec.
  apply lookup_insert_Some in Ep as [[<- <-] | [N Ep]].
  - vm_compute in Ec. injection Ec as <-. vm_compute. discriminate.
  - apply lookup_singleton_Some in Ep as [<- <-].
    vm_compute in Ec. injection Ec as <-. vm_compute. discriminate.
Defined.

Section CriticalPhrases.
Import CompareTexts.

(** X7. [detect_critical_phrases] returns the title-cased critical terms that
    occur in the lower-cased current text and not in the lower-cased previous
    one; it returns nothing when the two texts differ in letter case only,
    and every phrase it returns is one of fourteen fixed strings, among them
    "Protocol V1.1" and "Phase Iii". *)
Theorem critical_phrases_are_new_terms (prev_text cur_text : string) :
  (forall x,
      In x (detect_critical_phrases prev_text cur_text)
      <-> exists term,
            In term critical_terms /\ x = title term
            /\ contains term (lower cur_text) = true
            /\ contains term (lower prev_text) = false)
  /\ (lower prev_text = lower cur_text -> detect_critical_phrases prev_text cur_text = [])
  /\ incl (detect_critical_phrases prev_text cur_text)
          [ "Fast Track"; "Breakthrough"; "Discontinued"; "Terminated"; "Recall";
            "Regulatory Submission"; "Protocol V1.1"; "Phase 3"; "Phase Iii";
            "Paused"; "Delay"; "Hold"; "Accelerated Approval"; "Priority Review" ].
Proof.
  assert (M : forall x,
      In x (detect_critical_phrases prev_text cur_text)
      <-> exists term,
            In term critical_terms /\ x = title term
            /\ contains term (lower cur_text) = true
            /\ contains term (lower prev_text) = false).
  { intros x. unfold detect_critical_phrases. cbv zeta.
    rewrite in_map_iff. split.
    - intros (term & <- & I). apply filter_In in I as [I C].
      apply andb_prop in C as [C1 C2]. apply negb_true_iff in C2. eauto.
    - intros (term & I & -> & C1 & C2). exists term. split; [reflexivity |].
      apply filter_In. split; [exact I |]. rewrite C1, C2. reflexivity. }
  split; [exact M |]. split.
  - intros E. unfold detect_critical_phrases. cbv zeta. rewrite E.
    replace (List.filter _ critical_terms) with (@nil string); [reflexivity |].
    symmetry. clear M. generalize critical_terms. intros l.
    induction l as [| t ts IH]; [reflexivity |].
    simpl. rewrite andb_negb_r. exact IH.
  - intros x I. apply M in I as (term & I & -> & _).
    unfold critical_terms in I. simpl in I.
    repeat (destruct I as [<- | I]; [vm_compute; tauto |]). destruct I.
Qed.
End CriticalPhrases.

(** ** The result of the local analysis *)

Section LocalAnalysisShape.
Local Open Scope Q_scope.
Import CompareTexts.
Context `{Platform}.

Lemma take_length_le (n : nat) (s : string) : (String.length (take n s) <= n)%nat.
Proof.
  revert s. induction n as [| n IH]; intros [| c s]; simpl; try lia.
  specialize (IH s). lia.
Qed.

Lemma dedup_spec (seen l : list string) :
  NoDup (dedup seen l) /\ forall x, In x (dedup seen l) -> ~ In x seen /\ In x l.
Proof.
  revert seen. induction l as [| y l IH]; intros seen; simpl.
  - split; [constructor | intros x []].
  - destruct (bool_decide (y ∈ seen)) eqn:B.
    + destruct (IH seen) as [N I]. split; [exact N |].
      intros x Hx. destruct (I x Hx). auto.
    + apply bool_decide_eq_false in B. rewrite list_elem_of_In in B.
      destruct (IH (y :: seen)) as [N I]. split.
      * constructor; [| exact N]. rewrite list_elem_of_In. intros Hy.
        destruct (I y Hy) as [Ny _]. apply Ny. left. reflexivity.
      * intros x [<- | Hx]; [auto |].
        destruct (I x Hx) as [Nx Ix]. split; [| auto].
        intros S. apply Nx. right. exact S.
Qed.

Lemma NoDup_firstn {A} (n : nat) (l : list A) : NoDup l -> NoDup (List.firstn n l).
Proof.
  intros N. rewrite <- (firstn_skipn n l) in N. apply NoDup_app in N as [N _]. exact N.
Qed.

(** X8. In the result of [enhanced_diff_analysis] the summary has at most 500
    characters, the key insights are between one and eight strings without
    a repetition, the goal alignment is 0.5, and no model is recorded. *)
Theorem enhanced_analysis_output_shape (w : World) (goal prev_text cur_text : string) :
  let r := enhanced_diff_analysis w goal prev_text cur_text in
  (exists s, summary_change r = JStr s /\ (String.length s <= 500)%nat)
  /\ (exists insights,
        key_insights r = JArr (JStr <$> insights)
        /\ (1 <= List.length insights <= 8)%nat /\ NoDup insights)
  /\ goal_alignment r = JNum 0.5 /\ llm_used r = false /\ model_id r = None.
Proof.
  cbv zeta. unfold enhanced_diff_analysis. cbv zeta.
  destruct (compute_numeric_delta _ _) as [nd ins].
  destruct (recalibrated_scoring _ _ _ _ _ _) as [[sc im] al].
  cbn [summary_change key_insights goal_alignment llm_used model_id].
  split; [eexists; split; [reflexivity | apply take_length_le] |].
  split; [| repeat split].
  set (l := List.firstn 8 (dedup [] (ins ++ detect_critical_phrases prev_text cur_text)%list)).
  assert (N : NoDup l) by (apply NoDup_firstn, dedup_spec).
  assert (L : (List.length l <= 8)%nat) by apply firstn_le_length.
  destruct l as [| x l'].
  - exists ["Minor or no changes detected"]. split; [reflexivity |].
    split; [simpl; lia | repeat constructor; intros I; inversion I].
  - exists (x :: l'). split; [reflexivity |]. split; [simpl in *; lia | exact N].
Qed.

Lemma raw_score_floor (s d : Q) (k : Z) (c : list string) (g : string) :
  s <= 1 -> 0 <= d -> (0 <= k)%Z -> 0.25 <= Spec.raw_score s d k c 0.5 g.
Proof.
  intros Hs Hd Hk. unfold Spec.raw_score. cbv zeta.
  assert (Hk' : 0 <= inject_Z k / 5).
  { apply Qle_shift_div_l; [reflexivity |]. rewrite Qmult_0_l.
    replace 0 with (inject_Z 0) by reflexivity. rewrite <- Zle_Qle. exact Hk. }
  pose proof (py_min_nonneg 1 d ltac:(lra) Hd) as M1.
  pose proof (py_min_nonneg 1 _ ltac:(lra) Hk') as M2.
  set (m1 := py_min 1 d) in *. set (m2 := py_min 1 (inject_Z k / 5)) in *.
  assert (C : 0 <= match c with [] => 0 | _ => 1 end) by (destruct c; lra).
  set (cc := match c with [] => 0 | _ => 1 end) in *.
  apply py_min_glb; [lra |].
  destruct (existsb _ _); nra.
Qed.

(** X9. When the ratio of the sequence matcher is at most 1, the score of
    [enhanced_diff_analysis] is at least 0.25: the fixed goal alignment of
    0.5 contributes to it even for identical texts. *)
Theorem enhanced_analysis_score_floor (w : World) (goal prev_text cur_text : string) :
  sm_ratio_chars prev_text cur_text <= 1 ->
  0.25 <= import_score (enhanced_diff_analysis w goal prev_text cur_text).
Proof.
  intros R.
  destruct (enhanced_fields w goal prev_text cur_text) as (_ & _ & _ & _ & _ & -> & _).
  rewrite recalibrated_scoring_unfold. cbn [fst].
  apply Qle_trans with (py_round 0.25 2); [vm_compute; discriminate |].
  apply py_round_mono, raw_score_floor.
  - unfold Spec.text_similarity. apply (py_round_le _ 4 1), R.
  - apply compute_numeric_delta_nonneg.
  - apply count_keyword_hits_nonneg.
Qed.

(** X10. For two identical texts [enhanced_diff_analysis] finds no numeric delta
    and no critical phrase, reports the single key insight "Minor or no
    changes detected", and scores from the text similarity and the keyword
    hits alone. *)
Theorem enhanced_analysis_of_identical_texts (w : World) (goal text : string) :
  let r := enhanced_diff_analysis w goal text text in
  Spec.numeric_delta text text = (0, [])
  /\ detect_critical_phrases text text = []
  /\ key_insights r = JArr [JStr "Minor or no changes detected"]
  /\ import_score r
     = fst (fst (recalibrated_scoring (Spec.text_similarity text text) 0
                   (Spec.keyword_hits goal text text []) [] 0.5 goal)).
Proof.
  cbv zeta.
  assert (D : Spec.numeric_delta text text = (0, [])).
  { unfold Spec.numeric_delta. apply numeric_delta_ignores_small_differences.
    intros key pv cv Ep Ec. rewrite Ep in Ec. injection Ec as <-.
    assert (Z0 : pv - pv == 0) by ring. rewrite Z0. discriminate. }
  assert (C : detect_critical_phrases text text = []).
  { apply (critical_phrases_are_new_terms text text). reflexivity. }
  split; [exact D |]. split; [exact C |].
  destruct (enhanced_fields w goal text text) as (_ & _ & _ & _ & _ & -> & _).
  rewrite D, C. cbn [fst snd]. split; [| reflexivity].
  unfold enhanced_diff_analysis. cbv zeta.
  unfold Spec.numeric_delta in D. rewrite D, C.
  destruct (recalibrated_scoring _ _ _ _ _ _) as [[sc im] al].
  reflexivity.
Qed.
End LocalAnalysisShape.

Lemma enhanced_analysis_score_floor_witness :
  (0.25 <= CompareTexts.import_score
             (@CompareTexts.enhanced_diff_analysis Stub.platform (Stub.world "t")
                "goal" "same" "same"))%Q.
Proof.
  apply (@enhanced_analysis_score_floor Stub.platform). vm_compute. discriminate.
Defined.

(** ** The visual similarity of two screenshots *)

Section VisualSimilarity.
Local Open Scope Q_scope.
Import CompareTexts.
Context `{Platform}.

Lemma _hamming_self (l : list Z) : _hamming l l = 0%Z.
Proof.
  unfold _hamming. destruct l as [| x l]; [reflexivity |].
  rewrite Nat.eqb_refl. cbn [negb].
  replace (List.filter _ (combine (x :: l) (x :: l))) with (@nil (Z * Z)); [reflexivity |].
  symmetry. generalize (x :: l). intros k. induction k as [| y k IH]; [reflexivity |].
  simpl. rewrite Z.eqb_refl. exact IH.
Qed.

Lemma _hamming_le (a b : list Z) : (0 <= _hamming a b <= Z.of_nat (List.length a))%Z.
Proof.
  unfold _hamming. destruct a as [| x a]; [simpl; lia |].
  destruct b as [| y b]; [lia |].
  destruct (negb _); [lia |].
  split; [lia |]. apply Nat2Z.inj_le.
  etransitivity; [apply List.filter_length_le |].
  rewrite length_combine. lia.
Qed.

Lemma _sim_bits_range (a b : option (list Z)) : 0 <= _sim_bits a b <= 1.
Proof.
  unfold _sim_bits. destruct a as [[| x xs] |]; try (split; discriminate).
  destruct b as [[| y ys] |]; try (split; discriminate).
  split; [apply py_max_ge_l |].
  apply py_max_lub; [discriminate |].
  pose proof (_hamming_le (x :: xs) (y :: ys)) as [L _].
  assert (0 <= inject_Z (_hamming (x :: xs) (y :: ys)) / inject_Z (Z.of_nat (List.length (x :: xs)))).
  { apply Qle_shift_div_l.
    - replace 0 with (inject_Z 0) by reflexivity. rewrite <- Zlt_Qlt. simpl. lia.
    - rewrite Qmult_0_l. replace 0 with (inject_Z 0) by reflexivity. rewrite <- Zle_Qle. exact L. }
  lra.
Qed.

Lemma _sim_bits_self (a : option (list Z)) : _sim_bits a a == 1.
Proof.
  unfold _sim_bits. destruct a as [[| x xs] |]; try reflexivity.
  rewrite _hamming_self, py_max_Qmax.
  assert (E : 1 - inject_Z 0 / inject_Z (Z.of_nat (List.length (x :: xs))) == 1).
  { unfold Qdiv. change (inject_Z 0) with 0. ring. }
  rewrite E. reflexivity.
Qed.

(** X11. [_visual_similarity] returns [None] exactly when the 64 by 64 pixel
    list of the first image is empty (a hash that fails counts as full
    agreement instead); a value it returns lies between 0 and 1; and an image
    compared with itself gives 1, provided the pixel list is not empty and
    the square root of 0 is 0. *)
Theorem visual_similarity_range_and_identity (img_prev img_cur : image) :
  (_visual_similarity img_prev img_cur = None <-> gray_pixels img_prev 64 64 = [])
  /\ (forall v, _visual_similarity img_prev img_cur = Some v -> 0 <= v <= 1)
  /\ (gray_pixels img_prev 64 64 <> [] -> (forall x, x == 0 -> float_sqrt x == 0) ->
      exists v, _visual_similarity img_prev img_prev = Some v /\ v == 1).
Proof.
  split; [| split].
  - unfold _visual_similarity, _rms_similarity. cbv zeta.
    destruct (gray_pixels img_prev 64 64); split; congruence.
  - intros v. unfold _visual_similarity. cbv zeta.
    destruct (_rms_similarity _ _); [| discriminate]. intros [= <-].
    split; [apply py_max_ge_l |].
    apply py_max_lub; [discriminate | apply py_min_le_l].
  - intros NE Sqrt. unfold _visual_similarity, _rms_similarity. cbv zeta.
    destruct (gray_pixels img_prev 64 64) as [| p px] eqn:E; [congruence |].
    eexists. split; [reflexivity |].
    set (l := p :: px).
    assert (Z0 : fold_left Z.add (List.map (fun '(x, y) => ((x - y) * (x - y))%Z) (combine l l)) 0%Z
                 = 0%Z).
    { generalize l. intros k.
      assert (G : forall acc, fold_left Z.add
                    (List.map (fun '(x, y) => ((x - y) * (x - y))%Z) (combine k k)) acc = acc).
      { induction k as [| y k IH]; intros acc; [reflexivity |].
        simpl. rewrite IH. lia. }
      apply G. }
    rewrite Z0.
    assert (M : inject_Z 0 / inject_Z (Z.of_nat (List.length l)) == 0).
    { unfold Qdiv. change (inject_Z 0) with 0. ring. }
    pose proof (Sqrt _ M) as S0.
    rewrite py_max_Qmax, py_min_Qmin, !_sim_bits_self, py_max_Qmax, S0.
    reflexivity.
Qed.
End VisualSimilarity.

Lemma visual_similarity_range_and_identity_witness :
  exists v, @CompareTexts._visual_similarity Stub.platform 7%Z 7%Z = Some v /\ (v == 1)%Q.
Proof.
  destruct (@visual_similarity_range_and_identity Stub.platform 7%Z 7%Z) as (_ & _ & I).
  apply I; [vm_compute; discriminate |].
  intros x E. exact E.
Defined.

(** ** The size of an encoded screenshot *)

Section Downscale.
Local Open Scope Q_scope.
Import CompareTexts.

Lemma py_int_floor (x : Q) : 0 <= x -> py_int x = Qfloor x.
Proof.
  destruct x as [n d]. unfold Qle, py_int. simpl. intros N.
  apply Z.quot_div_nonneg; lia.
Qed.

Lemma py_int_ratio (a b c : Z) :
  (0 <= a)%Z -> (0 < b)%Z -> (0 < c)%Z ->
  py_int (inject_Z a / (inject_Z b / inject_Z c)) = (a * c / b)%Z.
Proof.
  intros A B C.
  assert (E : inject_Z a / (inject_Z b / inject_Z c) == (a * c) # (Z.to_pos b)).
  { rewrite Qmake_Qdiv, inject_Z_mult. rewrite Z2Pos.id by exact B.
    field. split; intros E; unfold Qeq in E; simpl in E; lia. }
  rewrite py_int_floor.
  - rewrite (Qfloor_comp _ _ E). unfold Qfloor. rewrite Z2Pos.id by exact B. reflexivity.
  - rewrite E. unfold Qle. simpl. nia.
Qed.

(** X12. With the default bound of 512, [_encode_image_b64] leaves an image alone
    whose longer side is at most 512; otherwise it resizes it to
    [w * 512 // max(w, h)] by [h * 512 // max(w, h)], so that the longer side
    becomes 512 exactly, and the height becomes 0 when the image is more than
    512 times as wide as it is high. *)
Theorem downscaled_size_default (w h : Z) :
  (1 <= w)%Z -> (1 <= h)%Z ->
  (Z.max w h <= 512 /\ downscaled_size w h 512 = Ok None)%Z
  \/ (512 < Z.max w h
      /\ downscaled_size w h 512
         = Ok (Some (w * 512 / Z.max w h, h * 512 / Z.max w h))
      /\ Z.max (w * 512 / Z.max w h) (h * 512 / Z.max w h) = 512
      /\ (h * 512 < w -> h * 512 / Z.max w h = 0))%Z.
Proof.
  intros W Hh. unfold downscaled_size.
  destruct (Z.ltb_spec 512 (Z.max w h)) as [Big | Small].
  - right. split; [exact Big |].
    change (512 =? 0)%Z with false. cbn [mbind result_bind].
    assert (S : Qltb 1 (inject_Z (Z.max w h) / inject_Z 512) = true).
    { apply Qltb_lt. apply Qlt_shift_div_l; [reflexivity |].
      change (1 * inject_Z 512) with (inject_Z 512). rewrite <- Zlt_Qlt. exact Big. }
    rewrite S. cbv zeta. rewrite !py_int_ratio by lia.
    split; [reflexivity |].
    split.
    + destruct (Z.max_spec w h) as [[L ->] | [L ->]].
      * replace (h * 512 / h)%Z with 512%Z
          by (symmetry; rewrite Z.mul_comm; apply Z.div_mul; lia).
        apply Z.max_r. apply Z.div_le_upper_bound; nia.
      * replace (w * 512 / w)%Z with 512%Z
          by (symmetry; rewrite Z.mul_comm; apply Z.div_mul; lia).
        apply Z.max_l. apply Z.div_le_upper_bound; nia.
    + intros Flat. apply Z.div_small. lia.
  - left. split; [exact Small |]. cbn [mbind result_bind].
    change (Qltb 1 1) with false. reflexivity.
Qed.
End Downscale.

Lemma downscaled_size_default_witness :
  CompareTexts.downscaled_size 2048 1024 512 = Ok (Some (512, 256)%Z).
Proof.
  destruct (downscaled_size_default 2048 1024 ltac:(lia) ltac:(lia)) as [[S _] | (_ & E & _)].
  - vm_compute in S. congruence.
  - exact E.
Defined.

(** ** Malformed model replies and settings *)

Section BedrockFallback.
Local Open Scope Q_scope.
Import CompareTexts.
Context `{Platform}.

Lemma merge_analysis_not_object (w : World) (goal prev cur used_model : string)
    (llm_result : json) :
  (forall payload, llm_result <> JObj payload) ->
  exists exn, merge_analysis w goal prev cur used_model llm_result = Raised exn.
Proof.
  intros N. unfold merge_analysis. cbv zeta.
  destruct llm_result; try (eexists; reflexivity). exfalso. exact (N _ eq_refl).
Qed.

Lemma merge_analysis_not_number (w : World) (goal prev cur used_model : string)
    (payload : gmap string json) (key : string) (v : json) :
  key = "similarity" \/ key = "goal_alignment" ->
  payload !! key = Some v -> Json.as_number v = None ->
  exists exn, merge_analysis w goal prev cur used_model (JObj payload) = Raised exn.
Proof.
  intros K L N.
  destruct (merge_analysis w goal prev cur used_model (JObj payload)) as [r | exn] eqn:E;
    [| eauto].
  exfalso. apply merge_analysis_Ok in E as (_ & _ & _ & _ & (p & Ep & _ & _ & S & _ & A & _) & (sim & align & Es & Ea & _)).
  injection Ep as <-.
  destruct K as [-> | ->].
  - rewrite S, L in Es. simpl in Es. congruence.
  - rewrite A, L in Ea. simpl in Ea. congruence.
Qed.

(** X13. When the text of the model response parses to a JSON value that is not
    an object, or to an object whose "similarity" or "goal_alignment" is not
    a number, [run_bedrock_analysis] returns the result of
    [enhanced_diff_analysis]. *)
Theorem run_bedrock_analysis_falls_back_on_malformed_reply (w : World)
    (goal prev_text cur_text : string) (ctx : option visual_ctx)
    (body_text response_text : string) (body content block llm_result : json) :
  bedrock_invoke w (build_request w goal prev_text cur_text ctx) = Some body_text ->
  json_loads body_text = Some body ->
  Json.item body "content" = Some content -> Json.first content = Some block ->
  Json.item block "text" = Some (JStr response_text) ->
  BedrockPrompt.coerce_json response_text = Some llm_result ->
  (forall payload, llm_result <> JObj payload)
  \/ (exists payload key v,
        llm_result = JObj payload
        /\ (key = "similarity" \/ key = "goal_alignment")
        /\ payload !! key = Some v /\ Json.as_number v = None) ->
  run_bedrock_analysis w goal prev_text cur_text ctx
  = enhanced_diff_analysis w goal prev_text cur_text.
Proof.
  intros I B C F T J Bad. unfold run_bedrock_analysis.
  destruct (negb (boto3_available w)); [reflexivity |].
  destruct (negb _); [reflexivity |].
  unfold bedrock_attempt. cbv zeta. rewrite I. cbn [of_option mbind result_bind].
  rewrite B. cbn [of_option mbind result_bind]. rewrite C. cbn [of_option mbind result_bind].
  rewrite F. cbn [of_option mbind result_bind]. rewrite T. cbn [of_option mbind result_bind].
  rewrite J. cbn [of_option mbind result_bind].
  destruct Bad as [N | (payload & key & v & -> & K & L & N)].
  - destruct (merge_analysis_not_object w goal prev_text cur_text
                (req_model_id (build_request w goal prev_text cur_text ctx)) llm_result N)
      as [exn ->]. reflexivity.
  - destruct (merge_analysis_not_number w goal prev_text cur_text
                (req_model_id (build_request w goal prev_text cur_text ctx)) payload key v K L N)
      as [exn ->]. reflexivity.
Qed.

End BedrockFallback.

Lemma run_bedrock_analysis_falls_back_on_malformed_reply_witness :
  let P := Stub.platform_with_json
             [ ("body", JObj {[ "content" := JArr [JObj {[ "text" := JStr "reply" ]}] ]});
               ("reply", JArr [JNum 1]) ] in
  let w := Stub.world_with_bedrock "t" "body" in
  @CompareTexts.run_bedrock_analysis P w "goal" "a" "b" None
  = @CompareTexts.enhanced_diff_analysis P w "goal" "a" "b".
Proof.
  intros P w.
  apply (@run_bedrock_analysis_falls_back_on_malformed_reply P w "goal" "a" "b" None
           "body" "reply"
           (JObj {[ "content" := JArr [JObj {[ "text" := JStr "reply" ]}] ]})
           (JArr [JObj {[ "text" := JStr "reply" ]}])
           (JObj {[ "text" := JStr "reply" ]})
           (JArr [JNum 1])); try (vm_compute; reflexivity).
  left. intros payload. discriminate.
Defined.


(** ** The length of a truncated text *)

Section TruncationLengths.

(** A text longer than the limit is cut to its first [a] and last [b]
    characters around the separator. *)
Lemma truncate_with_long (a b : Z) (sep : string) (max_chars : Z) (t : string) :
  (1 <= a <= max_chars)%Z -> (1 <= b <= max_chars)%Z -> (max_chars < len (strip t))%Z ->
  Spec.truncate_with a b sep max_chars t
  = take (Z.to_nat a) (strip t) ++ sep
    ++ drop (String.length (strip t) - Z.to_nat b) (strip t)
  /\ len (Spec.truncate_with a b sep max_chars t) = (a + len sep + b)%Z.
Proof.
  intros A B Long. unfold len in *.
  assert (E : Spec.truncate_with a b sep max_chars t
              = take (Z.to_nat a) (strip t) ++ sep
                ++ drop (String.length (strip t) - Z.to_nat b) (strip t)).
  { unfold Spec.truncate_with, slice_to, slice_from, len. cbv zeta.
    destruct (Z.leb_spec (Z.of_nat (String.length (strip t))) max_chars); [lia |].
    destruct (Z.ltb_spec a 0); [lia |]. destruct (Z.ltb_spec (- b) 0); [| lia].
    do 3 f_equal. lia. }
  split; [exact E |].
  destruct (joined_ends_fixed (strip t) sep (Z.to_nat a) (Z.to_nat b)
              (strip_lstrip t) (strip_rstrip t) ltac:(lia) ltac:(lia))
    as (_ & Len & _).
  rewrite E, Len. lia.
Qed.

(** With nothing kept at the end, the slice [t[-0:]] is the whole text. *)
Lemma truncate_with_no_tail (a : Z) (sep : string) (max_chars : Z) (t : string) :
  (0 <= a)%Z -> (max_chars < len (strip t))%Z ->
  Spec.truncate_with a 0 sep max_chars t = take (Z.to_nat a) (strip t) ++ sep ++ strip t.
Proof.
  intros A Long. unfold Spec.truncate_with, slice_to, slice_from. cbv zeta.
  destruct (Z.leb_spec (len (strip t)) max_chars); [lia |].
  destruct (Z.ltb_spec a 0); [lia |]. reflexivity.
Qed.

(** X15. [trim] of short_context_snippets, on a text whose stripped length
    exceeds a limit of at least 2, returns the first and the last
    [max_chars // 2] characters of the stripped text around " ... ": the
    result has 2 * (max_chars // 2) + 5 characters, at least 4 more than the
    limit. *)
Theorem trim_long_text_length (max_chars : Z) (t : string) :
  (2 <= max_chars)%Z -> (max_chars < len (strip t))%Z ->
  let half := Z.to_nat (max_chars / 2) in
  UtilsDom.trim max_chars t
  = take half (strip t) ++ " ... " ++ drop (String.length (strip t) - half) (strip t)
  /\ len (UtilsDom.trim max_chars t) = (2 * (max_chars / 2) + 5)%Z
  /\ (max_chars + 4 <= len (UtilsDom.trim max_chars t))%Z.
Proof.
  intros Two Long half. rewrite trim_shape.
  assert (H1 : (1 <= max_chars / 2 <= max_chars)%Z).
  { split; [apply Z.div_le_lower_bound; lia | apply Z.div_le_upper_bound; lia]. }
  destruct (truncate_with_long (max_chars / 2) (max_chars / 2) " ... " max_chars t H1 H1 Long)
    as [E L].
  split; [exact E |]. rewrite L. change (len " ... ") with 5%Z.
  split; [lia |].
  pose proof (Z.div_mod max_chars 2 ltac:(lia)).
  pose proof (Z.mod_pos_bound max_chars 2 ltac:(lia)). lia.
Qed.

Lemma trim_long_text_length_witness :
  UtilsDom.trim 4 " abcdefgh " = "ab ... gh" /\ len (UtilsDom.trim 4 " abcdefgh ") = 9%Z.
Proof.
  destruct (trim_long_text_length 4 " abcdefgh " ltac:(lia) ltac:(vm_compute; reflexivity))
    as (E & L & _).
  split; [exact E | exact L].
Defined.

(** X16. With a limit of at least 3, the result of [_smart_truncate] has at most
    [max_chars + 31] characters; for a text whose stripped length exceeds
    the limit it has at least [max_chars + 30], so it is longer than the
    limit by the marker. *)
Theorem smart_truncate_length_bound (max_chars : Z) (t : string) :
  (3 <= max_chars)%Z ->
  (len (BedrockPrompt._smart_truncate t max_chars) <= max_chars + 31)%Z
  /\ ((max_chars < len (strip t))%Z ->
      (max_chars + 30 <= len (BedrockPrompt._smart_truncate t max_chars))%Z).
Proof.
  intros Three. rewrite smart_truncate_shape.
  assert (A : (1 <= max_chars * 6 ÷ 10 <= max_chars)%Z).
  { rewrite Z.quot_div_nonneg by lia. split;
      [apply Z.div_le_lower_bound; lia | apply Z.div_le_upper_bound; lia]. }
  assert (B : (1 <= max_chars * 4 ÷ 10 <= max_chars)%Z).
  { rewrite Z.quot_div_nonneg by lia. split;
      [apply Z.div_le_lower_bound; lia | apply Z.div_le_upper_bound; lia]. }
  assert (S : (max_chars - 1 <= max_chars * 6 ÷ 10 + max_chars * 4 ÷ 10 <= max_chars)%Z).
  { rewrite !Z.quot_div_nonneg by lia.
    pose proof (Z.div_mod (max_chars * 6) 10 ltac:(lia)).
    pose proof (Z.mod_pos_bound (max_chars * 6) 10 ltac:(lia)).
    pose proof (Z.div_mod (max_chars * 4) 10 ltac:(lia)).
    pose proof (Z.mod_pos_bound (max_chars * 4) 10 ltac:(lia)). lia. }
  destruct (Z.leb_spec (len (strip t)) max_chars) as [Short | Long].
  - rewrite truncate_with_short by exact Short. split; lia.
  - destruct (truncate_with_long _ _ BedrockPrompt.truncation_marker max_chars t A B Long)
      as [_ L].
    rewrite L. change (len BedrockPrompt.truncation_marker) with 31%Z. split; lia.
Qed.

Lemma smart_truncate_length_bound_witness :
  (len (BedrockPrompt._smart_truncate "abcdefgh" 5) <= 5 + 31)%Z.
Proof. apply (smart_truncate_length_bound 5 "abcdefgh"). lia. Defined.

(** X17. When the limit is so small that no character is kept at the end (0 or 1
    for [trim], 0 to 2 for [_smart_truncate]), the slice [t[-0:]] is the
    whole text: a text longer than the limit comes back whole after the
    separator, and the result is longer than the input. *)
Theorem truncation_keeps_whole_text_at_tiny_limits (max_chars : Z) (t : string) :
  (max_chars < len (strip t))%Z ->
  ((0 <= max_chars <= 1)%Z -> UtilsDom.trim max_chars t = " ... " ++ strip t)
  /\ ((0 <= max_chars <= 2)%Z ->
      BedrockPrompt._smart_truncate t max_chars
      = take (Z.to_nat (max_chars * 6 / 10)) (strip t)
        ++ BedrockPrompt.truncation_marker ++ strip t).
Proof.
  intros Long. split; intros R.
  - rewrite trim_shape.
    assert (max_chars / 2 = 0)%Z as -> by (apply Z.div_small; lia).
    apply truncate_with_no_tail; [lia | exact Long].
  - rewrite smart_truncate_shape.
    assert (max_chars = 0 \/ max_chars = 1 \/ max_chars = 2)%Z as [-> | [-> | ->]] by lia;
      apply (truncate_with_no_tail _ BedrockPrompt.truncation_marker); (exact Long || (vm_compute; congruence)).
Qed.
End TruncationLengths.

Lemma truncation_keeps_whole_text_at_tiny_limits_witness :
  UtilsDom.trim 1 "abc" = " ... abc"
  /\ BedrockPrompt._smart_truncate "abc" 2 = "a" ++ BedrockPrompt.truncation_marker ++ "abc".
Proof.
  destruct (truncation_keeps_whole_text_at_tiny_limits 1 "abc" ltac:(vm_compute; reflexivity))
    as [A _].
  destruct (truncation_keeps_whole_text_at_tiny_limits 2 "abc" ltac:(vm_compute; reflexivity))
    as [_ B].
  split; [apply A; lia | apply B; lia].
Defined.

(** ** Cleaning a model response *)

Section ResponseCleaning.
Import BedrockPrompt.
Context `{Platform}.

Lemma take_drop (n : nat) (s : string) : take n s ++ drop n s = s.
Proof.
  revert s. induction n as [| n IH]; intros [| c s]; simpl; try reflexivity.
  rewrite IH. reflexivity.
Qed.

Lemma endswith_spec (suffix s : string) :
  endswith suffix s = true <-> exists pre, s = pre ++ suffix.
Proof.
  unfold endswith. rewrite andb_true_iff, Nat.leb_le, String.eqb_eq. split.
  - intros [L E]. exists (take (String.length s - String.length suffix) s).
    rewrite <- (take_drop (String.length s - String.length suffix) s) at 1.
    f_equal. exact E.
  - intros [pre ->]. rewrite length_append. split; [lia |].
    replace (String.length pre + String.length suffix - String.length suffix)%nat
      with (String.length pre) by lia.
    apply drop_append_exact.
Qed.

Lemma append_eq_append (a b c d : string) :
  a ++ b = c ++ d ->
  (exists e, a = c ++ e /\ d = e ++ b) \/ (exists e, c = a ++ e /\ b = e ++ d).
Proof.
  revert c. induction a as [| x a IH]; intros c E.
  - right. exists c. auto.
  - destruct c as [| y c].
    + left. exists (String x a). auto.
    + simpl in E. injection E as -> E. destruct (IH _ E) as [(e & -> & ->) | (e & -> & ->)].
      * left. exists e. auto.
      * right. exists e. auto.
Qed.

Lemma contains_append_r (sub a b : string) : contains sub b = true -> contains sub (a ++ b) = true.
Proof.
  rewrite !contains_spec. intros (pre & post & ->). exists (a ++ pre), post.
  rewrite append_assoc. reflexivity.
Qed.

Lemma contains_append_l (sub a b : string) : contains sub a = true -> contains sub (a ++ b) = true.
Proof.
  rewrite !contains_spec. intros (pre & post & ->). exists pre, (post ++ b).
  rewrite !append_assoc. reflexivity.
Qed.

(** A text that ends with a fence has a back-tick in each of its non-empty
    suffixes. *)
Lemma fence_suffix (u v : string) :
  endswith "```" (u ++ v) = true -> v <> "" -> contains "`" v = true.
Proof.
  rewrite endswith_spec. intros [z E] NE.
  apply append_eq_append in E as [(e & -> & E) | (e & -> & E)].
  - destruct v as [| c v]; [congruence |].
    destruct e as [| x e]; simpl in E; [inversion E; subst; reflexivity |].
    destruct e as [| y e]; simpl in E; [inversion E; subst; reflexivity |].
    destruct e as [| z' e]; simpl in E; [inversion E; subst; reflexivity |].
    destruct e; simpl in E; discriminate.
  - subst v. apply contains_append_r. reflexivity.
Qed.

Lemma find_char_append (c : ascii) (pre rest : string) :
  contains (String c "") pre = false ->
  find_char c (pre ++ String c rest) = Some (String.length pre).
Proof.
  induction pre as [| a pre IH]; simpl; intros N.
  - rewrite Ascii.eqb_refl. reflexivity.
  - apply orb_false_elim in N as [N1 N2].
    rewrite andb_true_r in N1. rewrite Ascii.eqb_sym, N1, (IH N2). reflexivity.
Qed.

Lemma rfind_char_none (c : ascii) (s : string) :
  contains (String c "") s = false -> rfind_char c s = None.
Proof.
  induction s as [| a s IH]; simpl; intros N; [reflexivity |].
  apply orb_false_elim in N as [N1 N2].
  rewrite andb_true_r in N1. rewrite (IH N2), Ascii.eqb_sym, N1. reflexivity.
Qed.

Lemma rfind_char_append (c : ascii) (pre post : string) :
  contains (String c "") post = false ->
  rfind_char c (pre ++ String c post) = Some (String.length pre).
Proof.
  intros N. induction pre as [| a pre IH]; simpl.
  - rewrite (rfind_char_none _ _ N), Ascii.eqb_refl. reflexivity.
  - rewrite IH. reflexivity.
Qed.

Lemma split_on_nonempty (c : ascii) (s : string) : split_on c s <> [].
Proof.
  destruct s as [| a s]; simpl; [discriminate |].
  destruct (Ascii.eqb a c); [discriminate |]. destruct (split_on c s); discriminate.
Qed.

Lemma join_cons (sep h h' : string) (t : list string) :
  join sep (h :: h' :: t) = h ++ sep ++ join sep (h' :: t).
Proof. reflexivity. Qed.

Lemma join_split_on (c : ascii) (s : string) : join (String c "") (split_on c s) = s.
Proof.
  induction s as [| a s IH]; [reflexivity |].
  pose proof (split_on_nonempty c s) as NE.
  simpl split_on. destruct (split_on c s) as [| h t]; [congruence |].
  destruct (Ascii.eqb_spec a c) as [-> | N].
  - rewrite join_cons, IH. reflexivity.
  - destruct t as [| h' t].
    + simpl in *. congruence.
    + rewrite join_cons in *. rewrite <- IH. reflexivity.
Qed.

Lemma split_on_append (c : ascii) (first rest : string) :
  contains (String c "") first = false ->
  split_on c (first ++ String c rest) = first :: split_on c rest.
Proof.
  induction first as [| a first IH]; simpl; intros N.
  - rewrite Ascii.eqb_refl. reflexivity.
  - apply orb_false_elim in N as [N1 N2]. rewrite andb_true_r in N1.
    rewrite Ascii.eqb_sym, N1, (IH N2). reflexivity.
Qed.

Lemma rstrip_ticks_append (x s : string) :
  rstrip_ticks s <> "" -> rstrip_ticks (x ++ s) = x ++ rstrip_ticks s.
Proof.
  intros NE. induction x as [| a x IH]; [reflexivity |].
  simpl. rewrite IH. destruct (x ++ rstrip_ticks s) eqn:E; [| reflexivity].
  destruct x; simpl in E; [congruence | discriminate].
Qed.

Lemma startswith_head (p : string) (c : ascii) (s : string) :
  startswith p (String c s) = true -> p = "" \/ exists p', p = String c p'.
Proof.
  destruct p as [| a p]; [auto |]. simpl. intros E.
  apply andb_prop in E as [E _]. apply Ascii.eqb_eq in E. subst. eauto.
Qed.

(** X18. A response whose first character after stripping is an opening brace,
    and which does not end with a code fence, is handed to [json.loads]
    stripped and otherwise unchanged: nothing is cut after the object. *)
Theorem coerce_json_object_first (response_text : string) :
  startswith "{" (strip response_text) = true ->
  endswith "```" (strip response_text) = false ->
  coerce_json response_text = json_loads (strip response_text).
Proof.
  intros B F. unfold coerce_json. cbv zeta.
  destruct (strip response_text) as [| c s] eqn:E; [discriminate |].
  assert (c = "{"%char) as ->.
  { apply startswith_head in B as [B | [p' B]]; [discriminate | congruence]. }
  change (startswith "```" (String "{" s)) with false. cbv iota.
  rewrite F. rewrite <- E, strip_idem, E. reflexivity.
Qed.

(** Stripping leaves a text alone that starts and ends with a character
    that is not white space. *)
Lemma strip_object (body post : string) :
  rstrip post = post -> strip ("{" ++ body ++ "}" ++ post) = "{" ++ body ++ "}" ++ post.
Proof.
  intros R. apply strip_fixed; [reflexivity |].
  assert (T : rstrip ("}" ++ post) = "}" ++ post).
  { destruct post as [| c post]; [reflexivity |].
    apply rstrip_append_fixed; [discriminate | exact R]. }
  rewrite <- (append_assoc "{" body).
  apply rstrip_append_fixed; [discriminate | exact T].
Qed.

Lemma rstrip_append_blank (x s : string) : rstrip s = "" -> rstrip (x ++ s) = rstrip x.
Proof.
  intros B. induction x as [| a x IH]; simpl; [exact B |]. rewrite IH. reflexivity.
Qed.

Lemma lstrip_ticks_fixed (s : string) : startswith "`" s = false -> lstrip_ticks s = s.
Proof.
  destruct s as [| c s]; [reflexivity |]. intros N.
  change (startswith "`" (String c s)) with (Ascii.eqb "`" c && true) in N.
  rewrite andb_true_r in N. apply Ascii.eqb_neq in N.
  simpl. destruct c as [[] [] [] [] [] [] [] []]; try reflexivity. congruence.
Qed.

Lemma object_rstrip (body : string) : rstrip ("{" ++ body ++ "}") = "{" ++ body ++ "}".
Proof.
  rewrite <- (append_assoc "{" body).
  apply rstrip_append_fixed; [discriminate | reflexivity].
Qed.

(** X19. [coerce_json] unwraps a JSON object inside a code fence: for a language
    tag that is "json", "javascript" or empty (in any letter case, with
    white space around it), the response made of the opening fence with the
    tag, the object on the following lines and the closing fence on a line
    of its own is parsed as the object alone. *)
Theorem coerce_json_fenced (tag body : string) :
  lower (strip tag) = "json" \/ lower (strip tag) = "javascript" \/ lower (strip tag) = "" ->
  contains nl tag = false -> startswith "`" tag = false ->
  coerce_json ("```" ++ tag ++ nl ++ ("{" ++ body ++ "}") ++ nl ++ "```")
  = json_loads ("{" ++ body ++ "}").
Proof.
  intros Tag NoNl NoTick. unfold coerce_json. cbv zeta.
  set (p := "{" ++ body ++ "}").
  assert (Rp : rstrip p = p) by apply object_rstrip.
  assert (W : "```" ++ tag ++ nl ++ p ++ nl ++ "```" = ("```" ++ tag ++ nl ++ p ++ nl) ++ "```").
  { rewrite !append_assoc. reflexivity. }
  assert (S0 : strip ("```" ++ tag ++ nl ++ p ++ nl ++ "```")
               = "```" ++ tag ++ nl ++ p ++ nl ++ "```").
  { apply strip_fixed; [reflexivity |]. rewrite W.
    apply rstrip_append_fixed; [discriminate | reflexivity]. }
  rewrite S0.
  change (startswith "```" ("```" ++ tag ++ nl ++ p ++ nl ++ "```")) with true. cbv iota.
  assert (L : lstrip_ticks ("```" ++ tag ++ nl ++ p ++ nl ++ "```")
              = (tag ++ nl ++ p) ++ nl ++ "```").
  { change (lstrip_ticks ("```" ++ tag ++ nl ++ p ++ nl ++ "```"))
      with (lstrip_ticks (tag ++ nl ++ p ++ nl ++ "```")).
    rewrite lstrip_ticks_fixed; [rewrite !append_assoc; reflexivity |].
    destruct tag; [reflexivity | exact NoTick]. }
  rewrite L.
  rewrite rstrip_ticks_append by (vm_compute; discriminate).
  change (rstrip_ticks (nl ++ "```")) with nl.
  rewrite !append_assoc.
  assert (C : contains nl (tag ++ nl ++ p ++ nl) = true).
  { apply contains_spec. exists tag, (p ++ nl). reflexivity. }
  rewrite C.
  change (tag ++ nl ++ p ++ nl) with (tag ++ String "010" (p ++ nl)).
  rewrite split_on_append by exact NoNl.
  assert (T : String.eqb (lower (strip tag)) "json" || String.eqb (lower (strip tag)) "javascript"
              || String.eqb (lower (strip tag)) "" = true).
  { destruct Tag as [-> | [-> | ->]]; reflexivity. }
  rewrite T.
  assert (J : join nl (split_on "010" (p ++ nl)) = p ++ nl) by apply join_split_on.
  rewrite J.
  assert (E : endswith "```" (p ++ nl) = false).
  { destruct (endswith "```" (p ++ nl)) eqn:E; [| reflexivity].
    apply fence_suffix in E; [discriminate E | discriminate]. }
  rewrite E.
  assert (S1 : strip (p ++ nl) = p).
  { unfold strip. change (lstrip (p ++ nl)) with (p ++ nl).
    rewrite rstrip_append_blank by reflexivity. exact Rp. }
  rewrite S1. reflexivity.
Qed.

(** X20. [coerce_json] cuts an object out of the prose around it: when the
    response starts with text that holds no opening brace, and the text
    after the object holds no closing brace and no back-tick, the text from
    the first opening brace to the last closing brace is what [json.loads]
    receives. *)
Theorem coerce_json_after_prose (pre body post : string) :
  pre <> "" -> lstrip pre = pre -> startswith "`" pre = false ->
  contains "{" pre = false ->
  rstrip post = post -> contains "}" post = false -> contains "`" post = false ->
  coerce_json (pre ++ "{" ++ body ++ "}" ++ post) = json_loads ("{" ++ body ++ "}").
Proof.
  intros NE Lp NoTickPre NoOpen Rp NoClose NoTick. unfold coerce_json. cbv zeta.
  set (q := "{" ++ body ++ "}" ++ post).
  destruct pre as [| c pre]; [congruence |].
  assert (Cb : Ascii.eqb "{" c = false).
  { change (contains "{" (String c pre))
      with (Ascii.eqb "{" c && true || contains "{" pre) in NoOpen.
    apply orb_false_elim in NoOpen as [N _]. rewrite andb_true_r in N. exact N. }
  assert (Ct : Ascii.eqb "`" c = false).
  { change (startswith "`" (String c pre)) with (Ascii.eqb "`" c && true) in NoTickPre.
    rewrite andb_true_r in NoTickPre. exact NoTickPre. }
  assert (Rq : rstrip q = q).
  { pose proof (strip_object body post Rp) as S. fold q in S.
    rewrite <- S at 2. rewrite <- S at 1. apply strip_rstrip. }
  assert (S0 : strip (String c pre ++ q) = String c pre ++ q).
  { apply strip_fixed.
    - apply lstrip_append_fixed; [discriminate | exact Lp].
    - apply rstrip_append_fixed; [discriminate | exact Rq]. }
  rewrite S0.
  assert (F : startswith "```" (String c pre ++ q) = false).
  { change (startswith "```" (String c pre ++ q))
      with (Ascii.eqb "`" c && startswith "``" (pre ++ q)).
    rewrite Ct. reflexivity. }
  rewrite F.
  assert (E : endswith "```" (String c pre ++ q) = false).
  { destruct (endswith "```" (String c pre ++ q)) eqn:E; [| reflexivity].
    assert (Sp : String c pre ++ q = (String c pre ++ "{" ++ body) ++ "}" ++ post).
    { unfold q. rewrite !append_assoc. reflexivity. }
    rewrite Sp in E. apply fence_suffix in E; [| discriminate].
    change (contains "`" ("}" ++ post)) with (false || contains "`" post) in E.
    rewrite NoTick in E. discriminate E. }
  rewrite E, S0.
  assert (B : startswith "{" (String c pre ++ q) = false).
  { change (startswith "{" (String c pre ++ q)) with (Ascii.eqb "{" c && true).
    rewrite Cb. reflexivity. }
  rewrite B. cbn [negb].
  assert (Fi : find_char "{" (String c pre ++ q) = Some (String.length (String c pre))).
  { apply find_char_append, NoOpen. }
  assert (Rf : rfind_char "}" (String c pre ++ q)
               = Some (String.length (String c pre ++ "{" ++ body))).
  { assert (Sp : String c pre ++ q = (String c pre ++ "{" ++ body) ++ String "}" post).
    { unfold q. rewrite !append_assoc. reflexivity. }
    rewrite Sp. apply rfind_char_append, NoClose. }
  rewrite Fi, Rf. rewrite drop_append_exact.
  f_equal.
  replace (String.length (String c pre ++ "{" ++ body) + 1 - String.length (String c pre))%nat
    with (String.length ("{" ++ body ++ "}")).
  - replace q with (("{" ++ body ++ "}") ++ post).
    + apply take_append_exact.
    + unfold q. simpl. f_equal. apply append_assoc.
  - rewrite !length_append. simpl. lia.
Qed.
End ResponseCleaning.

Lemma coerce_json_object_first_witness :
  @BedrockPrompt.coerce_json Stub.platform (" {} and more") = @json_loads Stub.platform "{} and more".
Proof.
  apply (@coerce_json_object_first Stub.platform); vm_compute; reflexivity.
Defined.

Lemma coerce_json_fenced_witness :
  @BedrockPrompt.coerce_json Stub.platform
    ("```" ++ "JSON" ++ BedrockPrompt.nl ++ "{" ++ "1" ++ "}" ++ BedrockPrompt.nl ++ "```")
  = @json_loads Stub.platform "{1}".
Proof.
  apply (@coerce_json_fenced Stub.platform "JSON" "1"); [left |..]; reflexivity.
Defined.

Lemma coerce_json_after_prose_witness :
  @BedrockPrompt.coerce_json Stub.platform ("Result: " ++ "{" ++ "1" ++ "}" ++ " (end)")
  = @json_loads Stub.platform "{1}".
Proof.
  apply (@coerce_json_after_prose Stub.platform "Result: " "1" " (end)");
    reflexivity || discriminate.
Defined.

(** ** The visible text of a document *)

Section VisibleText.
Import UtilsDom.

Lemma rstrip_append_kept (x s : string) : rstrip s <> "" -> rstrip (x ++ s) = x ++ rstrip s.
Proof.
  intros NE. induction x as [| a x IH]; [reflexivity |].
  simpl. rewrite IH. destruct (x ++ rstrip s) eqn:E; [| reflexivity].
  destruct x; simpl in E; [congruence | discriminate].
Qed.

Lemma rstrip_head_kept (c : ascii) (s : string) : is_space c = false -> rstrip (String c s) <> "".
Proof. intros Sp. simpl. rewrite Sp. destruct (rstrip s); discriminate. Qed.

Lemma split_ws_from_nonempty (cur s : string) : cur <> "" -> split_ws_from cur s <> [].
Proof.
  revert cur. induction s as [| c s IH]; intros cur NE; simpl.
  - destruct (String.eqb_spec cur ""); [congruence | discriminate].
  - destruct (is_space c).
    + destruct (String.eqb_spec cur ""); [congruence | discriminate].
    + apply IH. destruct cur; discriminate.
Qed.

Lemma append_char_assoc (cur : string) (c : ascii) (s : string) :
  (cur ++ String c "") ++ s = cur ++ String c s.
Proof. rewrite append_assoc. reflexivity. Qed.

(** The collapsed text after a word in progress, and after white space. *)
Lemma collapse_split (s : string) :
  (forall cur, cur <> "" -> rstrip cur = cur ->
     rstrip (cur ++ collapse_ws_from false s) = join " " (split_ws_from cur s))
  /\ (lstrip (collapse_ws_from true s) = collapse_ws_from true s
      /\ rstrip (collapse_ws_from true s) = join " " (split_ws_from "" s)
      /\ (split_ws_from "" s = [] -> collapse_ws_from true s = "")
      /\ (split_ws_from "" s <> [] -> rstrip (collapse_ws_from true s) <> "")).
Proof.
  induction s as [| c s [IHa IHb]].
  - split.
    + intros cur NE R. simpl. rewrite append_nil_r, R.
      destruct (String.eqb_spec cur ""); [congruence | reflexivity].
    + simpl. repeat split; congruence.
  - destruct IHb as (IHl & IHr & IHe & IHn).
    assert (A : forall cur, cur <> "" -> rstrip cur = cur ->
              rstrip (cur ++ collapse_ws_from false (String c s))
              = join " " (split_ws_from cur (String c s))).
    { intros cur NE R. simpl. destruct (is_space c) eqn:Sp.
      - destruct (String.eqb_spec cur ""); [congruence |].
        destruct (split_ws_from "" s) as [| h t] eqn:W.
        + rewrite (IHe eq_refl).
          change (cur ++ " ") with (cur ++ " " ++ "").
          rewrite rstrip_append_blank by reflexivity. exact R.
        + change (cur ++ String " " (collapse_ws_from true s))
            with (cur ++ " " ++ collapse_ws_from true s).
          rewrite <- append_assoc.
          rewrite rstrip_append_kept by (apply IHn; discriminate).
          rewrite IHr, append_assoc. reflexivity.
      - rewrite <- append_char_assoc. apply IHa.
        + destruct cur; discriminate.
        + apply rstrip_append_fixed; [discriminate |]. simpl. rewrite Sp. reflexivity. }
    split; [exact A |].
    simpl. destruct (is_space c) eqn:Sp.
    + repeat split; assumption.
    + assert (R1 : rstrip (String c "") = String c "") by (simpl; rewrite Sp; reflexivity).
      pose proof (IHa (String c "") ltac:(discriminate) R1) as A1.
      change (String c "" ++ collapse_ws_from false s)
        with (String c (collapse_ws_from false s)) in A1.
      change ("" ++ String c "") with (String c "").
      repeat split.
      * simpl. rewrite Sp. reflexivity.
      * exact A1.
      * intros E. exfalso. revert E. apply split_ws_from_nonempty. discriminate.
      * intros _. apply rstrip_head_kept, Sp.
Qed.

(** [" ".join(text.split())] *)
Lemma strip_collapse_ws (s : string) : strip (collapse_ws s) = join " " (split_ws s).
Proof.
  destruct (collapse_split s) as [_ (L & R & _)].
  unfold strip, collapse_ws, split_ws.
  assert (E : lstrip (collapse_ws_from false s) = collapse_ws_from true s).
  { destruct s as [| c s]; [reflexivity |].
    cbn [collapse_ws_from] in *. destruct (is_space c) eqn:Sp.
    - change (lstrip (String " " (collapse_ws_from true s)))
        with (lstrip (collapse_ws_from true s)). exact L.
    - cbn [lstrip]. rewrite Sp. reflexivity. }
  rewrite E. exact R.
Qed.

Lemma spaceless_append (a b : string) :
  Spec.spaceless (a ++ b) = Spec.spaceless a && Spec.spaceless b.
Proof. induction a as [| c a IH]; simpl; [reflexivity |]. rewrite IH, andb_assoc. reflexivity. Qed.

(** The words of [s.split()] are not empty and hold no white space. *)
Lemma split_ws_from_words (cur s : string) :
  Spec.spaceless cur = true ->
  Forall (fun w => w <> "" /\ Spec.spaceless w = true) (split_ws_from cur s).
Proof.
  revert cur. induction s as [| c s IH]; intros cur C; simpl.
  - destruct (String.eqb_spec cur ""); constructor; auto.
  - destruct (is_space c) eqn:Sp.
    + destruct (String.eqb_spec cur ""); [apply IH; reflexivity |].
      constructor; [auto | apply IH; reflexivity].
    + apply IH. rewrite spaceless_append, C. simpl. rewrite Sp. reflexivity.
Qed.

Lemma split_ws_from_word (cur w s : string) :
  Spec.spaceless w = true -> split_ws_from cur (w ++ s) = split_ws_from (cur ++ w) s.
Proof.
  revert cur. induction w as [| c w IH]; intros cur W.
  - rewrite append_nil_r. reflexivity.
  - simpl in W. apply andb_prop in W as [Sp W]. apply negb_true_iff in Sp.
    simpl. rewrite Sp, (IH _ W), append_char_assoc. reflexivity.
Qed.

Lemma split_ws_from_space (cur s : string) :
  cur <> "" -> split_ws_from cur (String " " s) = cur :: split_ws_from "" s.
Proof.
  intros NE. change (split_ws_from cur (String " " s))
    with (if String.eqb cur "" then split_ws_from "" s else cur :: split_ws_from "" s).
  destruct (String.eqb_spec cur ""); [congruence | reflexivity].
Qed.

(** Splitting the words joined by single spaces gives the words back. *)
Lemma split_ws_join (ws : list string) :
  Forall (fun w => w <> "" /\ Spec.spaceless w = true) ws ->
  split_ws (join " " ws) = ws.
Proof.
  unfold split_ws. induction ws as [| w ws IH]; intros F; [reflexivity |].
  inversion F as [| ? ? [NE W] F']; subst.
  destruct ws as [| w' ws].
  - simpl join. rewrite <- (append_nil_r w) at 1.
    rewrite split_ws_from_word by exact W. simpl.
    destruct (String.eqb_spec w ""); [congruence | reflexivity].
  - rewrite join_cons, split_ws_from_word by exact W.
    change ("" ++ w) with w.
    change (" " ++ join " " (w' :: ws)) with (String " " (join " " (w' :: ws))).
    rewrite split_ws_from_space by exact NE.
    rewrite (IH F'). reflexivity.
Qed.

Lemma linebreak_is_space (c : ascii) : is_linebreak c = true -> is_space c = true.
Proof.
  unfold is_linebreak, is_space. intros E.
  apply orb_prop in E as [E | E]; apply andb_prop in E as [E1 E2];
    apply N.leb_le in E1, E2; apply orb_true_iff; [left | right];
    apply andb_true_iff; split; apply N.leb_le; lia.
Qed.

(** A text whose only white space is the space character is one line. *)
Lemma splitlines_from_single (cur s : string) :
  (forall c, In c (list_ascii_of_string s) -> is_linebreak c = false) ->
  splitlines_from cur false s = if String.eqb (cur ++ s) "" then [] else [cur ++ s].
Proof.
  revert cur. induction s as [| c s IH]; intros cur N.
  - simpl. rewrite append_nil_r. reflexivity.
  - simpl. rewrite (N c (or_introl eq_refl)).
    rewrite IH by (intros d D; apply N; right; exact D).
    rewrite append_char_assoc. reflexivity.
Qed.

Lemma join_words_chars (ws : list string) (c : ascii) :
  Forall (fun w => w <> "" /\ Spec.spaceless w = true) ws ->
  In c (list_ascii_of_string (join " " ws)) -> is_linebreak c = false.
Proof.
  assert (W : forall w, Spec.spaceless w = true ->
                In c (list_ascii_of_string w) -> is_linebreak c = false).
  { induction w as [| a w IHw]; simpl; [tauto |]. intros E [-> | I].
    - apply andb_prop in E as [E _]. apply negb_true_iff in E.
      destruct (is_linebreak c) eqn:L; [| reflexivity].
      apply linebreak_is_space in L. congruence.
    - apply andb_prop in E as [_ E]. auto. }
  assert (A : forall a b, In c (list_ascii_of_string (a ++ b)) ->
                In c (list_ascii_of_string a) \/ In c (list_ascii_of_string b)).
  { induction a as [| x a IHa]; simpl; [auto |]. intros b [-> | I]; [auto |].
    destruct (IHa _ I); auto. }
  induction ws as [| w ws IH]; intros F I; [destruct I |].
  inversion F as [| ? ? [_ Sw] F']; subst.
  destruct ws as [| w' ws]; [exact (W _ Sw I) |].
  rewrite join_cons in I. apply A in I as [I | I]; [exact (W _ Sw I) |].
  apply A in I as [I | I]; [| exact (IH F' I)].
  destruct I as [<- | []]. reflexivity.
Qed.

Context `{Platform}.

(** X21. [extract_visible_text] returns the words of the text of the document
    (its maximal runs of characters that are not white space) joined by
    single spaces, and the empty string for an empty document. *)
Theorem extract_visible_text_joins_words (html_content : string) :
  extract_visible_text html_content
  = match html_content with
    | "" => ""
    | _ => join " " (split_ws (soup_text html_content))
    end.
Proof.
  unfold extract_visible_text. destruct html_content; [reflexivity |].
  apply strip_collapse_ws.
Qed.

(** X22. The text of [extract_visible_text] has the words of the text of the
    document, is left unchanged by the normalization that produced it, and
    is at most one line for [splitlines]. *)
Theorem visible_text_words_and_lines (html_content : string) :
  let text := extract_visible_text html_content in
  split_ws text
  = match html_content with "" => [] | _ => split_ws (soup_text html_content) end
  /\ strip (collapse_ws text) = text
  /\ splitlines text = (if String.eqb text "" then [] else [text]).
Proof.
  cbv zeta. rewrite extract_visible_text_joins_words.
  destruct html_content as [| c0 h0]; [repeat split; reflexivity |].
  set (raw := soup_text (String c0 h0)).
  pose proof (split_ws_from_words "" raw eq_refl) as F. fold (split_ws raw) in F.
  pose proof (split_ws_join _ F) as J.
  split; [exact J |]. split.
  - rewrite strip_collapse_ws, J. reflexivity.
  - unfold splitlines. rewrite splitlines_from_single; [reflexivity |].
    intros c I. exact (join_words_chars _ c F I).
Qed.
End VisibleText.

(** ** The Hamming distance of two hashes *)

Section HashDistance.
Import UtilsImage.

Lemma pos_popcount_pos (p : positive) : (0 < pos_popcount p)%Z.
Proof. induction p; simpl; lia. Qed.

Lemma popcount_nonneg (n : Z) : (0 <= popcount n)%Z.
Proof. destruct n; simpl; [lia | |]; pose proof (pos_popcount_pos p); lia. Qed.

Lemma popcount_zero (n : Z) : popcount n = 0%Z <-> n = 0%Z.
Proof.
  destruct n; simpl; split; try reflexivity; try discriminate;
    pose proof (pos_popcount_pos p); lia.
Qed.

(** X23. [hamming] is symmetric, never negative, and 0 exactly for equal
    integers. *)
Theorem hamming_distance_laws (a b : Z) :
  hamming a b = hamming b a
  /\ (0 <= hamming a b)%Z
  /\ (hamming a b = 0%Z <-> a = b).
Proof.
  unfold hamming. split; [rewrite Z.lxor_comm; reflexivity |].
  split; [apply popcount_nonneg |].
  rewrite popcount_zero. apply Z.lxor_eq_0_iff.
Qed.

Lemma int_of_bits_acc (bits : list bool) (acc : Z) :
  fold_left (fun acc (b : bool) => (2 * acc + (if b then 1 else 0))%Z) bits acc
  = (acc * 2 ^ Z.of_nat (List.length bits) + int_of_bits bits)%Z.
Proof.
  unfold int_of_bits. revert acc. induction bits as [| b bits IH]; intros acc.
  - simpl. lia.
  - cbn [fold_left List.length]. rewrite IH, (IH (2 * 0 + _)%Z).
    rewrite Nat2Z.inj_succ, Z.pow_succ_r by lia. ring.
Qed.

Lemma int_of_bits_snoc (bits : list bool) (b : bool) :
  int_of_bits (bits ++ [b]) = (2 * int_of_bits bits + Z.b2z b)%Z.
Proof.
  unfold int_of_bits. rewrite fold_left_app. simpl. destruct b; reflexivity.
Qed.

Lemma int_of_bits_range (bits : list bool) :
  (0 <= int_of_bits bits < 2 ^ Z.of_nat (List.length bits))%Z.
Proof.
  induction bits as [| b bits IH] using rev_ind; [change (0 <= 0 < 1)%Z; lia |].
  rewrite int_of_bits_snoc, length_app, Nat2Z.inj_add, Z.pow_add_r by lia.
  change (2 ^ Z.of_nat (List.length [b]))%Z with 2%Z.
  destruct b; cbn [Z.b2z]; lia.
Qed.

Lemma popcount_double (n : Z) (b : bool) :
  (0 <= n)%Z -> popcount (2 * n + Z.b2z b) = (popcount n + Z.b2z b)%Z.
Proof.
  intros N. destruct n as [| p | p]; [destruct b; reflexivity | | lia].
  destruct b; cbn [Z.b2z].
  - change (2 * Z.pos p + 1)%Z with (Z.pos p~1). simpl. lia.
  - change (2 * Z.pos p + 0)%Z with (Z.pos p~0). simpl. lia.
Qed.

Lemma lxor_double (m n : Z) (x y : bool) :
  Z.lxor (2 * m + Z.b2z x) (2 * n + Z.b2z y) = (2 * Z.lxor m n + Z.b2z (xorb x y))%Z.
Proof.
  apply Z.bits_inj'. intros i Hi.
  rewrite Z.lxor_spec.
  destruct (Z.eq_dec i 0) as [-> | N].
  - rewrite !Z.testbit_0_r. reflexivity.
  - replace i with (Z.succ (i - 1)) by lia.
    rewrite !Z.testbit_succ_r by lia. symmetry. apply Z.lxor_spec.
Qed.

Lemma combine_append {A B} (xs xs' : list A) (ys ys' : list B) :
  List.length xs = List.length ys ->
  combine (xs ++ xs') (ys ++ ys') = (combine xs ys ++ combine xs' ys')%list.
Proof.
  revert ys. induction xs as [| x xs IH]; intros [| y ys] L; simpl in *; try discriminate.
  - reflexivity.
  - rewrite IH by lia. reflexivity.
Qed.

Lemma differing_bits_snoc (xs ys : list bool) (x y : bool) :
  List.length xs = List.length ys ->
  Spec.differing_bits (xs ++ [x]) (ys ++ [y])
  = (Spec.differing_bits xs ys + Z.b2z (xorb x y))%Z.
Proof.
  intros L. unfold Spec.differing_bits.
  rewrite combine_append by exact L. rewrite List.filter_app, length_app.
  simpl. destruct (xorb x y); simpl; lia.
Qed.

(** X24. For two bit strings of the same length, [hamming] of the integers that
    [int(bits, 2)] reads from them is the number of positions at which the
    strings differ. *)
Theorem hamming_counts_differing_bits (xs ys : list bool) :
  List.length xs = List.length ys ->
  hamming (int_of_bits xs) (int_of_bits ys) = Spec.differing_bits xs ys.
Proof.
  revert ys. induction xs as [| x xs IH] using rev_ind; intros ys L.
  - destruct ys; [reflexivity | discriminate].
  - destruct ys as [| y ys _] using rev_ind.
    + rewrite length_app in L. simpl in L. lia.
    + rewrite !length_app in L. simpl in L.
      assert (L' : List.length xs = List.length ys) by lia.
      rewrite differing_bits_snoc by exact L'.
      rewrite !int_of_bits_snoc. unfold hamming in *.
      rewrite lxor_double, popcount_double.
      * rewrite IH by exact L'. reflexivity.
      * apply Z.lxor_nonneg. pose proof (int_of_bits_range xs).
        pose proof (int_of_bits_range ys). lia.
Qed.
End HashDistance.

Lemma hamming_counts_differing_bits_witness :
  UtilsImage.hamming (UtilsImage.int_of_bits [true; false; true; false])
                     (UtilsImage.int_of_bits [true; true; false; false]) = 2%Z.
Proof.
  apply (hamming_counts_differing_bits [true; false; true; false] [true; true; false; false]).
  reflexivity.
Defined.

(** ** The range of the hashes *)

Section HashRanges.
Import UtilsImage.
Context `{Platform}.

(** X25. [ahash] raises a [ZeroDivisionError] exactly for an empty pixel list and
    otherwise returns a number of as many bits as there are pixels; [dhash]
    raises an [IndexError] exactly when the 9 by 9 image has fewer than 81
    pixels and otherwise returns a number of 72 bits, eight for each of the
    nine rows. *)
Theorem hash_ranges_and_errors (img : image) :
  (ahash img = Raised "ZeroDivisionError" <-> gray_pixels img 8 8 = [])
  /\ (forall a, ahash img = Ok a ->
        (0 <= a < 2 ^ Z.of_nat (List.length (gray_pixels img 8 8)))%Z)
  /\ (dhash img = Raised "IndexError" <-> (List.length (gray_pixels img 9 9) < 81)%nat)
  /\ (forall d, dhash img = Ok d -> (0 <= d < 2 ^ 72)%Z).
Proof.
  split; [| split; [| split]].
  - unfold ahash. cbv zeta. destruct (gray_pixels img 8 8); split; congruence.
  - intros a. unfold ahash. cbv zeta. destruct (gray_pixels img 8 8) as [| p px] eqn:E;
      [discriminate |].
    intros [= <-].
    match goal with |- (0 <= int_of_bits ?l < 2 ^ Z.of_nat ?n)%Z =>
      replace n with (List.length l) by (simpl; rewrite length_map; reflexivity) end.
    apply int_of_bits_range.
  - unfold dhash. cbv zeta. destruct (Nat.ltb_spec (List.length (gray_pixels img 9 9)) 81);
      split; intros; try congruence; try lia.
  - intros d. unfold dhash. cbv zeta.
    destruct (Nat.ltb_spec (List.length (gray_pixels img 9 9)) 81); [discriminate |].
    intros [= <-].
    match goal with |- (0 <= int_of_bits ?l < _)%Z =>
      pose proof (int_of_bits_range l) as R;
      assert (L : List.length l = 72%nat) by reflexivity
    end.
    rewrite L in R. exact R.
Qed.
End HashRanges.

(** ** The perceptual similarity of two images *)

Section PerceptualSimilarity.
Local Open Scope Q_scope.
Import UtilsImage.
Context `{Platform}.

(** The similarity for [n] differing hash bits in all. *)
Lemma similarity_of_bits (ha hd : Z) :
  py_round (py_max 0 (py_min 1 (1 - (inject_Z ha / 64 + inject_Z hd / 64) / 2))) 4
  = py_round (py_max 0 (py_min 1 (1 - inject_Z (ha + hd) / 128))) 4.
Proof.
  apply py_round_proper. rewrite !py_max_Qmax, !py_min_Qmin.
  apply Q.max_compat; [reflexivity |]. apply Q.min_compat; [reflexivity |].
  rewrite inject_Z_plus. field.
Qed.

Lemma similarity_of_bits_antitone (m n : Z) :
  (m <= n)%Z ->
  py_round (py_max 0 (py_min 1 (1 - inject_Z n / 128))) 4
  <= py_round (py_max 0 (py_min 1 (1 - inject_Z m / 128))) 4.
Proof.
  intros L. apply py_round_mono, py_max_mono, py_min_mono.
  assert (I : inject_Z m <= inject_Z n) by (rewrite <- Zle_Qle; exact L).
  assert (D : inject_Z m / 128 <= inject_Z n / 128).
  { apply Qmult_le_compat_r; [exact I | discriminate]. }
  set (x := inject_Z m / 128) in *. set (y := inject_Z n / 128) in *. lra.
Qed.

(** X26. When the four hashes are computed, [perceptual_similarity] returns the
    same value for both orders of the two images; the value lies between 0
    and 1, is 1 exactly when both hashes of the images agree, and is below
    0.98 exactly when at least three hash bits differ in all. *)
Theorem perceptual_similarity_of_hashes (a b : image) (ah1 ah2 dh1 dh2 : Z) :
  ahash a = Ok ah1 -> ahash b = Ok ah2 -> dhash a = Ok dh1 -> dhash b = Ok dh2 ->
  exists r,
    perceptual_similarity a b = Ok r
    /\ perceptual_similarity b a = Ok r
    /\ 0 <= r <= 1
    /\ (r == 1 <-> ah1 = ah2 /\ dh1 = dh2)
    /\ (r < 0.98 <-> (3 <= hamming ah1 ah2 + hamming dh1 dh2)%Z).
Proof.
  intros A1 A2 D1 D2. unfold perceptual_similarity. rewrite A1, A2, D1, D2.
  cbn [mbind result_bind]. cbv zeta.
  destruct (hamming_distance_laws ah1 ah2) as (Sa & Na & Za).
  destruct (hamming_distance_laws dh1 dh2) as (Sd & Nd & Zd).
  rewrite <- Sa, <- Sd.
  eexists. split; [reflexivity |]. split; [reflexivity |].
  rewrite similarity_of_bits.
  set (n := (hamming ah1 ah2 + hamming dh1 dh2)%Z) in *.
  assert (N : (0 <= n)%Z) by (unfold n; lia).
  set (f := fun k : Z => py_round (py_max 0 (py_min 1 (1 - inject_Z k / 128))) 4).
  change (0 <= f n <= 1 /\ (f n == 1 <-> ah1 = ah2 /\ dh1 = dh2) /\ (f n < 0.98 <-> (3 <= n)%Z)).
  assert (F0 : f 0%Z == 1) by (vm_compute; reflexivity).
  assert (F1 : f 1%Z < 1) by (vm_compute; reflexivity).
  assert (F2 : 0.98 <= f 2%Z) by (vm_compute; discriminate).
  assert (F3 : f 3%Z < 0.98) by (vm_compute; reflexivity).
  assert (Anti : forall j k, (j <= k)%Z -> f k <= f j)
    by (intros j k; apply similarity_of_bits_antitone).
  split; [split |].
  - unfold f. apply (py_round_ge _ 4 0), py_max_ge_l.
  - unfold f. apply (py_round_le _ 4 1), py_max_lub; [discriminate | apply py_min_le_l].
  - split.
    + split.
      * intros E. rewrite <- Za, <- Zd.
        destruct (Z.eq_dec n 0) as [Z0 | NZ]; [unfold n in Z0; lia |].
        pose proof (Anti 1%Z n ltac:(lia)). lra.
      * intros [Ea Ed]. apply Za in Ea. apply Zd in Ed.
        assert (n = 0%Z) as -> by (unfold n; lia). exact F0.
    + split.
      * intros L. destruct (Z_lt_le_dec n 3) as [Lt | Ge]; [| exact Ge].
        pose proof (Anti n 2%Z ltac:(lia)). lra.
      * intros Ge. pose proof (Anti 3%Z n Ge). lra.
Qed.
End PerceptualSimilarity.

Lemma perceptual_similarity_of_hashes_witness :
  exists r, @UtilsImage.perceptual_similarity Stub.platform 0%Z 255%Z = Ok r /\ (r == 1)%Q.
Proof.
  destruct (@perceptual_similarity_of_hashes Stub.platform 0%Z 255%Z 0%Z 0%Z 0%Z 0%Z
              eq_refl eq_refl eq_refl eq_refl) as (r & E & _ & _ & One & _).
  exists r. split; [exact E | apply One; split; reflexivity].
Defined.

(** ** Labels and monotonicity of the alternate score *)

Section ImportanceLabels.
Local Open Scope Q_scope.
Import Importance.
Context `{Platform}.

(** X27. [alert_from_label] never fails on a label of [label_from_score]: a score
    below 4.5 gives "low" and "low", a score from 4.5 to below 7.5 gives
    "medium" and "med", and a score of 7.5 or more gives "critical" and
    "crit".  Any other label is a missing key. *)
Theorem label_and_alert_of_score (score : Q) :
  (exists label alert,
      label_from_score score = label /\ alert_from_label label = Some alert
      /\ ((score < 4.5 /\ label = "low" /\ alert = "low")
          \/ (4.5 <= score /\ score < 7.5 /\ label = "medium" /\ alert = "med")
          \/ (7.5 <= score /\ label = "critical" /\ alert = "crit")))
  /\ (forall label,
        label <> "low" -> label <> "medium" -> label <> "critical" ->
        alert_from_label label = None).
Proof.
  split.
  - unfold label_from_score.
    destruct (Qltb score 4.5) eqn:A.
    + exists "low", "low". repeat split; try reflexivity.
      left. split; [apply Qltb_lt, A | auto].
    + apply Qltb_ge in A. destruct (Qltb score 7.5) eqn:B.
      * exists "medium", "med". repeat split; try reflexivity.
        right; left. repeat split; [exact A | apply Qltb_lt, B].
      * exists "critical", "crit". repeat split; try reflexivity.
        right; right. split; [apply Qltb_ge, B | auto].
  - intros label N1 N2 N3. unfold alert_from_label.
    rewrite lookup_insert_ne by congruence.
    rewrite lookup_insert_ne by congruence.
    apply lookup_singleton_ne. congruence.
Qed.

Lemma importance_base_monotone (st st' sv sv' : Q) (goal : string) (kws : option (list string)) :
  st' <= st -> sv' <= sv ->
  match kws with
  | None | Some [] => (1 - st) * 0.6 + (1 - sv) * 0.4
  | Some ks =>
      let key_hits :=
        Z.of_nat (List.length (List.filter (fun k => contains (lower k) (lower goal)) ks)) in
      if (key_hits =? 0)%Z then (1 - st) * 0.6 + (1 - sv) * 0.4
      else (1 - st) * 0.6 + (1 - sv) * 0.4 + 0.05 * inject_Z key_hits
  end
  <= match kws with
     | None | Some [] => (1 - st') * 0.6 + (1 - sv') * 0.4
     | Some ks =>
         let key_hits :=
           Z.of_nat (List.length (List.filter (fun k => contains (lower k) (lower goal)) ks)) in
         if (key_hits =? 0)%Z then (1 - st') * 0.6 + (1 - sv') * 0.4
         else (1 - st') * 0.6 + (1 - sv') * 0.4 + 0.05 * inject_Z key_hits
     end.
Proof.
  intros Ht Hv. destruct kws as [[| k ks] |]; try lra.
  cbv zeta. destruct (_ =? 0)%Z; lra.
Qed.

(** X28. [compute_importance_score] is monotone: for the same goal, domain and
    keywords, lower text and visual similarities never give a lower score;
    the counts of added and removed words do not enter the score. *)
Theorem importance_score_monotone (ta tr ta' tr' : Z) (st st' sv sv' : Q)
    (goal domain : string) (kws : option (list string)) :
  st' <= st -> sv' <= sv ->
  fst (compute_importance_score ta tr st sv goal domain kws)
  <= fst (compute_importance_score ta' tr' st' sv' goal domain kws).
Proof.
  intros Ht Hv. unfold compute_importance_score. cbv zeta. cbn [fst].
  apply py_round_mono.
  apply Qmult_le_compat_r; [| discriminate].
  apply py_min_mono.
  pose proof (domain_weight_ge_1 (lower domain)) as W.
  apply Qmult_le_compat_r; [| lra].
  apply importance_base_monotone; assumption.
Qed.
End ImportanceLabels.

Lemma importance_score_monotone_witness :
  (fst (@Importance.compute_importance_score Stub.platform 0 0 0.9 1 "watch price" "pricing"
          (Some ["price"]))
   <= fst (@Importance.compute_importance_score Stub.platform 5 5 0.5 0.75 "watch price" "pricing"
             (Some ["price"])))%Q.
Proof.
  apply (@importance_score_monotone Stub.platform); vm_compute; discriminate.
Defined.

(** ** The object in a model reply *)

Section ObjectPattern.
Import Re LlmAdapter.

Lemma greedy_no_brace {A} (k : string -> caps -> option A) (post : string) (c : caps) :
  contains "}" post = false -> greedy_cls (fun _ => true) (Spec.after_any k) post c = None.
Proof.
  induction post as [| a post IH]; intros N; [reflexivity |].
  change (contains "}" (String a post))
    with (Ascii.eqb "}" a && true || contains "}" post) in N.
  apply orb_false_elim in N as [N1 N2]. rewrite andb_true_r in N1.
  cbn [greedy_cls]. rewrite (IH N2). cbn [orelse].
  unfold Spec.after_any. cbn [strip_prefix]. rewrite N1. reflexivity.
Qed.

Lemma greedy_last_brace {A} (k : string -> caps -> option A) (mid post : string) (c : caps)
    (r : A) :
  contains "}" post = false -> k post c = Some r ->
  greedy_cls (fun _ => true) (Spec.after_any k) (mid ++ "}" ++ post) c = Some r.
Proof.
  intros N K. induction mid as [| a mid IH].
  - change ("" ++ "}" ++ post) with (String "}" post). cbn [greedy_cls].
    rewrite (greedy_no_brace k post c N). cbn [orelse].
    unfold Spec.after_any. cbn [strip_prefix]. rewrite Ascii.eqb_refl. exact K.
  - change (String a mid ++ "}" ++ post) with (String a (mid ++ "}" ++ post)).
    cbn [greedy_cls]. rewrite IH. reflexivity.
Qed.

Lemma object_match_at (mid post : string) :
  contains "}" post = false ->
  match_at object_re ("{" ++ mid ++ "}" ++ post)
  = Some {| whole := "{" ++ mid ++ "}"; groups := [] |}.
Proof.
  intros N. unfold match_at, object_re.
  change (m (Seq (Lit "{") (Seq (Star true (Cls (fun _ => true))) (Lit "}")))
            ("{" ++ mid ++ "}" ++ post) []
            (fun s' c => Some {| whole := consumed ("{" ++ mid ++ "}" ++ post) s'; groups := c |}))
    with (m (Star true (Cls (fun _ => true))) (mid ++ "}" ++ post) []
            (Spec.after_any (fun s' c =>
               Some {| whole := consumed ("{" ++ mid ++ "}" ++ post) s'; groups := c |}))).
  rewrite m_greedy_cls.
  erewrite greedy_last_brace; [reflexivity | exact N |].
  f_equal. f_equal.
  replace ("{" ++ mid ++ "}" ++ post) with (("{" ++ mid ++ "}") ++ post).
  - apply consumed_append.
  - simpl. f_equal. apply append_assoc.
Qed.

Lemma object_match_miss (a : ascii) (s : string) :
  Ascii.eqb "{" a = false -> match_at object_re (String a s) = None.
Proof.
  intros N. unfold match_at, object_re. cbn [m strip_prefix]. rewrite N. reflexivity.
Qed.

Lemma object_search (pre mid post : string) :
  contains "{" pre = false -> contains "}" post = false ->
  search object_re (pre ++ "{" ++ mid ++ "}" ++ post)
  = Some {| whole := "{" ++ mid ++ "}"; groups := [] |}.
Proof.
  intros No Nc. induction pre as [| a pre IH].
  - change ("" ++ "{" ++ mid ++ "}" ++ post) with ("{" ++ mid ++ "}" ++ post).
    change ("{" ++ mid ++ "}" ++ post) with (String "{" (mid ++ "}" ++ post)) at 1.
    cbn [search].
    change (String "{" (mid ++ "}" ++ post)) with ("{" ++ mid ++ "}" ++ post).
    rewrite (object_match_at mid post Nc). reflexivity.
  - change (contains "{" (String a pre))
      with (Ascii.eqb "{" a && true || contains "{" pre) in No.
    apply orb_false_elim in No as [N1 N2]. rewrite andb_true_r in N1.
    change (String a pre ++ "{" ++ mid ++ "}" ++ post)
      with (String a (pre ++ "{" ++ mid ++ "}" ++ post)).
    cbn [search]. rewrite (object_match_miss _ _ N1). apply IH, N2.
Qed.

Lemma object_search_none (text : string) :
  contains "{" text = false -> search object_re text = None.
Proof.
  induction text as [| a text IH]; intros N.
  - reflexivity.
  - change (contains "{" (String a text))
      with (Ascii.eqb "{" a && true || contains "{" text) in N.
    apply orb_false_elim in N as [N1 N2]. rewrite andb_true_r in N1.
    cbn [search]. rewrite (object_match_miss _ _ N1). apply IH, N2.
Qed.

Context `{Platform}.

(** X29. With Bedrock enabled, [summarize_with_llm] parses the text of the reply
    from its first opening brace to its last closing brace, and returns
    [None] for a reply without an opening brace. *)
Theorem summarize_parses_first_brace_to_last (w : World) (prompt reply : string) :
  USE_BEDROCK w = true ->
  bedrock_complete w (MODEL_ID w) prompt = Some reply ->
  (forall pre mid post,
      reply = pre ++ "{" ++ mid ++ "}" ++ post ->
      contains "{" pre = false -> contains "}" post = false ->
      summarize_with_llm w prompt = json_loads ("{" ++ mid ++ "}"))
  /\ (contains "{" reply = false -> summarize_with_llm w prompt = None).
Proof.
  intros U R. unfold summarize_with_llm. rewrite U, R. cbn [negb mbind option_bind]. split.
  - intros pre mid post -> No Nc. rewrite (object_search pre mid post No Nc). reflexivity.
  - intros N. rewrite (object_search_none reply N). reflexivity.
Qed.
End ObjectPattern.

Lemma summarize_parses_first_brace_to_last_witness :
  let P := Stub.platform_with_json [("{x}", JObj {[ "summary_change" := JStr "ok" ]})] in
  @LlmAdapter.summarize_with_llm P (Stub.world_with_bedrock "t" "Here: {x}.") "prompt"
  = @json_loads P "{x}".
Proof.
  intros P.
  destruct (@summarize_parses_first_brace_to_last P (Stub.world_with_bedrock "t" "Here: {x}.")
              "prompt" "Here: {x}." eq_refl eq_refl) as [A _].
  apply (A "Here: " "x" "."); reflexivity.
Defined.

(** ** The summary of a model reply *)

Section ModelReplies.
Local Open Scope Q_scope.
Context `{Platform}.

Lemma analyze_change_with_reply (w : World)
    (prev_dom cur_dom : string) (prev_ss cur_ss : image_ref) (goal domain url : string)
    (keywords : option (list string)) (payload : gmap string json) (r : Schemas.ChangeResult) :
  (forall prompt, LlmAdapter.summarize_with_llm w prompt = Some (JObj payload)) ->
  payload <> ∅ ->
  Pipeline.analyze_change w prev_dom cur_dom prev_ss cur_ss goal domain url keywords = Ok r ->
  exists t, default (JStr "") (payload !! "summary_change") = JStr t
            /\ Schemas.summary_change r = take 500 t.
Proof.
  intros Reply NE E.
  assert (T : LlmAdapter.truthy (JObj payload) = true).
  { unfold LlmAdapter.truthy. apply negb_true_iff, bool_decide_eq_false. exact NE. }
  unfold Pipeline.analyze_change in E.
  apply bind_Ok in E as (prev_img & _ & E).
  apply bind_Ok in E as (cur_img & _ & E).
  apply bind_Ok in E as (sim_visual & _ & E).
  destruct (UtilsDom.text_diff_stats _ _) as [[[added removed] diff_lines] sim_text].
  destruct (UtilsDom.short_context_snippets _ _ _) as [ps cs].
  rewrite Reply, T in E.
  apply bind_Ok in E as (sv & Esv & E).
  apply bind_Ok in E as (summary & Es & E).
  cbn [Json.get of_option] in Esv. injection Esv as <-.
  destruct (default (JStr "") (payload !! "summary_change")) as [| | | t | |] eqn:D;
    try discriminate Es.
  injection Es as <-. exists t. split; [reflexivity |].
  destruct (Importance.compute_importance_score _ _ _ _ _ _ _) as [score_10 rationale].
  apply bind_Ok in E as (alert & _ & E).
  apply make_Ok in E as [-> _]. reflexivity.
Qed.

Lemma analyze_change_bad_summary (w : World)
    (prev_dom cur_dom : string) (prev_ss cur_ss : image_ref) (goal domain url : string)
    (keywords : option (list string)) (payload : gmap string json) (v : json) :
  (forall prompt, LlmAdapter.summarize_with_llm w prompt = Some (JObj payload)) ->
  payload !! "summary_change" = Some v -> (forall t, v <> JStr t) ->
  exists exn, Pipeline.analyze_change w prev_dom cur_dom prev_ss cur_ss goal domain url
                keywords = Raised exn.
Proof.
  intros Reply L NotStr.
  destruct (Pipeline.analyze_change w prev_dom cur_dom prev_ss cur_ss goal domain url keywords)
    as [r | exn] eqn:E; [| eauto].
  exfalso.
  assert (NE : payload <> ∅) by (intros ->; rewrite lookup_empty in L; discriminate).
  destruct (analyze_change_with_reply _ _ _ _ _ _ _ _ _ _ _ Reply NE E) as (t & D & _).
  rewrite L in D. simpl in D. exact (NotStr t D).
Qed.

(** X30. [analyze_change] takes the summary from a non-empty model reply as it
    is: a reply without the key "summary_change" gives an empty summary, a
    string is cut to 500 characters, and any other value makes the call
    raise instead of falling back to the local summary. *)
Theorem analyze_change_takes_summary_unchecked (w : World)
    (prev_dom cur_dom : string) (prev_ss cur_ss : image_ref) (goal domain url : string)
    (keywords : option (list string)) (payload : gmap string json) :
  (forall prompt, LlmAdapter.summarize_with_llm w prompt = Some (JObj payload)) ->
  payload <> ∅ ->
  let outcome :=
    Pipeline.analyze_change w prev_dom cur_dom prev_ss cur_ss goal domain url keywords in
  (payload !! "summary_change" = None ->
     forall r, outcome = Ok r -> Schemas.summary_change r = "")
  /\ (forall t, payload !! "summary_change" = Some (JStr t) ->
     forall r, outcome = Ok r -> Schemas.summary_change r = take 500 t)
  /\ (forall v, payload !! "summary_change" = Some v -> (forall t, v <> JStr t) ->
      exists exn, outcome = Raised exn).
Proof.
  intros Reply NE outcome. split; [| split].
  - intros L r E.
    destruct (analyze_change_with_reply _ _ _ _ _ _ _ _ _ _ _ Reply NE E) as (t & D & ->).
    rewrite L in D. injection D as <-. reflexivity.
  - intros t L r E.
    destruct (analyze_change_with_reply _ _ _ _ _ _ _ _ _ _ _ Reply NE E) as (t' & D & ->).
    rewrite L in D. injection D as <-. reflexivity.
  - intros v L NotStr. exact (analyze_change_bad_summary _ _ _ _ _ _ _ _ _ _ _ Reply L NotStr).
Qed.
End ModelReplies.

Lemma analyze_change_takes_summary_unchecked_witness :
  let P := Stub.platform_with_json [("{x}", JObj {[ "summary_change" := JStr "ok" ]})] in
  let w := Stub.world_with_bedrock "t" "Here: {x}." in
  exists r,
    @Pipeline.analyze_change P w "<p>a</p>" "<p>b</p>" RefNone RefNone "goal" "pricing" "u" None
    = Ok r
    /\ Schemas.summary_change r = "ok".
Proof.
  intros P w.
  assert (E : exists r,
             @Pipeline.analyze_change P w "<p>a</p>" "<p>b</p>" RefNone RefNone
               "goal" "pricing" "u" None = Ok r) by (vm_compute; eauto).
  destruct E as [r E]. exists r. split; [exact E |].
  assert (Reply : forall prompt,
             @LlmAdapter.summarize_with_llm P w prompt
             = Some (JObj {[ "summary_change" := JStr "ok" ]})).
  { intros prompt. vm_compute. reflexivity. }
  assert (NE : ({[ "summary_change" := JStr "ok" ]} : gmap string json) <> ∅).
  { intros Em. pose proof (lookup_empty (M := gmap string) (A := json) "summary_change") as L.
    rewrite <- Em in L. vm_compute in L. discriminate. }
  destruct (@analyze_change_takes_summary_unchecked P w "<p>a</p>" "<p>b</p>" RefNone RefNone
              "goal" "pricing" "u" None _ Reply NE) as (_ & Str & _).
  apply (Str "ok"); [vm_compute; reflexivity | exact E].
Defined.
